(** * ontapv3: exam session, answer-key resolver and grading reduction

    A shallow embedding of the exam-taking component ([StudentExam]), the
    results component ([ResultAnalysis]) and the grading service
    ([gradeSubmission] in services/geminiService.ts), with the properties
    of the specification stated and settled against it.

    Conventions of the embedding.
    - A JS string is represented by its UTF-8 encoding, a Rocq [string].
    - A JS object used as a map ([Record<string, string>]) is the
      [gmap string string] of its own properties.  The answers of the
      exam are keyed by the question identifiers of the assignment on
      screen, which [generateUniqueId] makes of the form
      q_<time>_<random>; none of them is a name a plain object inherits
      from [Object.prototype], and the answer store is read as its own
      properties.  The feedback map of [gradeSubmission] is keyed by what
      the collaborator sends and by the identifiers of any assignment,
      so its reads and writes go through [truthyProperty] and
      [setProperty], which take the inherited names into account.
    - A JS number is a binary64 value, a [spec_float] with precision 53 and
      maximal exponent 1024; indices and second counts, which the code only
      moves by one, are integers in [Z].
    - React state is an explicit record; an event handler is a function
      from state to state.  Objects held by reference live in a heap of
      allocations, so that sharing between the component state and a
      submission is visible. *)

From Stdlib Require Import ZArith Lia Bool List Ascii.
From Stdlib Require Import SpecFloat.
From stdpp Require Import base gmap strings list pretty.

Local Open Scope Z_scope.

#[local] Set Warnings "-clear-no-such-hyp".

(** ** types.ts *)

Inductive QuestionType := MCQ | TRUE_FALSE | SHORT_ANSWER | ESSAY.

Record Question := {
  q_id : string;
  q_type : QuestionType;
  q_content : string;
  q_options : option (list string);      (* options?: string[] *)
  q_correctAnswer : option string;       (* correctAnswer?: string *)
  q_imageSvg : option string
}.

Record Assignment := {
  a_id : string;
  a_title : string;
  a_subject : string;
  a_grade : string;
  a_topic : string;
  a_questions : list Question;
  a_createdAt : Z
}.

(** An object reference: the position of the object in the heap. *)
Definition addr := nat.

Record StudentSubmission := {
  assignmentId : string;
  studentName : string;
  studentClass : string;
  sub_answers : addr;                    (* answers: Record<string, string> *)
  submittedAt : Z
}.

Record GradingResult := {
  score : spec_float;
  totalScore : Z;
  feedback : gmap string string;
  overallComment : string
}.

Definition question_ids (a : Assignment) : list string :=
  q_id <$> a_questions a.

Definition questions_length (a : Assignment) : Z :=
  Z.of_nat (length (a_questions a)).

(** ** Strings *)

Module JsString.

(** A string is falsy exactly when it is empty. *)
Definition truthy (s : string) : bool :=
  match s with EmptyString => false | String _ _ => true end.

Fixpoint strip_prefix (p s : string) : option string :=
  match p, s with
  | EmptyString, _ => Some s
  | String a p', String b s' =>
      if Ascii.eqb a b then strip_prefix p' s' else None
  | String _ _, EmptyString => None
  end.

Definition bytes (l : list nat) : string :=
  foldr (fun n s => String (ascii_of_nat n) s) EmptyString l.

(** The WhiteSpace and LineTerminator code points of ECMAScript, in
    UTF-8: TAB, LF, VT, FF, CR, SP, U+00A0, U+1680, U+2000..U+200A,
    U+2028, U+2029, U+202F, U+205F, U+3000, U+FEFF. *)
Definition whiteSpace : list string :=
  (bytes <$> [[9]; [10]; [11]; [12]; [13]; [32]; [194; 160]; [225; 154; 128]])%nat
  ++ ((fun n => bytes [226; 128; n]) <$> seq 128 11)%nat
  ++ (bytes <$> [[226; 128; 168]; [226; 128; 169]; [226; 128; 175];
                 [226; 129; 159]; [227; 128; 128]; [239; 187; 191]])%nat.

Fixpoint strip_first (toks : list string) (s : string) : option string :=
  match toks with
  | [] => None
  | t :: toks' =>
      match strip_prefix t s with
      | Some r => Some r
      | None => strip_first toks' s
      end
  end.

(** Drops leading tokens while there is one; [fuel] bounds the number of
    rounds, and the length of the string is always enough. *)
Fixpoint drop_leading (toks : list string) (fuel : nat) (s : string) : string :=
  match fuel with
  | O => s
  | S fuel' =>
      match strip_first toks s with
      | Some r => drop_leading toks fuel' r
      | None => s
      end
  end.

Definition trimStart (s : string) : string :=
  drop_leading whiteSpace (String.length s) s.

Definition trimEnd (s : string) : string :=
  String.rev (drop_leading (String.rev <$> whiteSpace) (String.length s) (String.rev s)).

(** [String.prototype.trim] *)
Definition trim (s : string) : string := trimEnd (trimStart s).

Definition upper_ascii (c : ascii) : ascii :=
  let n := nat_of_ascii c in
  if ((97 <=? n) && (n <=? 122))%nat then ascii_of_nat (n - 32) else c.

(** [String.prototype.toUpperCase], exact on ASCII.  The characters
    outside ASCII are left as they are; none of them has one of the
    letters A to D as its upper case, so the lookups below are not
    affected. *)
Fixpoint toUpperCase (s : string) : string :=
  match s with
  | EmptyString => EmptyString
  | String c r => String (upper_ascii c) (toUpperCase r)
  end.

End JsString.

(** [Array.prototype.indexOf] on an array of strings: the first position
    holding [x], or -1. *)
Fixpoint indexOf (l : list string) (x : string) : Z :=
  match l with
  | [] => -1
  | y :: l' =>
      if decide (y = x) then 0
      else let i := indexOf l' x in if i =? -1 then -1 else i + 1
  end.

(** [arr[i]] for an integer [i]: [None] stands for [undefined]. *)
Definition at_index {A} (l : list A) (i : Z) : option A :=
  if i <? 0 then None else l !! Z.to_nat i.

Definition letters : list string := ["A"; "B"; "C"; "D"].

(** ** The heap of answer objects *)

Abbreviation Heap := (list (gmap string string)).

Definition deref (h : Heap) (a : addr) : gmap string string :=
  default ∅ (h !! a).

(** A new object is placed after the existing ones, which stay as they
    are; its reference is returned. *)
Definition alloc (h : Heap) (o : gmap string string) : Heap * addr :=
  (h ++ [o], length h).

(** [obj[k]] read as a condition: absent and empty are both falsy. *)
Definition truthy_at (o : gmap string string) (k : string) : bool :=
  match o !! k with
  | Some v => JsString.truthy v
  | None => false
  end.

(** ** StudentExam: the exam-taking component *)

Record ExamState := {
  heap : Heap;
  answers : addr;                        (* useState<Record<string, string>>({}) *)
  isSubmitting : bool;
  currentQuestionIndex : Z;
  isReviewing : bool;
  showSubmitModal : bool;
  timeLeft : Z;
  showSidebar : bool;
  timer : bool                           (* the interval is scheduled *)
}.

Definition initialExamState : ExamState := {|
  heap := [∅];
  answers := 0%nat;
  isSubmitting := false;
  currentQuestionIndex := 0;
  isReviewing := false;
  showSubmitModal := false;
  timeLeft := 45 * 60;
  showSidebar := false;
  timer := true
|}.

(** The state setters.  [setAnswers] takes an updater, as the component
    uses it; the object the updater returns is a new allocation. *)
Definition setAnswers (f : gmap string string → gmap string string)
    (s : ExamState) : ExamState :=
  let '(h, a) := alloc (heap s) (f (deref (heap s) (answers s))) in
  {| heap := h; answers := a; isSubmitting := isSubmitting s;
     currentQuestionIndex := currentQuestionIndex s;
     isReviewing := isReviewing s; showSubmitModal := showSubmitModal s;
     timeLeft := timeLeft s; showSidebar := showSidebar s; timer := timer s |}.

Definition setIsSubmitting (b : bool) (s : ExamState) : ExamState :=
  {| heap := heap s; answers := answers s; isSubmitting := b;
     currentQuestionIndex := currentQuestionIndex s;
     isReviewing := isReviewing s; showSubmitModal := showSubmitModal s;
     timeLeft := timeLeft s; showSidebar := showSidebar s; timer := timer s |}.

Definition setCurrentQuestionIndex (i : Z) (s : ExamState) : ExamState :=
  {| heap := heap s; answers := answers s; isSubmitting := isSubmitting s;
     currentQuestionIndex := i;
     isReviewing := isReviewing s; showSubmitModal := showSubmitModal s;
     timeLeft := timeLeft s; showSidebar := showSidebar s; timer := timer s |}.

Definition setIsReviewing (b : bool) (s : ExamState) : ExamState :=
  {| heap := heap s; answers := answers s; isSubmitting := isSubmitting s;
     currentQuestionIndex := currentQuestionIndex s;
     isReviewing := b; showSubmitModal := showSubmitModal s;
     timeLeft := timeLeft s; showSidebar := showSidebar s; timer := timer s |}.

Definition setShowSubmitModal (b : bool) (s : ExamState) : ExamState :=
  {| heap := heap s; answers := answers s; isSubmitting := isSubmitting s;
     currentQuestionIndex := currentQuestionIndex s;
     isReviewing := isReviewing s; showSubmitModal := b;
     timeLeft := timeLeft s; showSidebar := showSidebar s; timer := timer s |}.

Definition setTimeLeft (t : Z) (s : ExamState) : ExamState :=
  {| heap := heap s; answers := answers s; isSubmitting := isSubmitting s;
     currentQuestionIndex := currentQuestionIndex s;
     isReviewing := isReviewing s; showSubmitModal := showSubmitModal s;
     timeLeft := t; showSidebar := showSidebar s; timer := timer s |}.

Definition setShowSidebar (b : bool) (s : ExamState) : ExamState :=
  {| heap := heap s; answers := answers s; isSubmitting := isSubmitting s;
     currentQuestionIndex := currentQuestionIndex s;
     isReviewing := isReviewing s; showSubmitModal := showSubmitModal s;
     timeLeft := timeLeft s; showSidebar := b; timer := timer s |}.

Definition clearInterval (s : ExamState) : ExamState :=
  {| heap := heap s; answers := answers s; isSubmitting := isSubmitting s;
     currentQuestionIndex := currentQuestionIndex s;
     isReviewing := isReviewing s; showSubmitModal := showSubmitModal s;
     timeLeft := timeLeft s; showSidebar := showSidebar s; timer := false |}.

(** The answer object the component currently holds. *)
Definition currentAnswers (s : ExamState) : gmap string string :=
  deref (heap s) (answers s).

(** What the display of an answer on the review screen shows. *)
Inductive AnswerDisplay :=
  | NotDone                                          (* "Chưa làm" *)
  | KeyWithOption (key : string) (content : option string)
  | RawAnswer (key : string).

Record StudentExamProps := {
  assignment : Assignment;
  p_studentName : string;
  p_studentClass : string
}.

Section StudentExam.

Variable props : StudentExamProps.

(** The callback of the interval, run once a second while scheduled. *)
Definition tick (s : ExamState) : ExamState :=
  if timer s then
    if timeLeft s <=? 0 then setTimeLeft 0 (clearInterval s)
    else setTimeLeft (timeLeft s - 1) s
  else s.

Definition handleAnswerChange (qId val : string) (s : ExamState) : ExamState :=
  setAnswers (fun prev => <[qId := val]> prev) s.

Definition handlePreSubmit (s : ExamState) : ExamState :=
  setShowSubmitModal true s.

(** Returns the next state and the callback handed to [setTimeout]: run
    with the reading of the clock, it yields the argument of [onSubmit].
    The callback closes over the [answers] of the state it was created
    in. *)
Definition handleConfirmSubmit (s : ExamState)
    : ExamState * (Z → StudentSubmission) :=
  (setShowSubmitModal false (setIsSubmitting true s),
   fun now =>
     {| assignmentId := a_id (assignment props);
        studentName := p_studentName props;
        studentClass := p_studentClass props;
        sub_answers := answers s;
        submittedAt := now |}).

Definition goToQuestion (index : Z) (s : ExamState) : ExamState :=
  if (index >=? 0) && (index <? questions_length (assignment props)) then
    setShowSidebar false (setIsReviewing false (setCurrentQuestionIndex index s))
  else s.

Definition handleNext (s : ExamState) : ExamState :=
  if currentQuestionIndex s <? questions_length (assignment props) - 1 then
    setCurrentQuestionIndex (currentQuestionIndex s + 1) s
  else setIsReviewing true s.

Definition handlePrev (s : ExamState) : ExamState :=
  if isReviewing s then setIsReviewing false s
  else if currentQuestionIndex s >? 0 then
    setCurrentQuestionIndex (currentQuestionIndex s - 1) s
  else s.

(** Figures shown in the confirmation dialog and on the review screen. *)
Definition answeredCount (s : ExamState) : Z :=
  Z.of_nat (size (currentAnswers s)).

Definition totalCount : Z := questions_length (assignment props).

Definition unansweredCount (s : ExamState) : Z :=
  totalCount - answeredCount s.

(** [!!answers[q.id]], the marker of a question on the review screen
    ([isAnswered]) and in the side bar ([isDone]). *)
Definition isAnswered (q : Question) (s : ExamState) : bool :=
  truthy_at (currentAnswers s) (q_id q).

(** [assignment.questions.find(item => item.id === qId)] *)
Definition findQuestion (qId : string) : option Question :=
  List.find (fun item => bool_decide (q_id item = qId)) (a_questions (assignment props)).

Definition getAnswerDisplay (qId : string) (s : ExamState) : AnswerDisplay :=
  let q := findQuestion qId in
  let ansKey := currentAnswers s !! qId in
  match q, ansKey with
  | Some q, Some ansKey =>
      if JsString.truthy ansKey then
        match q_type q, q_options q with
        | MCQ, Some options =>
            let idx := indexOf letters ansKey in
            if negb (idx =? -1) then KeyWithOption ansKey (at_index options idx)
            else RawAnswer ansKey
        | _, _ => RawAnswer ansKey
        end
      else NotDone
  | _, _ => NotDone
  end.

(** The events of the exam screen and the handler each one runs. *)
Inductive Event :=
  | Tick
  | AnswerChange (qId val : string)
  | PreSubmit
  | CloseModal
  | ConfirmSubmit
  | GoToQuestion (index : Z)
  | Next
  | Prev
  | EnterReview
  | LeaveReview
  | ToggleSidebar
  | CloseSidebar.

Definition step (e : Event) (s : ExamState) : ExamState :=
  match e with
  | Tick => tick s
  | AnswerChange qId val => handleAnswerChange qId val s
  | PreSubmit => handlePreSubmit s
  | CloseModal => setShowSubmitModal false s
  | ConfirmSubmit => fst (handleConfirmSubmit s)
  | GoToQuestion index => goToQuestion index s
  | Next => handleNext s
  | Prev => handlePrev s
  | EnterReview => setIsReviewing true s
  | LeaveReview => setIsReviewing false s
  | ToggleSidebar => setShowSidebar (negb (showSidebar s)) s
  | CloseSidebar => setShowSidebar false s
  end.

(** Events are handled one at a time, in order. *)
Definition run (es : list Event) (s : ExamState) : ExamState :=
  foldl (fun s e => step e s) s es.

Definition reachable (s : ExamState) : Prop :=
  ∃ es, s = run es initialExamState.

End StudentExam.

(** The states of the navigation as the specification names them. *)
Inductive NavState := Answering (index : Z) | Reviewing.

Definition navState (s : ExamState) : NavState :=
  if isReviewing s then Reviewing else Answering (currentQuestionIndex s).

(** ** ResultAnalysis: the results component *)

(** Maps an option key (A, B, C, D) back to the text of the option.
    [None] is [undefined] for the argument and [null] for the result. *)
Definition getMCQText (q : Question) (key : option string) : option string :=
  match key with
  | None => None
  | Some key =>
      if negb (JsString.truthy key) then None
      else
        match q_type q, q_options q with
        | MCQ, Some options =>
            let idx := indexOf letters (JsString.toUpperCase (JsString.trim key)) in
            if negb (idx =? -1) then
              match at_index options idx with
              | Some text => if JsString.truthy text then Some text else Some key
              | None => Some key
              end
            else Some key
        | _, _ => Some key
        end
  end.

(** ** Numbers *)

Module JsNumber.

Definition prec : Z := 53.
Definition emax : Z := 1024.

(** The number nearest to an integer, as a literal or [arr.length] is. *)
Definition of_Z (z : Z) : spec_float := binary_normalize prec emax z 0 false.

Definition add : spec_float → spec_float → spec_float := SFadd prec emax.
Definition mul : spec_float → spec_float → spec_float := SFmul prec emax.
Definition div : spec_float → spec_float → spec_float := SFdiv prec emax.

(** [x > y] *)
Definition gt (x y : spec_float) : bool := SFltb y x.

(** A number is falsy exactly when it is a zero or NaN. *)
Definition truthy (x : spec_float) : bool :=
  match x with
  | S754_zero _ | S754_nan => false
  | _ => true
  end.

(** The text [toFixed(1)] returns. *)
Inductive fixed :=
  | FixedNaN                               (* "NaN" *)
  | FixedInfinity (neg : bool)             (* "Infinity", "-Infinity" *)
  | FixedTenths (neg : bool) (n : Z)       (* the digits of n, a point before the last *)
  | FixedShortest (x : spec_float).        (* from 1e21 on: the text of ToString *)

(** [m * 2^e >= 10^21] *)
Definition at_least_1e21 (m : positive) (e : Z) : bool :=
  match e with
  | Zneg k => 10 ^ 21 * 2 ^ Zpos k <=? Zpos m
  | _ => 10 ^ 21 <=? Zpos m * 2 ^ e
  end.

(** The integer [n] for which [n / 10] is nearest to [m * 2^e], the
    larger one when two are as near. *)
Definition tenths (m : positive) (e : Z) : Z :=
  match e with
  | Zneg k => (20 * Zpos m + 2 ^ Zpos k) / 2 ^ (Zpos k + 1)
  | _ => 10 * Zpos m * 2 ^ e
  end.

(** [Number.prototype.toFixed] with one fraction digit. *)
Definition toFixed1 (x : spec_float) : fixed :=
  match x with
  | S754_nan => FixedNaN
  | S754_infinity s => FixedInfinity s
  | S754_zero _ => FixedTenths false 0
  | S754_finite s m e =>
      if at_least_1e21 m e then FixedShortest x
      else FixedTenths s (tenths m e)
  end.

(** [parseFloat] on such a text: the number nearest to the decimal. *)
Definition parseFloat (t : fixed) : spec_float :=
  match t with
  | FixedNaN => S754_nan
  | FixedInfinity s => S754_infinity s
  | FixedTenths s (Zpos n) => div (S754_finite s n 0) (S754_finite false 10 0)
  | FixedTenths s _ => S754_zero s
  | FixedShortest x => x
  end.

End JsNumber.

(** ** services/geminiService.ts: gradeSubmission *)

(** What a call that may throw yields. *)
Inductive Outcome (A : Type) :=
  | Returned (a : A)
  | Thrown (message : string).
Arguments Returned {A} a.
Arguments Thrown {A} message.

(** The data [JSON.parse] produces, as far as [gradeSubmission] looks at
    it.  The fields of an assessment have the types of the response
    schema ([gradingSchema]), and each of them may be missing. *)
Record AssessmentItem := {
  item_questionId : option string;
  item_score : option spec_float;
  item_feedback : option string
}.

(** An entry that is a number, a string or a boolean reads like an object
    without fields: each property read gives [undefined]. *)
Inductive Entry :=
  | EntryNull                              (* a [null] in the array *)
  | EntryObject (item : AssessmentItem).

Inductive AssessmentsField :=
  | AssessmentsMissing                     (* absent, or a falsy value *)
  | AssessmentsNotArray                    (* a truthy value that is no array *)
  | AssessmentsArray (entries : list Entry).

(** Parsed data that is a number, a string, a boolean or an array reads
    like an object with neither field. *)
Inductive ParsedData :=
  | DataNull
  | DataObject (assessments : AssessmentsField) (overallComment : option string).

(** What the grading collaborator does on one call. *)
Inductive Response :=
  | CallFailed (message : string)          (* [generateContent] rejects *)
  | InvalidJson (message : string)         (* [JSON.parse] throws *)
  | Json (data : ParsedData).

(** Messages of the type errors, in the wording of V8. *)
Definition typeError_data : string :=
  "Cannot read properties of null (reading 'assessments')".
Definition typeError_forEach : string :=
  "assessments.forEach is not a function".
Definition typeError_item : string :=
  "Cannot read properties of null (reading 'questionId')".

Definition noFeedback : string := "Không có nhận xét.".
Definition noAssessment : string := "Chưa có đánh giá (Lỗi hệ thống hoặc bỏ qua).".
Definition defaultComment : string := "Đã hoàn thành bài tập.".
Definition gradingFailed : string := "AI Grading failed: ".

(** [s || d] for an optional string. *)
Definition string_or (s : option string) (d : string) : string :=
  match s with
  | Some v => if JsString.truthy v then v else d
  | None => d
  end.

(** [item.score || 0] *)
Definition score_or_zero (x : option spec_float) : spec_float :=
  match x with
  | Some v => if JsNumber.truthy v then v else S754_zero false
  | None => S754_zero false
  end.

(** [item.questionId] when it is truthy. *)
Definition recorded_id (item : AssessmentItem) : option string :=
  match item_questionId item with
  | Some qid => if JsString.truthy qid then Some qid else None
  | None => None
  end.

(** ** Plain objects *)

(** The names of the properties of [Object.prototype], which every object
    made by [{}] inherits.  Each holds a function, but [__proto__], an
    accessor whose getter gives the prototype: read through a plain
    object, all of them are truthy. *)
Definition prototypeMembers : list string :=
  ["constructor"; "__defineGetter__"; "__defineSetter__"; "hasOwnProperty";
   "__lookupGetter__"; "__lookupSetter__"; "isPrototypeOf";
   "propertyIsEnumerable"; "toString"; "valueOf"; "__proto__";
   "toLocaleString"].

Definition inherited (k : string) : bool :=
  bool_decide (k ∈ prototypeMembers).

(** [obj[k] = v] for a string [v] on a plain object: under [__proto__] the
    inherited setter runs, which ignores a string, and no own property is
    made; under any other name the own property is made or overwritten. *)
Definition setProperty (k v : string) (o : gmap string string)
    : gmap string string :=
  if decide (k = "__proto__") then o else <[k := v]> o.

(** [obj[k]] read as a condition on a plain object: an own property by
    its value, otherwise what is inherited, if anything. *)
Definition truthyProperty (o : gmap string string) (k : string) : bool :=
  match o !! k with
  | Some v => JsString.truthy v
  | None => inherited k
  end.

(** The state of the reduction: [feedbackMap] and [earnedScore]. *)
Abbreviation Acc := (gmap string string * spec_float)%type.

(** The body of [assessments.forEach]. *)
Definition recordAssessment (acc : Acc) (e : Entry) : Outcome Acc :=
  match e with
  | EntryNull => Thrown typeError_item
  | EntryObject item =>
      match recorded_id item with
      | Some qid =>
          Returned (setProperty qid (string_or (item_feedback item) noFeedback)
                                (fst acc),
                    JsNumber.add (snd acc) (score_or_zero (item_score item)))
      | None => Returned acc
      end
  end.

Fixpoint forEachAssessment (entries : list Entry) (acc : Acc) : Outcome Acc :=
  match entries with
  | [] => Returned acc
  | e :: entries' =>
      match recordAssessment acc e with
      | Returned acc' => forEachAssessment entries' acc'
      | Thrown m => Thrown m
      end
  end.

(** The body of [assignment.questions.forEach]: questions the reply
    skipped get the placeholder. *)
Definition backfillQuestion (feedbackMap : gmap string string) (q : Question)
    : gmap string string :=
  if negb (truthyProperty feedbackMap (q_id q))
  then setProperty (q_id q) noAssessment feedbackMap
  else feedbackMap.

Definition backfill (qs : list Question) (feedbackMap : gmap string string)
    : gmap string string :=
  foldl backfillQuestion feedbackMap qs.

(** [data.assessments || []], then the call of [forEach] on it. *)
Definition reduceAssessments (f : AssessmentsField) : Outcome Acc :=
  match f with
  | AssessmentsMissing => forEachAssessment [] (∅, S754_zero false)
  | AssessmentsNotArray => Thrown typeError_forEach
  | AssessmentsArray entries => forEachAssessment entries (∅, S754_zero false)
  end.

Definition normalize (earnedScore maxScore : spec_float) : spec_float :=
  if JsNumber.gt maxScore (S754_zero false)
  then JsNumber.mul (JsNumber.div earnedScore maxScore) (JsNumber.of_Z 10)
  else S754_zero false.

(** The [try] block of [gradeSubmission], after the call has returned. *)
Definition gradeReply (assignment : Assignment) (data : ParsedData)
    : Outcome GradingResult :=
  match data with
  | DataNull => Thrown typeError_data
  | DataObject assessments comment =>
      let maxScore :=
        JsNumber.mul (JsNumber.of_Z (questions_length assignment)) (JsNumber.of_Z 10) in
      match reduceAssessments assessments with
      | Thrown m => Thrown m
      | Returned (feedbackMap, earnedScore) =>
          let feedbackMap := backfill (a_questions assignment) feedbackMap in
          let normalizedScore := normalize earnedScore maxScore in
          Returned {| score := JsNumber.parseFloat (JsNumber.toFixed1 normalizedScore);
                      totalScore := 10;
                      feedback := feedbackMap;
                      overallComment := string_or comment defaultComment |}
      end
  end.

(** [gradeSubmission]: whatever is thrown inside the [try] block is
    thrown again with the prefix. *)
Definition gradeSubmission (assignment : Assignment) (submission : StudentSubmission)
    (response : Response) : Outcome GradingResult :=
  let attempt :=
    match response with
    | CallFailed m => Thrown m
    | InvalidJson m => Thrown m
    | Json data => gradeReply assignment data
    end in
  match attempt with
  | Returned r => Returned r
  | Thrown m => Thrown (gradingFailed +:+ m)
  end.

(** ** ResultAnalysis: fetching the grade *)

Inductive EmailStatus := idle | sending | success.

Record ResultState := {
  result : option GradingResult;
  loading : bool;
  errorMsg : option string;
  emailStatus : EmailStatus
}.

Definition initialResultState : ResultState :=
  {| result := None; loading := true; errorMsg := None; emailStatus := idle |}.

(** [fetchGrade], from its first line to the end of [finally]. *)
Definition fetchGrade (assignment : Assignment) (submission : StudentSubmission)
    (teacherEmail : string) (response : Response) (s : ResultState) : ResultState :=
  match gradeSubmission assignment submission response with
  | Returned gradeResult =>
      {| result := Some gradeResult;
         loading := false;
         errorMsg := None;
         emailStatus := if JsString.truthy teacherEmail then sending else emailStatus s |}
  | Thrown m =>
      {| result := result s;
         loading := false;
         errorMsg := Some m;
         emailStatus := emailStatus s |}
  end.

(** ** Notions used to state the properties *)

(** The value of the latest change of [qId] among the events, if any. *)
Fixpoint lastChange (qId : string) (es : list Event) : option string :=
  match es with
  | [] => None
  | e :: es' =>
      match lastChange qId es' with
      | Some v => Some v
      | None =>
          match e with
          | AnswerChange k v => if decide (k = qId) then Some v else None
          | _ => None
          end
      end
  end.

(** The text of the answer that a display of the review screen shows. *)
Definition shownText (d : AnswerDisplay) : option string :=
  match d with
  | NotDone => None
  | KeyWithOption _ content => content
  | RawAnswer key => Some key
  end.

(** A submission as it reads in a given heap. *)
Definition readSubmission (h : Heap) (sub : StudentSubmission)
    : string * string * string * gmap string string * Z :=
  (assignmentId sub, studentName sub, studentClass sub,
   deref h (sub_answers sub), submittedAt sub).

(** The references of a state point into its heap. *)
Definition validRefs (s : ExamState) : Prop :=
  (answers s < length (heap s))%nat.

(** The identifiers of the assessments the reduction takes up: those that
    are truthy.  Each adds its score, and each but [__proto__] gets a
    feedback entry. *)
Definition recordedIds (items : list AssessmentItem) : list string :=
  omap recorded_id items.

(** What the loop over the assessments leaves in [feedbackMap]. *)
Definition recordFeedback (m : gmap string string) (item : AssessmentItem)
    : gmap string string :=
  match recorded_id item with
  | Some qid => setProperty qid (string_or (item_feedback item) noFeedback) m
  | None => m
  end.

(** What one assessment adds to [earnedScore]. *)
Definition addScore (x : spec_float) (item : AssessmentItem) : spec_float :=
  match recorded_id item with
  | Some _ => JsNumber.add x (score_or_zero (item_score item))
  | None => x
  end.

(** The sum the reduction accumulates: the scores of the items that have a
    truthy [questionId], in order, from 0. *)
Definition sumRecorded (items : list AssessmentItem) : spec_float :=
  foldl addScore (S754_zero false) items.

(** The parsed data on which no step of the reduction throws. *)
Definition noNull (e : Entry) : bool :=
  match e with EntryNull => false | EntryObject _ => true end.

Definition reducible (data : ParsedData) : bool :=
  match data with
  | DataNull => false
  | DataObject AssessmentsMissing _ => true
  | DataObject AssessmentsNotArray _ => false
  | DataObject (AssessmentsArray entries) _ => forallb noNull entries
  end.

Definition usable (response : Response) : bool :=
  match response with
  | Json data => reducible data
  | _ => false
  end.

(** An item as the schema describes it. *)
Definition assessment (qid : string) (points : Z) (text : string) : AssessmentItem :=
  {| item_questionId := Some qid;
     item_score := Some (JsNumber.of_Z points);
     item_feedback := Some text |}.

Definition reply (items : list AssessmentItem) (comment : option string) : Response :=
  Json (DataObject (AssessmentsArray (EntryObject <$> items)) comment).

(** ** The wording of the specification, for comparison *)

Module Spec.

(** Section 3: the store holds no empty entry. *)
Definition storeHasNoEmpty (store : gmap string string) : Prop :=
  ∀ k v, store !! k = Some v → v ≠ "".

(** Section 3: the key set of the feedback is that of the assignment. *)
Definition feedbackKeys (a : Assignment) : gset string :=
  list_to_set (question_ids a).

(** Section 4.5, step 2: an entry counts when its identifier is not
    empty and belongs to the assignment. *)
Definition recognized (a : Assignment) (item : AssessmentItem) : bool :=
  match recorded_id item with
  | Some qid => bool_decide (qid ∈ question_ids a)
  | None => false
  end.

Definition earnedScore (a : Assignment) (items : list AssessmentItem) : spec_float :=
  foldl (fun acc item =>
           if recognized a item
           then JsNumber.add acc (score_or_zero (item_score item))
           else acc)
        (S754_zero false) items.

(** Section 4.5, step 4. *)
Definition normalizedScore (a : Assignment) (items : list AssessmentItem) : spec_float :=
  let maxScore := JsNumber.mul (JsNumber.of_Z (questions_length a)) (JsNumber.of_Z 10) in
  JsNumber.parseFloat (JsNumber.toFixed1
    (if questions_length a =? 0 then S754_zero false
     else JsNumber.mul (JsNumber.div (earnedScore a items) maxScore) (JsNumber.of_Z 10))).

(** Section 4.6. *)
Definition resolveDisplayText (q : Question) (answerToken : option string)
    : option string :=
  match answerToken with
  | None => None
  | Some token =>
      if negb (JsString.truthy token) then None
      else
        match q_type q, q_options q with
        | MCQ, Some options =>
            let idx := indexOf letters (JsString.toUpperCase (JsString.trim token)) in
            if idx =? -1 then Some token
            else
              match at_index options idx with
              | Some text => Some text
              | None => Some token
              end
        | _, _ => Some token
        end
  end.

(** Section 4.5, failure mode: the expected shape of a response is a
    collection of assessments with an overall comment; a defect of one
    entry is partiality of a response that has the shape. *)
Definition expectedShape (data : ParsedData) : bool :=
  match data with
  | DataObject (AssessmentsArray _) _ => true
  | _ => false
  end.

(** Section 4.5, failure mode: the operation fails as a whole when the
    call fails or the response cannot be parsed into the expected shape,
    and not otherwise. *)
Definition failsWhole (response : Response) : bool :=
  match response with
  | CallFailed _ | InvalidJson _ => true
  | Json data => negb (expectedShape data)
  end.

End Spec.

(** No question of the assignment is named like a member of
    [Object.prototype]; so it is for identifiers made by
    [generateUniqueId]. *)
Definition plainIds (a : Assignment) : bool :=
  forallb (fun q => negb (inherited (q_id q))) (a_questions a).


(** The invariant of the countdown. *)
Definition timerInv (s : ExamState) : Prop :=
  0 ≤ timeLeft s ≤ 45 * 60 ∧ (0 < timeLeft s → timer s = true).

(** The binary64 number that is exactly the integer [z], for
    [0 < z < 2^53]: a mantissa of 53 bits and the matching exponent. *)
Definition exactly (z : Z) : spec_float :=
  let e := Z.log2 z + 1 - 53 in
  S754_finite false (Z.to_pos (z * 2 ^ (- e))) e.

(** An assessment that is recorded and gives [points]. *)
Definition scored (points : Z) (item : AssessmentItem) : Prop :=
  is_Some (recorded_id item) ∧ item_score item = Some (JsNumber.of_Z points).
(** ** Sample data *)

Definition sampleQuestion (i : string) (t : QuestionType)
    (options : option (list string)) : Question :=
  {| q_id := i; q_type := t; q_content := ""; q_options := options;
     q_correctAnswer := None; q_imageSvg := None |}.

Definition sampleAssignment (qs : list Question) : Assignment :=
  {| a_id := "a_1"; a_title := ""; a_subject := ""; a_grade := ""; a_topic := "";
     a_questions := qs; a_createdAt := 0 |}.

Definition sampleSubmission : StudentSubmission :=
  {| assignmentId := "a_1"; studentName := "An"; studentClass := "10A1";
     sub_answers := 0%nat; submittedAt := 0 |}.

Definition threeQuestions : Assignment :=
  sampleAssignment [sampleQuestion "q_1" SHORT_ANSWER None;
                    sampleQuestion "q_2" SHORT_ANSWER None;
                    sampleQuestion "q_3" SHORT_ANSWER None].

Definition sampleExam : StudentExamProps :=
  {| assignment := threeQuestions; p_studentName := "An"; p_studentClass := "10A1" |}.

Definition fourOptions : Question :=
  sampleQuestion "q_1" MCQ (Some ["x"; "y"; "z"; "w"]).

Definition emptyFirstOption : Question :=
  sampleQuestion "q_1" MCQ (Some [""; "y"; "z"; "w"]).

Definition oneOption : Question :=
  sampleQuestion "q_1" MCQ (Some ["x"]).

Definition examOf (q : Question) : StudentExamProps :=
  {| assignment := sampleAssignment [q]; p_studentName := "An"; p_studentClass := "10A1" |}.

Definition oneQuestion : Assignment := sampleAssignment [fourOptions].

Definition withUnknownId : list AssessmentItem :=
  [assessment "q_1" 10 "Tốt"; assessment "zz" 10 "?"].

Definition fourQuestions : Assignment :=
  sampleAssignment [sampleQuestion "q_1" MCQ (Some ["x"; "y"; "z"; "w"]);
                    sampleQuestion "q_2" TRUE_FALSE None;
                    sampleQuestion "q_3" SHORT_ANSWER None;
                    sampleQuestion "q_4" ESSAY None].

Definition halfRight : list AssessmentItem :=
  [assessment "q_1" 10 "Đúng"; assessment "q_2" 10 "Đúng";
   assessment "q_3" 0 "Sai"; assessment "q_4" 0 "Sai"].

Definition allRight : list AssessmentItem :=
  [assessment "q_1" 10 "Đúng"; assessment "q_2" 10 "Đúng";
   assessment "q_3" 10 "Đúng"; assessment "q_4" 10 "Đúng"].

Definition lettersAsOptions : Question :=
  sampleQuestion "q_1" MCQ (Some ["a"; "b"; "c"; "d"]).

(** ** Further parts of the code *)

(** *** String operations of the service and of the clock *)

(** [s.indexOf(c)] for a search string of one character. *)
Fixpoint indexOfChar (c : ascii) (s : string) : Z :=
  match s with
  | EmptyString => -1
  | String a r =>
      if Ascii.eqb a c then 0
      else let i := indexOfChar c r in if i =? -1 then -1 else i + 1
  end.

(** [s.lastIndexOf(c)] for a search string of one character. *)
Fixpoint lastIndexOfChar (c : ascii) (s : string) : Z :=
  match s with
  | EmptyString => -1
  | String a r =>
      let i := lastIndexOfChar c r in
      if i =? -1 then (if Ascii.eqb a c then 0 else -1) else i + 1
  end.

Fixpoint string_take (n : nat) (s : string) : string :=
  match n, s with
  | S n', String a r => String a (string_take n' r)
  | _, _ => EmptyString
  end.

Fixpoint string_drop (n : nat) (s : string) : string :=
  match n, s with
  | S n', String _ r => string_drop n' r
  | _, _ => s
  end.

(** [s.substring(from, to)]: both ends are brought into [0, length] and
    put in order. *)
Definition substring (s : string) (from to : Z) : string :=
  let len := Z.of_nat (String.length s) in
  let a := Z.min (Z.max from 0) len in
  let b := Z.min (Z.max to 0) len in
  let lo := Z.min a b in
  let hi := Z.max a b in
  string_take (Z.to_nat (hi - lo)) (string_drop (Z.to_nat lo) s).

Fixpoint hasChar (c : ascii) (s : string) : bool :=
  match s with
  | EmptyString => false
  | String a r => Ascii.eqb a c || hasChar c r
  end.

Definition startsWith (s p : string) : bool :=
  match JsString.strip_prefix p s with Some _ => true | None => false end.

(** [s.replace(/pat/g, '')] for a pattern without operators: the matches
    are taken from left to right and do not overlap.  [skip] counts the
    characters of a match that are still to be passed over. *)
Fixpoint removeAll_go (pat : string) (skip : nat) (s : string) : string :=
  match s with
  | EmptyString => EmptyString
  | String a r =>
      match skip with
      | S k => removeAll_go pat k r
      | O =>
          if startsWith s pat then removeAll_go pat (String.length pat - 1) r
          else String a (removeAll_go pat 0 r)
      end
  end.

Definition removeAll (pat s : string) : string := removeAll_go pat 0 s.

Definition fence : string := "```".
Definition fenceJson : string := "```json".

(** Cleans the text of a reply from Markdown fences and preambles. *)
Definition cleanJsonText (text : string) : string :=
  if negb (JsString.truthy text) then "{}"
  else
    let start := indexOfChar "{" text in
    let end_ := lastIndexOfChar "}" text in
    if negb (start =? -1) && negb (end_ =? -1) && (end_ >? start)
    then substring text start (end_ + 1)
    else
      let clean := removeAll fence (removeAll fenceJson text) in
      JsString.trim clean.

(** [n.toString()] for an integer. *)
Definition toString (n : Z) : string := pretty n.

Fixpoint repeatChar (n : nat) (c : ascii) : string :=
  match n with
  | O => EmptyString
  | S n' => String c (repeatChar n' c)
  end.

(** [s.padStart(n, c)] for a filler of one character. *)
Definition padStart (s : string) (n : nat) (c : ascii) : string :=
  repeatChar (n - String.length s) c +:+ s.

(** [formatTime] of the exam screen: [Math.floor(seconds / 60)] and
    [seconds % 60], each on two places. *)
Definition formatTime (seconds : Z) : string :=
  let m := seconds / 60 in
  let s := Z.rem seconds 60 in
  padStart (toString m) 2 "0" +:+ ":" +:+ padStart (toString s) 2 "0".

(** *** What the exam screen derives from its state and offers *)

Definition falseAndTrue : list string := ["Đúng"; "Sai"].

Section StudentExamScreen.

Variable props : StudentExamProps.

(** [assignment.questions[currentQuestionIndex]] *)
Definition currentQ (s : ExamState) : option Question :=
  at_index (a_questions (assignment props)) (currentQuestionIndex s).

Definition isLastQuestion (s : ExamState) : bool :=
  currentQuestionIndex s =? questions_length (assignment props) - 1.

Definition isFirstQuestion (s : ExamState) : bool :=
  currentQuestionIndex s =? 0.

(** The values the widgets of a question pass to [handleAnswerChange]:
    the letter of the place of an option, one of the two words, or the
    text typed.  An option past the fourth has no letter; its widget is
    not among the events (see [optionsHaveLetters]). *)
Definition answerOffered (q : Question) (val : string) : bool :=
  match q_type q with
  | MCQ =>
      match q_options q with
      | Some options =>
          existsb (fun i => bool_decide (letters !! i = Some val))
                  (seq 0 (length options))
      | None => false
      end
  | TRUE_FALSE => bool_decide (val ∈ falseAndTrue)
  | SHORT_ANSWER | ESSAY => true
  end.

(** The events the screen can raise in a state: the handlers bound to the
    widgets that are rendered and not disabled, and the interval. *)
Definition offered (s : ExamState) (e : Event) : bool :=
  match e with
  | Tick => true
  | AnswerChange qId val =>
      negb (isReviewing s)
      && match currentQ s with
         | Some q => bool_decide (qId = q_id q) && answerOffered q val
         | None => false
         end
  | PreSubmit => negb (isSubmitting s)
  | CloseModal => showSubmitModal s
  | ConfirmSubmit => showSubmitModal s
  | GoToQuestion index =>
      (0 <=? index) && (index <? questions_length (assignment props))
  | Next => negb (isReviewing s)
  | Prev => negb (isReviewing s) && negb (isFirstQuestion s)
  | EnterReview => true
  | LeaveReview => isReviewing s
  | ToggleSidebar => true
  | CloseSidebar => true
  end.

(** Every event of the list is offered in the state it meets. *)
Fixpoint offeredRun (es : list Event) (s : ExamState) : bool :=
  match es with
  | [] => true
  | e :: es' => offered s e && offeredRun es' (step props e s)
  end.

End StudentExamScreen.

(** The number of ticks among the events. *)
Fixpoint ticks (es : list Event) : Z :=
  match es with
  | [] => 0
  | Tick :: es' => 1 + ticks es'
  | _ :: es' => ticks es'
  end.

(** The number of confirmed submissions among the events. *)
Fixpoint submits (es : list Event) : nat :=
  match es with
  | [] => 0
  | ConfirmSubmit :: es' => S (submits es')
  | _ :: es' => submits es'
  end.

(** An answer as the widgets of its question produce it. *)
Definition wellFormedAnswer (q : Question) (val : string) : Prop :=
  match q_type q with
  | MCQ =>
      ∃ options i text, q_options q = Some options ∧ letters !! i = Some val
                        ∧ options !! i = Some text
  | TRUE_FALSE => val ∈ falseAndTrue
  | SHORT_ANSWER | ESSAY => True
  end.

(** Reading a clock of the form MM:SS back into seconds. *)
Definition digitValue (c : ascii) : option Z :=
  let n := nat_of_ascii c in
  if ((48 <=? n) && (n <=? 57))%nat then Some (Z.of_nat (n - 48)) else None.

Definition readClock (s : string) : option Z :=
  match s with
  | String a (String b (String c (String d (String e EmptyString)))) =>
      if Ascii.eqb c ":" then
        m1 ← digitValue a; m2 ← digitValue b;
        s1 ← digitValue d; s2 ← digitValue e;
        Some ((10 * m1 + m2) * 60 + (10 * s1 + s2))
      else None
  | _ => None
  end.

Definition clockReadsBack (t : Z) : bool :=
  bool_decide (readClock (formatTime t) = Some t).

(** Every multiple-choice question has at most four options, so that
    each option has a letter. *)
Definition optionsHaveLetters (a : Assignment) : bool :=
  forallb (fun q => match q_options q with
                    | Some options => (length options <=? length letters)%nat
                    | None => true
                    end)
          (a_questions a).

(** ** Results *)

(** The last assessment of the reply recorded under an identifier. *)
Definition lastRecorded (k : string) (items : list AssessmentItem)
    : option AssessmentItem :=
  last (filter (fun item => recorded_id item = Some k) items).

(** What [ResultAnalysis] renders: the guards [if (loading)] and
    [if (errorMsg || !result)] in front of the results. *)
Inductive Screen :=
  | LoadingScreen
  | ErrorScreen (text : string)
  | ResultsScreen (r : GradingResult).

Definition noReply : string := "Không nhận được phản hồi từ AI.".

Definition screen (s : ResultState) : Screen :=
  if loading s then LoadingScreen
  else
    match result s with
    | Some r =>
        if JsString.truthy (string_or (errorMsg s) "")
        then ErrorScreen (string_or (errorMsg s) noReply)
        else ResultsScreen r
    | None => ErrorScreen (string_or (errorMsg s) noReply)
    end.

(** The button that calls [fetchGrade] again is on the error screen. *)
Definition retryOffered (s : ResultState) : bool :=
  match screen s with
  | ErrorScreen _ => true
  | _ => false
  end.

Section Fetching.

Variable assignment : Assignment.
Variable submission : StudentSubmission.
Variable teacherEmail : string.

(** The calls of [fetchGrade], one per response of the collaborator: the
    first by the effect, the others by the button. *)
Definition fetches (responses : list Response) (s : ResultState) : ResultState :=
  foldl (fun s response => fetchGrade assignment submission teacherEmail response s)
        s responses.

Fixpoint retriesOffered (responses : list Response) (s : ResultState) : bool :=
  match responses with
  | [] => true
  | response :: responses' =>
      retryOffered s
      && retriesOffered responses'
           (fetchGrade assignment submission teacherEmail response s)
  end.

End Fetching.

(** The rows of the table of the Excel report ([downloadExcelResults]).
    The reads [submission.answers[q.id]] and [result.feedback[q.id]] are
    taken as reads of own properties, which is what they are for a
    question that is not named like a member of [Object.prototype] (see
    [plainIds]). *)
Record ExcelRow := {
  stt : Z;
  cell_content : string;
  cell_studentAns : string;
  cell_correctAns : string;
  cell_feedback : string
}.

Definition notAnswered : string := "[Không trả lời]".

Definition dataRow (answers : gmap string string) (r : GradingResult)
    (index : nat) (q : Question) : ExcelRow :=
  {| stt := Z.of_nat index + 1;
     cell_content := q_content q;
     cell_studentAns := string_or (getMCQText q (answers !! q_id q)) notAnswered;
     cell_correctAns := string_or (getMCQText q (q_correctAnswer q)) "";
     cell_feedback := string_or (feedback r !! q_id q) "" |}.

Definition dataRows (assignment : Assignment) (answers : gmap string string)
    (r : GradingResult) : list ExcelRow :=
  imap (dataRow answers r) (a_questions assignment).

(** ** TeacherDashboard: handing out an assignment *)

Record Chapter := {
  c_title : string;
  c_lessons : list string
}.

Record TypeConfig := {
  selected : bool;
  difficulty : string;
  count : Z
}.

Record ContextFile := {
  file_name : string;
  file_content : string
}.

(** The state [handleGenerate], [handleConfirmAssign] and the lesson
    effect read.  [typeConfigs] has one entry for each question type. *)
Record DashboardState := {
  subject : string;
  grade : string;
  manualTopic : string;
  curriculum : list Chapter;
  selectedChapter : string;
  selectedLesson : string;
  contextFile : option ContextFile;
  typeConfigs : QuestionType → TypeConfig;
  generatedQuestions : list Question
}.

Definition initialTypeConfigs (t : QuestionType) : TypeConfig :=
  match t with
  | MCQ => {| selected := true; difficulty := "Hiểu"; count := 5 |}
  | TRUE_FALSE => {| selected := true; difficulty := "Biết"; count := 5 |}
  | SHORT_ANSWER => {| selected := false; difficulty := "Vận dụng"; count := 3 |}
  | ESSAY => {| selected := false; difficulty := "Vận dụng"; count := 2 |}
  end.

Definition initialDashboardState : DashboardState :=
  {| subject := "Toán học"; grade := "10"; manualTopic := "";
     curriculum := []; selectedChapter := ""; selectedLesson := "";
     contextFile := None; typeConfigs := initialTypeConfigs;
     generatedQuestions := [] |}.

Definition setSelectedLesson (l : string) (d : DashboardState) : DashboardState :=
  {| subject := subject d; grade := grade d; manualTopic := manualTopic d;
     curriculum := curriculum d; selectedChapter := selectedChapter d;
     selectedLesson := l; contextFile := contextFile d;
     typeConfigs := typeConfigs d; generatedQuestions := generatedQuestions d |}.

Definition setTypeConfigs (f : (QuestionType → TypeConfig) → QuestionType → TypeConfig)
    (d : DashboardState) : DashboardState :=
  {| subject := subject d; grade := grade d; manualTopic := manualTopic d;
     curriculum := curriculum d; selectedChapter := selectedChapter d;
     selectedLesson := selectedLesson d; contextFile := contextFile d;
     typeConfigs := f (typeConfigs d); generatedQuestions := generatedQuestions d |}.

Definition sameType (a b : QuestionType) : bool :=
  match a, b with
  | MCQ, MCQ | TRUE_FALSE, TRUE_FALSE | SHORT_ANSWER, SHORT_ANSWER | ESSAY, ESSAY => true
  | _, _ => false
  end.

(** The field and value of a call of [handleConfigChange]; the count is
    [parseInt(e.target.value) || 0], a whole number. *)
Inductive ConfigChange :=
  | ChangeSelected (value : bool)
  | ChangeDifficulty (value : string)
  | ChangeCount (value : Z).

Definition handleConfigChange (type : QuestionType) (change : ConfigChange)
    (d : DashboardState) : DashboardState :=
  setTypeConfigs
    (fun prev t =>
       if sameType t type then
         match change with
         | ChangeSelected value =>
             {| selected := value; difficulty := difficulty (prev t);
                count := count (prev t) |}
         | ChangeDifficulty value =>
             {| selected := selected (prev t); difficulty := value;
                count := count (prev t) |}
         | ChangeCount value =>
             {| selected := selected (prev t); difficulty := difficulty (prev t);
                count := value |}
         end
       else prev t)
    d.

Record GenerationConfig := {
  g_type : QuestionType;
  g_difficulty : string;
  g_count : Z
}.

(** The order of [Object.entries(typeConfigs)]: that of the keys of the
    initial object, which every change keeps. *)
Definition questionTypes : list QuestionType :=
  [MCQ; TRUE_FALSE; SHORT_ANSWER; ESSAY].

Definition activeConfigs (d : DashboardState) : list GenerationConfig :=
  (fun t => {| g_type := t; g_difficulty := difficulty (typeConfigs d t);
               g_count := count (typeConfigs d t) |})
  <$> List.filter (fun t => selected (typeConfigs d t) && (count (typeConfigs d t) >? 0))
                  questionTypes.

(** [configs.reduce((sum, c) => sum + c.count, 0)], the number of
    questions [generateAssignment] asks for. *)
Definition requestedCount (configs : list GenerationConfig) : Z :=
  foldl (fun sum c => sum + g_count c) 0 configs.

(** What [handleGenerate] does first: the alert, or the call of
    [generateAssignment] with its arguments. *)
Inductive GenerateStep :=
  | NothingSelected
  | CallGenerate (subject grade topic : string) (configs : list GenerationConfig)
                 (contextMaterial : option string).

Definition handleGenerate (d : DashboardState) : GenerateStep :=
  let finalTopic :=
    if JsString.truthy (selectedChapter d) || JsString.truthy (selectedLesson d)
    then "Chương: " +:+ selectedChapter d
         +:+ (if JsString.truthy (selectedLesson d)
              then " - Bài: " +:+ selectedLesson d else "")
    else manualTopic d in
  if (Z.of_nat (length (activeConfigs d)) =? 0) then NothingSelected
  else CallGenerate (subject d) (grade d) finalTopic (activeConfigs d)
                    (file_content <$> contextFile d).

Definition general : string := "Tổng hợp".

(** [a || d] for strings. *)
Definition or_else (a d : string) : string :=
  if JsString.truthy a then a else d.

(** [handleConfirmAssign], with the values [crypto.randomUUID()] and
    [Date.now()] give. *)
Definition handleConfirmAssign (d : DashboardState) (uuid : string) (now : Z)
    : Assignment :=
  let finalTopic :=
    if JsString.truthy (selectedLesson d) then selectedLesson d
    else if JsString.truthy (selectedChapter d) then selectedChapter d
    else manualTopic d in
  {| a_id := uuid;
     a_title := "Bài tập " +:+ subject d +:+ " - " +:+ or_else finalTopic general;
     a_subject := subject d;
     a_grade := grade d;
     a_topic := or_else finalTopic general;
     a_questions := generatedQuestions d;
     a_createdAt := now |}.

(** The preview, with the button that hands out the assignment, is
    rendered when [generatedQuestions.length > 0]. *)
Definition previewShown (d : DashboardState) : bool :=
  (Z.of_nat (length (generatedQuestions d)) >? 0).

(** [curriculum.find(c => c.title === selectedChapter)] *)
Definition findChapter (d : DashboardState) : option Chapter :=
  List.find (fun c => bool_decide (c_title c = selectedChapter d)) (curriculum d).

(** [lessons.includes(selectedLesson)] *)
Definition includes (l : list string) (x : string) : bool :=
  bool_decide (x ∈ l).

(** The effect on [selectedChapter] and [curriculum]. *)
Definition lessonEffect (d : DashboardState) : DashboardState :=
  if JsString.truthy (selectedChapter d) then
    match findChapter d with
    | Some chap =>
        match c_lessons chap with
        | first :: _ =>
            if negb (JsString.truthy (selectedLesson d))
               || negb (includes (c_lessons chap) (selectedLesson d))
            then setSelectedLesson first d
            else d
        | [] => setSelectedLesson "" d
        end
    | None => setSelectedLesson "" d
    end
  else d.

(** [curriculum.find(...)?.lessons || []] *)
Definition availableLessons (d : DashboardState) : list string :=
  match findChapter d with
  | Some chap => c_lessons chap
  | None => []
  end.

(** ** StudentLogin *)

(** [handleSubmit]: the arguments of [onLogin], when it is called. *)
Definition loginSubmit (name className : string) : option (string * string) :=
  if JsString.truthy (JsString.trim name) && JsString.truthy (JsString.trim className)
  then Some (name, className)
  else None.

(** ** App: the views *)

Inductive AppView :=
  | TEACHER_DASHBOARD
  | SHARE_LINK
  | STUDENT_LOGIN
  | STUDENT_EXAM
  | RESULTS.

Record StudentInfo := {
  info_name : string;
  info_className : string
}.

Record AppState := {
  email : string;
  isSetup : bool;
  currentView : AppView;
  app_assignment : option Assignment;
  studentInfo : option StudentInfo;
  app_submission : option StudentSubmission;
  isAdmin : bool
}.

Definition initialAppState : AppState :=
  {| email := ""; isSetup := false; currentView := TEACHER_DASHBOARD;
     app_assignment := None; studentInfo := None; app_submission := None;
     isAdmin := true |}.

Definition setEmail (v : string) (s : AppState) : AppState :=
  {| email := v; isSetup := isSetup s; currentView := currentView s;
     app_assignment := app_assignment s; studentInfo := studentInfo s;
     app_submission := app_submission s; isAdmin := isAdmin s |}.

Definition setIsSetup (b : bool) (s : AppState) : AppState :=
  {| email := email s; isSetup := b; currentView := currentView s;
     app_assignment := app_assignment s; studentInfo := studentInfo s;
     app_submission := app_submission s; isAdmin := isAdmin s |}.

Definition setCurrentView (v : AppView) (s : AppState) : AppState :=
  {| email := email s; isSetup := isSetup s; currentView := v;
     app_assignment := app_assignment s; studentInfo := studentInfo s;
     app_submission := app_submission s; isAdmin := isAdmin s |}.

Definition setAssignment (a : option Assignment) (s : AppState) : AppState :=
  {| email := email s; isSetup := isSetup s; currentView := currentView s;
     app_assignment := a; studentInfo := studentInfo s;
     app_submission := app_submission s; isAdmin := isAdmin s |}.

Definition setStudentInfo (i : option StudentInfo) (s : AppState) : AppState :=
  {| email := email s; isSetup := isSetup s; currentView := currentView s;
     app_assignment := app_assignment s; studentInfo := i;
     app_submission := app_submission s; isAdmin := isAdmin s |}.

Definition setSubmission (sub : option StudentSubmission) (s : AppState) : AppState :=
  {| email := email s; isSetup := isSetup s; currentView := currentView s;
     app_assignment := app_assignment s; studentInfo := studentInfo s;
     app_submission := sub; isAdmin := isAdmin s |}.

Definition setIsAdmin (b : bool) (s : AppState) : AppState :=
  {| email := email s; isSetup := isSetup s; currentView := currentView s;
     app_assignment := app_assignment s; studentInfo := studentInfo s;
     app_submission := app_submission s; isAdmin := b |}.

(** The alert of a failed setup changes no state. *)
Definition handleSetupSubmit (s : AppState) : AppState :=
  if JsString.truthy (JsString.trim (email s)) then setIsSetup true s else s.

Definition handleAssign (newAssignment : Assignment) (s : AppState) : AppState :=
  setCurrentView SHARE_LINK (setAssignment (Some newAssignment) s).

Definition handleOpenStudentLogin (s : AppState) : AppState :=
  setCurrentView STUDENT_LOGIN (setIsAdmin false s).

Definition handleStudentLogin (name className : string) (s : AppState) : AppState :=
  setCurrentView STUDENT_EXAM
    (setStudentInfo (Some {| info_name := name; info_className := className |}) s).

Definition handleSubmitExam (sub : StudentSubmission) (s : AppState) : AppState :=
  setCurrentView RESULTS (setSubmission (Some sub) s).

Definition resetApp (s : AppState) : AppState :=
  setIsAdmin true
    (setCurrentView TEACHER_DASHBOARD
       (setStudentInfo None (setSubmission None (setAssignment None s)))).

Definition isImmersiveMode (s : AppState) : bool :=
  match currentView s with
  | STUDENT_LOGIN | STUDENT_EXAM => true
  | _ => false
  end.

(** What [App] renders: the setup form, or the header (outside the
    immersive mode) around the component of the view, each behind its
    guard.  [NothingShown] is a view whose guard fails. *)
Inductive Shown :=
  | SetupForm
  | WaitingForTeacher
  | Dashboard
  | ShareLinkOf (a : Assignment)
  | StudentLoginOf (a : Assignment)
  | StudentExamOf (props : StudentExamProps)
  | ResultAnalysisOf (a : Assignment) (sub : StudentSubmission)
                     (admin : bool) (teacherEmail : string)
  | NothingShown.

Definition shown (s : AppState) : Shown :=
  if negb (isSetup s) then SetupForm
  else
    match currentView s with
    | TEACHER_DASHBOARD => if isAdmin s then Dashboard else WaitingForTeacher
    | SHARE_LINK =>
        match app_assignment s with
        | Some a => ShareLinkOf a
        | None => NothingShown
        end
    | STUDENT_LOGIN =>
        match app_assignment s with
        | Some a => StudentLoginOf a
        | None => NothingShown
        end
    | STUDENT_EXAM =>
        match app_assignment s, studentInfo s with
        | Some a, Some i =>
            StudentExamOf {| assignment := a; p_studentName := info_name i;
                             p_studentClass := info_className i |}
        | _, _ => NothingShown
        end
    | RESULTS =>
        match app_assignment s, app_submission s with
        | Some a, Some sub => ResultAnalysisOf a sub (isAdmin s) (email s)
        | _, _ => NothingShown
        end
    end.

(** The events of the application: what the user does to the form and
    the header, and the callbacks of the components.  A callback carries
    the state of its component at the call and the values the
    environment gives. *)
Inductive AppEvent :=
  | TypeEmail (v : string)
  | SubmitSetup
  | ClickLogo
  | ToggleMode
  | ConfirmAssign (d : DashboardState) (uuid : string) (now : Z)
  | OpenExam
  | SubmitLogin (name className : string)
  | ExamSubmitted (exam : ExamState) (now : Z).

Definition appStep (e : AppEvent) (s : AppState) : AppState :=
  match e with
  | TypeEmail v => setEmail v s
  | SubmitSetup => handleSetupSubmit s
  | ClickLogo => resetApp s
  | ToggleMode => setIsAdmin (negb (isAdmin s)) s
  | ConfirmAssign d uuid now => handleAssign (handleConfirmAssign d uuid now) s
  | OpenExam => handleOpenStudentLogin s
  | SubmitLogin name className =>
      match loginSubmit name className with
      | Some (n, c) => handleStudentLogin n c s
      | None => s
      end
  | ExamSubmitted exam now =>
      match shown s with
      | StudentExamOf props => handleSubmitExam (snd (handleConfirmSubmit props exam) now) s
      | _ => s
      end
  end.

(** The events that what is shown can raise. *)
Definition appOffered (s : AppState) (e : AppEvent) : bool :=
  match e, shown s with
  | TypeEmail _, SetupForm => true
  | SubmitSetup, SetupForm => true
  | (ClickLogo | ToggleMode), SetupForm => false
  | (ClickLogo | ToggleMode), _ => negb (isImmersiveMode s)
  | ConfirmAssign d _ _, Dashboard => previewShown d
  | OpenExam, ShareLinkOf _ => true
  | SubmitLogin _ _, StudentLoginOf _ => true
  | ExamSubmitted _ _, StudentExamOf _ => true
  | _, _ => false
  end.

Definition appRun (es : list AppEvent) (s : AppState) : AppState :=
  foldl (fun s e => appStep e s) s es.

Fixpoint appOfferedRun (es : list AppEvent) (s : AppState) : bool :=
  match es with
  | [] => true
  | e :: es' => appOffered s e && appOfferedRun es' (appStep e s)
  end.

(** A name or class that holds more than white space. *)
Definition notBlank (v : string) : Prop := JsString.trim v ≠ "".

(** What holds of each thing shown. *)
Definition wellShown (s : AppState) : Prop :=
  match shown s with
  | SetupForm => True
  | WaitingForTeacher | Dashboard => True
  | ShareLinkOf a => a_questions a ≠ []
  | StudentLoginOf a => a_questions a ≠ [] ∧ isAdmin s = false
  | StudentExamOf props =>
      a_questions (assignment props) ≠ []
      ∧ notBlank (p_studentName props) ∧ notBlank (p_studentClass props)
      ∧ isAdmin s = false
  | ResultAnalysisOf a sub admin teacherEmail =>
      a_questions a ≠ []
      ∧ assignmentId sub = a_id a
      ∧ notBlank (studentName sub) ∧ notBlank (studentClass sub)
      ∧ notBlank teacherEmail
  | NothingShown => False
  end.

(** The invariant of the application behind [wellShown]. *)
Definition appInv (s : AppState) : Prop :=
  (isSetup s = true → notBlank (email s))
  ∧ (isSetup s = false → currentView s = TEACHER_DASHBOARD)
  ∧ (∀ a, app_assignment s = Some a → a_questions a ≠ [])
  ∧ match currentView s with
    | TEACHER_DASHBOARD => True
    | SHARE_LINK => is_Some (app_assignment s)
    | STUDENT_LOGIN => is_Some (app_assignment s) ∧ isAdmin s = false
    | STUDENT_EXAM =>
        is_Some (app_assignment s) ∧ isAdmin s = false
        ∧ ∃ i, studentInfo s = Some i
               ∧ notBlank (info_name i) ∧ notBlank (info_className i)
    | RESULTS =>
        ∃ a sub, app_assignment s = Some a ∧ app_submission s = Some sub
                 ∧ assignmentId sub = a_id a
                 ∧ notBlank (studentName sub) ∧ notBlank (studentClass sub)
    end.

(** ** geminiService: the identifiers of generated questions *)

(** What one call of [generateUniqueId] takes from the environment:
    [Date.now()] and the text [Math.random().toString(36).substr(2, 9)]. *)
Record Draw := {
  drawn_now : Z;
  drawn_random : string
}.

Definition generateUniqueId (prefix : string) (d : Draw) : string :=
  prefix +:+ "_" +:+ toString (drawn_now d) +:+ "_" +:+ drawn_random d.

Section Generated.

Variable Raw : Type.

(** [questions.map(q => ({...q, id: generateUniqueId()}))]: each object
    of the reply with its [id] replaced, as the pair of the new [id] and
    the object; [draws i] is the draw of the call for the entry at [i]. *)
Definition withIds (questions : list Raw) (draws : nat → Draw) : list (string * Raw) :=
  imap (fun i q => (generateUniqueId "q" (draws i), q)) questions.

End Generated.

(** ** Notions for the exam without its clock *)

(** The events without the ticks of the interval. *)
Fixpoint withoutTicks (es : list Event) : list Event :=
  match es with
  | [] => []
  | Tick :: es' => withoutTicks es'
  | e :: es' => e :: withoutTicks es'
  end.

(** Everything in the state of the exam but [timeLeft] and the interval. *)
Definition besidesClock (s : ExamState)
    : Heap * addr * bool * Z * bool * bool * bool :=
  (heap s, answers s, isSubmitting s, currentQuestionIndex s, isReviewing s,
   showSubmitModal s, showSidebar s).

(** ** More sample data *)

Definition newline : string := String (ascii_of_nat 10) "".

Definition fencedReply : string :=
  "Kết quả: ```json" +:+ newline +:+ "{điểm: {câu 1: 10}}" +:+ newline +:+ "``` hết.".

Definition gradedTwice : list AssessmentItem :=
  [assessment "q_1" 0 "Sai"; assessment "q_1" 10 "Đúng"; assessment "q_2" 10 ""].

Definition sampleDashboard : DashboardState :=
  {| subject := "Toán học"; grade := "10"; manualTopic := "";
     curriculum := [ {| c_title := "Chương 1"; c_lessons := ["Bài 1"; "Bài 2"] |} ];
     selectedChapter := "Chương 1"; selectedLesson := "Bài 2";
     contextFile := None; typeConfigs := initialTypeConfigs;
     generatedQuestions := a_questions fourQuestions |}.

Definition sampleSession : list AppEvent :=
  [TypeEmail "gv@truong.vn"; SubmitSetup;
   ConfirmAssign sampleDashboard "a-1" 0; OpenExam;
   SubmitLogin "" "10A1"; SubmitLogin "An" "10A1";
   ExamSubmitted initialExamState 1; ToggleMode].

Definition sameClock (i : nat) : Draw :=
  {| drawn_now := 1700000000000; drawn_random := toString (Z.of_nat i) |}.

Definition oneQuestionDashboard : DashboardState :=
  {| subject := "Toán học"; grade := "10"; manualTopic := "Hàm số";
     curriculum := []; selectedChapter := ""; selectedLesson := "";
     contextFile := None; typeConfigs := initialTypeConfigs;
     generatedQuestions := [fourOptions] |}.

Definition handedOutExam : StudentExamProps :=
  {| assignment := handleConfirmAssign oneQuestionDashboard "a_1" 0;
     p_studentName := "An"; p_studentClass := "10A1" |}.

Definition sampleLogin : list AppEvent :=
  [TypeEmail "gv@truong.vn"; SubmitSetup;
   ConfirmAssign oneQuestionDashboard "a_1" 0; OpenExam;
   SubmitLogin "An" "10A1"].

Definition namedLikeMember : Assignment :=
  sampleAssignment [sampleQuestion "constructor" SHORT_ANSWER None].

Definition assessedProto : list AssessmentItem :=
  [assessment "__proto__" 10 "p"].
(** * Properties *)

(** ** Trimming *)

Lemma strip_prefix_length (p s r : string) :
  JsString.strip_prefix p s = Some r →
  String.length s = (String.length p + String.length r)%nat.
Proof.
  revert s. induction p as [| a p IH]; intros [| b s]; simpl; try done.
  - by intros [= <-].
  - by intros [= <-].
  - destruct (Ascii.eqb a b); [| done]. intros H%IH. lia.
Qed.

Lemma strip_first_shorter (toks : list string) (s r : string) :
  Forall (λ t, t ≠ "") toks →
  JsString.strip_first toks s = Some r →
  (String.length r < String.length s)%nat.
Proof.
  induction 1 as [| t toks Ht _ IH]; simpl; [done |].
  destruct (JsString.strip_prefix t s) as [r' |] eqn:Hp; [| exact IH].
  intros [= ->]. apply strip_prefix_length in Hp.
  destruct t; [done |]. simpl in Hp. lia.
Qed.

(** With the length of the string as fuel, dropping stops because no
    token is left at the front, not because the fuel is used up. *)
Lemma drop_leading_done (toks : list string) (fuel : nat) (s : string) :
  Forall (λ t, t ≠ "") toks →
  (String.length s ≤ fuel)%nat →
  JsString.strip_first toks (JsString.drop_leading toks fuel s) = None.
Proof.
  intros Htoks. revert s. induction fuel as [| fuel IH]; intros s Hlen; simpl.
  - destruct s; [| simpl in Hlen; lia]. clear Hlen.
    induction Htoks as [| t toks Ht _ IHt]; simpl; [done |]. by destruct t.
  - destruct (JsString.strip_first toks s) as [r |] eqn:Hs; [| done].
    apply IH. apply (strip_first_shorter toks s r Htoks) in Hs. lia.
Qed.

Lemma whiteSpace_nonempty : Forall (λ t, t ≠ "") JsString.whiteSpace.
Proof. apply (bool_decide_unpack _). reflexivity. Qed.

Lemma rev_app_length (s1 s2 : string) :
  String.length (String.rev_app s1 s2) = (String.length s1 + String.length s2)%nat.
Proof.
  revert s2. induction s1 as [| a s1 IH]; intros s2; simpl; [done |].
  rewrite IH. simpl. lia.
Qed.

Lemma trimStart_done (s : string) :
  JsString.strip_first JsString.whiteSpace (JsString.trimStart s) = None.
Proof. apply drop_leading_done; [apply whiteSpace_nonempty | done]. Qed.

Lemma trimEnd_done (s : string) :
  ∃ r, JsString.trimEnd s = String.rev r
       ∧ JsString.strip_first (String.rev <$> JsString.whiteSpace) r = None.
Proof.
  eexists. split; [reflexivity |].
  apply drop_leading_done.
  - apply (bool_decide_unpack _). reflexivity.
  - unfold String.rev. rewrite rev_app_length. simpl. lia.
Qed.

(** ** Exact integers in binary64 *)

Section Binary64.

Lemma digits2_pos_bounds (p : positive) :
  2 ^ (Zpos (digits2_pos p) - 1) ≤ Zpos p < 2 ^ Zpos (digits2_pos p).
Proof.
  induction p as [p IH | p IH |]; simpl digits2_pos.
  - rewrite Pos2Z.inj_succ, (Pos2Z.inj_xI p).
    replace (Z.succ (Zpos (digits2_pos p)) - 1) with (Z.succ (Zpos (digits2_pos p) - 1)) by lia.
    rewrite !Z.pow_succ_r by lia. lia.
  - rewrite Pos2Z.inj_succ, (Pos2Z.inj_xO p).
    replace (Z.succ (Zpos (digits2_pos p)) - 1) with (Z.succ (Zpos (digits2_pos p) - 1)) by lia.
    rewrite !Z.pow_succ_r by lia. lia.
  - simpl. lia.
Qed.

Lemma digits2_pos_unique (p : positive) (k : Z) :
  2 ^ (k - 1) ≤ Zpos p < 2 ^ k → Zpos (digits2_pos p) = k.
Proof.
  intros [Hlo Hhi]. pose proof (digits2_pos_bounds p) as [Hlo' Hhi'].
  destruct (Z.lt_trichotomy (Zpos (digits2_pos p)) k) as [Hlt | [Heq | Hgt]]; [| done |].
  - assert (2 ^ Zpos (digits2_pos p) ≤ 2 ^ (k - 1)) by (apply Z.pow_le_mono_r; lia). lia.
  - assert (0 ≤ k).
    { destruct (Z.le_gt_cases 0 k); [done |]. rewrite Z.pow_neg_r in Hhi by lia. lia. }
    assert (2 ^ k ≤ 2 ^ (Zpos (digits2_pos p) - 1)) by (apply Z.pow_le_mono_r; lia). lia.
Qed.

Lemma digits2_pos_log2 (p : positive) :
  Zpos (digits2_pos p) = Z.log2 (Zpos p) + 1.
Proof.
  apply digits2_pos_unique.
  replace (Z.log2 (Zpos p) + 1 - 1) with (Z.log2 (Zpos p)) by lia.
  pose proof (Z.log2_spec (Zpos p)). lia.
Qed.

Lemma iter_pos_nat {A} (f : A → A) (p : positive) (x : A) :
  SpecFloat.iter_pos f p x = Nat.iter (Pos.to_nat p) f x.
Proof.
  revert x. induction p as [p IH | p IH |]; intros x; simpl SpecFloat.iter_pos.
  - rewrite !IH, Pos2Nat.inj_xI.
    replace (S (2 * Pos.to_nat p)) with (Pos.to_nat p + (Pos.to_nat p + 1))%nat by lia.
    rewrite !Nat.iter_add. done.
  - rewrite !IH, Pos2Nat.inj_xO.
    replace (2 * Pos.to_nat p)%nat with (Pos.to_nat p + Pos.to_nat p)%nat by lia.
    by rewrite Nat.iter_add.
  - done.
Qed.

Lemma iter_shr_1 (n : nat) (p m : positive) :
  Zpos p = Zpos m * 2 ^ Z.of_nat n →
  Nat.iter n shr_1 (Build_shr_record (Zpos p) false false)
  = Build_shr_record (Zpos m) false false.
Proof.
  revert p. induction n as [| n IH]; intros p Hp.
  - simpl in *. f_equal. lia.
  - rewrite Nat.iter_succ_r. rewrite Nat2Z.inj_succ, Z.pow_succ_r in Hp by lia.
    destruct p as [p | p |]; [lia | | lia].
    simpl shr_1. apply IH. lia.
Qed.

Lemma digits2_pos_shift (p m : positive) (j : Z) :
  0 ≤ j → Zpos p = Zpos m * 2 ^ j →
  Zpos (digits2_pos p) = Zpos (digits2_pos m) + j.
Proof.
  intros Hj Hp. apply digits2_pos_unique.
  pose proof (digits2_pos_bounds m) as [Hlo Hhi].
  replace (Zpos (digits2_pos m) + j - 1) with (Zpos (digits2_pos m) - 1 + j) by lia.
  rewrite !Z.pow_add_r, Hp by lia.
  assert (0 < 2 ^ j) by (apply Z.pow_pos_nonneg; lia). nia.
Qed.

(** Shifting out the zeros below a mantissa of 53 bits is exact. *)
Lemma shr_fexp_exact (p m : positive) (j e : Z) :
  Zpos (digits2_pos m) = 53 → 0 ≤ j → -1074 ≤ e →
  Zpos p = Zpos m * 2 ^ j →
  shr_fexp 53 1024 (Zpos p) (e - j) loc_Exact
  = (Build_shr_record (Zpos m) false false, e).
Proof.
  intros Hm Hj He Hp. unfold shr_fexp, Zdigits2.
  rewrite (digits2_pos_shift p m j Hj Hp), Hm.
  unfold fexp, emin.
  replace (Z.max (53 + j + (e - j) - 53) (3 - 1024 - 53) - (e - j)) with j by lia.
  unfold shr, shr_record_of_loc. destruct j as [| pj | pj]; [| | lia].
  - f_equal; [| lia]. f_equal. lia.
  - f_equal; [| lia]. rewrite iter_pos_nat. apply iter_shr_1.
    by rewrite positive_nat_Z.
Qed.

Lemma binary_round_aux_exact (p m : positive) (j e : Z) :
  Zpos (digits2_pos m) = 53 → 0 ≤ j → -1074 ≤ e ≤ 971 →
  Zpos p = Zpos m * 2 ^ j →
  binary_round_aux 53 1024 false (Zpos p) (e - j) loc_Exact = S754_finite false m e.
Proof.
  intros Hm Hj He Hp. unfold binary_round_aux.
  rewrite (shr_fexp_exact p m j e) by (done || lia).
  cbn [shr_m loc_of_shr_record round_nearest_even].
  replace e with (e - 0) at 1 by lia.
  rewrite (shr_fexp_exact m m 0 e) by (done || lia).
  cbn [shr_m].
  destruct (Z.leb_spec e (1024 - 53)); [done | lia].
Qed.

Lemma exactly_mantissa (z : Z) :
  0 < z < 2 ^ 53 →
  let e := Z.log2 z + 1 - 53 in
  let m := Z.to_pos (z * 2 ^ (- e)) in
  Zpos m = z * 2 ^ (- e) ∧ Zpos (digits2_pos m) = 53 ∧ -52 ≤ e ≤ 0.
Proof.
  intros [Hpos Hlt] e m.
  pose proof (Z.log2_spec z Hpos) as [Hlo Hhi].
  pose proof (Z.log2_nonneg z) as Hnn.
  assert (Hl : Z.log2 z < 53) by (by apply Z.log2_lt_pow2).
  assert (He : -52 ≤ e ≤ 0) by (unfold e; lia).
  assert (H2 : 0 < 2 ^ (- e)) by (apply Z.pow_pos_nonneg; lia).
  assert (Hm : Zpos m = z * 2 ^ (- e)) by (unfold m; rewrite Z2Pos.id; nia).
  split; [exact Hm |]. split; [| exact He].
  apply digits2_pos_unique. rewrite Hm.
  replace (53 - 1) with (Z.log2 z + - e) by (unfold e; lia).
  replace (2 ^ 53) with (2 ^ (Z.succ (Z.log2 z) + - e))
    by (f_equal; unfold e; lia).
  rewrite !Z.pow_add_r by lia. split.
  - apply Z.mul_le_mono_nonneg_r; lia.
  - apply Zmult_lt_compat_r; lia.
Qed.

Lemma binary_round_aux_exactly (z : Z) (p : positive) (E : Z) :
  0 < z < 2 ^ 53 → E ≤ Z.log2 z + 1 - 53 →
  Zpos p = z * 2 ^ (- E) →
  binary_round_aux 53 1024 false (Zpos p) E loc_Exact = exactly z.
Proof.
  intros Hz HE Hp.
  destruct (exactly_mantissa z Hz) as (Hm & Hd & He).
  unfold exactly.
  set (e := Z.log2 z + 1 - 53) in *. set (m := Z.to_pos (z * 2 ^ (- e))) in *.
  replace E with (e - (e - E)) at 1 by lia.
  apply binary_round_aux_exact; [done | lia | lia |].
  rewrite Hp, Hm, <- Z.mul_assoc, <- Z.pow_add_r by lia.
  do 2 f_equal. lia.
Qed.

Lemma pos_iter_xO (p d : positive) :
  Zpos (Pos.iter xO p d) = Zpos p * 2 ^ Zpos d.
Proof.
  induction d as [| d IH] using Pos.peano_ind.
  - simpl. lia.
  - rewrite Pos.iter_succ, Pos2Z.inj_succ, Z.pow_succ_r, (Pos2Z.inj_xO (Pos.iter xO p d)) by lia.
    rewrite IH. lia.
Qed.

Lemma shl_align_fst (m : positive) (e e' : Z) :
  e' ≤ e → Zpos (fst (shl_align m e e')) = Zpos m * 2 ^ (e - e').
Proof.
  intros H. unfold shl_align.
  destruct (e' - e) as [| d | d] eqn:Hd; simpl fst; [| lia |].
  - replace (e - e') with 0 by lia. lia.
  - rewrite pos_iter_xO. f_equal. f_equal. lia.
Qed.

Lemma binary_round_exactly (z : Z) (p : positive) (E : Z) :
  0 < z < 2 ^ 53 → E ≤ 0 →
  Zpos p = z * 2 ^ (- E) →
  binary_round 53 1024 false p E = exactly z.
Proof.
  intros Hz HE Hp.
  destruct (exactly_mantissa z Hz) as (Hm & Hd & He).
  set (e := Z.log2 z + 1 - 53) in *.
  unfold binary_round.
  assert (Hf : fexp 53 1024 (Zpos (digits2_pos p) + E) = e).
  { rewrite digits2_pos_log2, Hp, Z.log2_mul_pow2 by lia.
    unfold fexp, emin, e. lia. }
  rewrite Hf. unfold shl_align.
  destruct (e - E) as [| d | d] eqn:Hd'.
  - apply binary_round_aux_exactly; [done | fold e; lia | done].
  - apply binary_round_aux_exactly; [done | fold e; lia | done].
  - apply binary_round_aux_exactly; [done | fold e; lia |].
    rewrite pos_iter_xO, Hp, <- Z.mul_assoc, <- Z.pow_add_r by lia.
    do 2 f_equal. lia.
Qed.

Lemma of_Z_exactly (z : Z) :
  0 < z < 2 ^ 53 → JsNumber.of_Z z = exactly z.
Proof.
  intros Hz. unfold JsNumber.of_Z, binary_normalize.
  destruct z as [| p | p]; [lia | | lia].
  apply binary_round_exactly; [done | lia |]. simpl. lia.
Qed.

(** Sums and products of integers that stay below [2^53] are exact. *)
Lemma add_exactly (a b : Z) :
  0 < a → 0 < b → a + b < 2 ^ 53 →
  JsNumber.add (exactly a) (exactly b) = exactly (a + b).
Proof.
  intros Ha Hb Hab.
  destruct (exactly_mantissa a ltac:(lia)) as (Hma & _ & Hea).
  destruct (exactly_mantissa b ltac:(lia)) as (Hmb & _ & Heb).
  unfold exactly at 1 2.
  set (ea := Z.log2 a + 1 - 53) in *. set (ma := Z.to_pos (a * 2 ^ (- ea))) in *.
  set (eb := Z.log2 b + 1 - 53) in *. set (mb := Z.to_pos (b * 2 ^ (- eb))) in *.
  unfold JsNumber.add, SFadd, cond_Zopp.
  set (ez := Z.min ea eb).
  rewrite <- Pos2Z.inj_add. unfold binary_normalize.
  apply binary_round_exactly; [lia | lia |].
  rewrite Pos2Z.inj_add, !shl_align_fst, Hma, Hmb by lia.
  rewrite <- !Z.mul_assoc, <- !Z.pow_add_r by lia.
  replace (- ea + (ea - ez)) with (- ez) by lia.
  replace (- eb + (eb - ez)) with (- ez) by lia.
  lia.
Qed.

Lemma mul_exactly (a b : Z) :
  0 < a → 0 < b → a * b < 2 ^ 53 →
  JsNumber.mul (exactly a) (exactly b) = exactly (a * b).
Proof.
  intros Ha Hb Hab.
  assert (a < 2 ^ 53 ∧ b < 2 ^ 53) as [Ha' Hb'] by nia.
  destruct (exactly_mantissa a ltac:(lia)) as (Hma & _ & Hea).
  destruct (exactly_mantissa b ltac:(lia)) as (Hmb & _ & Heb).
  unfold exactly at 1 2.
  set (ea := Z.log2 a + 1 - 53) in *. set (ma := Z.to_pos (a * 2 ^ (- ea))) in *.
  set (eb := Z.log2 b + 1 - 53) in *. set (mb := Z.to_pos (b * 2 ^ (- eb))) in *.
  unfold JsNumber.mul, SFmul. cbn [xorb].
  pose proof (Z.log2_mul_below a b Ha Hb) as Hlog.
  apply binary_round_aux_exactly; [nia | unfold ea, eb in *; lia |].
  rewrite Pos2Z.inj_mul, Hma, Hmb, Z.opp_add_distr, Z.pow_add_r by lia.
  ring.
Qed.

Lemma div_same (m : positive) (e : Z) :
  JsNumber.div (S754_finite false m e) (S754_finite false m e) = exactly 1.
Proof.
  unfold JsNumber.div, JsNumber.prec, JsNumber.emax, SFdiv, SFdiv_core_binary.
  cbn [xorb]. rewrite !Z.sub_diag.
  change (Z.min (fexp 53 1024 0) 0) with (-53).
  change (0 - -53) with 53.
  cbv iota beta.
  rewrite Z.shiftl_mul_pow2 by lia.
  assert (Hq : Z.div_eucl (Zpos m * 2 ^ 53) (Zpos m) = (2 ^ 53, 0)).
  { transitivity ((Zpos m * 2 ^ 53) / Zpos m, (Zpos m * 2 ^ 53) mod Zpos m).
    - unfold Z.div, Z.modulo. by destruct (Z.div_eucl _ _).
    - rewrite (Z.mul_comm (Zpos m)), Z.div_mul, Z.mod_mul by lia. done. }
  rewrite Hq.
  assert (Hl : new_location (Zpos m) 0 = loc_Exact).
  { unfold new_location. by destruct (Z.even (Zpos m)). }
  rewrite Hl. by vm_compute.
Qed.

(** The model agrees with the doubles of IEEE 754 on a few known values:
    10 is 0x4024000000000000, the decimal 0.1 parses to 0x3FB999999999999A,
    and 0.25, which lies half-way between 0.2 and 0.3, goes up. *)
Example ten_is_exact :
  JsNumber.of_Z 10 = S754_finite false 5629499534213120 (-49).
Proof. reflexivity. Qed.

Example one_tenth :
  JsNumber.parseFloat (JsNumber.FixedTenths false 1)
  = S754_finite false 7205759403792794 (-56).
Proof. reflexivity. Qed.

Example quarter_goes_up :
  JsNumber.toFixed1 (JsNumber.div (JsNumber.of_Z 1) (JsNumber.of_Z 4))
  = JsNumber.FixedTenths false 3.
Proof. reflexivity. Qed.

Lemma exactly_positive (z : Z) :
  JsNumber.gt (exactly z) (S754_zero false) = true.
Proof. done. Qed.

End Binary64.
(** ** Navigation *)

Section Navigation.

Variable props : StudentExamProps.

Lemma handleNext_inner (s : ExamState) :
  currentQuestionIndex s < questions_length (assignment props) - 1 →
  handleNext props s = setCurrentQuestionIndex (currentQuestionIndex s + 1) s.
Proof.
  intros H. unfold handleNext.
  destruct (Z.ltb_spec (currentQuestionIndex s) (questions_length (assignment props) - 1)); [done | lia].
Qed.

Lemma handleNext_last (s : ExamState) :
  questions_length (assignment props) - 1 ≤ currentQuestionIndex s →
  handleNext props s = setIsReviewing true s.
Proof.
  intros H. unfold handleNext.
  destruct (Z.ltb_spec (currentQuestionIndex s) (questions_length (assignment props) - 1)); [lia | done].
Qed.

Lemma goToQuestion_valid (index : Z) (s : ExamState) :
  0 ≤ index < questions_length (assignment props) →
  goToQuestion props index s
  = setShowSidebar false (setIsReviewing false (setCurrentQuestionIndex index s)).
Proof.
  intros [H0 H1]. unfold goToQuestion.
  destruct (Z.geb_spec index 0); [| lia].
  destruct (Z.ltb_spec index (questions_length (assignment props))); [done | lia].
Qed.

Lemma navState_answering (s : ExamState) (i : Z) :
  navState s = Answering i ↔ isReviewing s = false ∧ currentQuestionIndex s = i.
Proof.
  unfold navState. destruct (isReviewing s); split.
  - discriminate.
  - intros [? _]; discriminate.
  - intros [= <-]; done.
  - intros [_ <-]; done.
Qed.

Lemma next_answering (s : ExamState) (i : Z) :
  navState s = Answering i → i < questions_length (assignment props) - 1 →
  navState (handleNext props s) = Answering (i + 1).
Proof.
  intros [Hr Hi]%navState_answering Hlt. subst i.
  rewrite handleNext_inner by done.
  apply navState_answering. done.
Qed.

Lemma next_review (s : ExamState) (i : Z) :
  navState s = Answering i → i = questions_length (assignment props) - 1 →
  navState (handleNext props s) = Reviewing.
Proof.
  intros [Hr Hi]%navState_answering Hlast.
  rewrite handleNext_last by lia. done.
Qed.

Lemma jump_answering (s : ExamState) (index : Z) :
  0 ≤ index < questions_length (assignment props) →
  navState (goToQuestion props index s) = Answering index.
Proof. intros H. rewrite goToQuestion_valid by done. done. Qed.

End Navigation.

(** C5.  On an assignment of three questions, from [Answering 0], three
    calls of [handleNext] give [Answering 1], [Answering 2] and then
    [Reviewing], and [goToQuestion 1] from there gives [Answering 1].  In
    general [handleNext] moves to the next index when the index is not the
    last one and enters the review at the last index, and [goToQuestion]
    with an index in range sets that index and leaves the review, whatever
    the state. *)
Theorem navigation_next_and_jump (props : StudentExamProps) (s : ExamState) :
  length (a_questions (assignment props)) = 3%nat →
  navState s = Answering 0 →
  let s1 := handleNext props s in
  let s2 := handleNext props s1 in
  let s3 := handleNext props s2 in
  (navState s1 = Answering 1 ∧ navState s2 = Answering 2 ∧ navState s3 = Reviewing
   ∧ navState (goToQuestion props 1 s3) = Answering 1)
  ∧ (∀ (p : StudentExamProps) (t : ExamState) (i : Z),
        navState t = Answering i →
        (i < questions_length (assignment p) - 1 → navState (handleNext p t) = Answering (i + 1))
        ∧ (i = questions_length (assignment p) - 1 → navState (handleNext p t) = Reviewing))
  ∧ (∀ (p : StudentExamProps) (t : ExamState) (index : Z),
        0 ≤ index < questions_length (assignment p) →
        navState (goToQuestion p index t) = Answering index
        ∧ isReviewing (goToQuestion p index t) = false
        ∧ currentQuestionIndex (goToQuestion p index t) = index).
Proof.
  intros Hlen H0 s1 s2 s3.
  assert (Hq : questions_length (assignment props) = 3) by (unfold questions_length; lia).
  assert (H1 : navState s1 = Answering 1).
  { apply (next_answering props s 0); [done | lia]. }
  assert (H2 : navState s2 = Answering 2).
  { apply (next_answering props s1 1); [done | lia]. }
  assert (H3 : navState s3 = Reviewing).
  { apply (next_review props s2 2); [done | lia]. }
  repeat split; try done.
  - apply jump_answering; lia.
  - intros Hi. by apply next_answering.
  - intros Hi. by eapply next_review.
  - by apply jump_answering.
  - rewrite goToQuestion_valid by done. done.
  - rewrite goToQuestion_valid by done. done.
Qed.

Lemma navigation_next_and_jump_witness :
  navState (handleNext sampleExam
             (handleNext sampleExam
               (handleNext sampleExam initialExamState))) = Reviewing.
Proof.
  pose proof (navigation_next_and_jump sampleExam initialExamState
                eq_refl eq_refl) as H.
  exact (proj1 (proj2 (proj2 (proj1 H)))).
Defined.

(** C9.  [handlePrev] from [Answering i] with [i > 0] goes to
    [Answering (i - 1)]; from [Answering 0] it changes nothing; in the
    review it only clears the review flag, so that the state is
    [Answering] at the index that was set last. *)
Theorem prev_transitions (s : ExamState) (i : Z) :
  (navState s = Answering i → 0 < i → navState (handlePrev s) = Answering (i - 1))
  ∧ (navState s = Answering 0 → handlePrev s = s)
  ∧ (navState s = Reviewing →
       handlePrev s = setIsReviewing false s
       ∧ currentQuestionIndex (handlePrev s) = currentQuestionIndex s
       ∧ navState (handlePrev s) = Answering (currentQuestionIndex s)).
Proof.
  unfold navState, handlePrev. destruct s as [h a sub idx rev m t sb tm]; simpl.
  destruct rev; simpl.
  - repeat split; discriminate.
  - repeat split; try discriminate.
    + intros [= ->] Hi. destruct (Z.gtb_spec i 0); [done | lia].
    + intros [= ->]. done.
Qed.

Lemma prev_transitions_witness :
  navState (handlePrev (setCurrentQuestionIndex 2 initialExamState)) = Answering 1
  ∧ handlePrev initialExamState = initialExamState
  ∧ navState (handlePrev (setIsReviewing true (setCurrentQuestionIndex 2 initialExamState)))
    = Answering 2.
Proof.
  split; [| split].
  - exact (proj1 (prev_transitions (setCurrentQuestionIndex 2 initialExamState) 2)
             eq_refl eq_refl).
  - exact (proj1 (proj2 (prev_transitions initialExamState 0)) eq_refl).
  - exact (proj2 (proj2 (proj2 (proj2
             (prev_transitions (setIsReviewing true (setCurrentQuestionIndex 2 initialExamState)) 0))
             eq_refl))).
Defined.

(** ** The heap, the answer store and the countdown along a run *)

Section Runs.

Variable props : StudentExamProps.

Lemma run_snoc (es : list Event) (e : Event) (s : ExamState) :
  run props (es ++ [e]) s = step props e (run props es s).
Proof. unfold run. by rewrite foldl_app. Qed.

Lemma reachable_initial : reachable props initialExamState.
Proof. by exists []. Qed.

Lemma reachable_step (e : Event) (s : ExamState) :
  reachable props s → reachable props (step props e s).
Proof. intros [es ->]. exists (es ++ [e]). by rewrite run_snoc. Qed.

Lemma reachable_run (es : list Event) (s : ExamState) :
  reachable props s → reachable props (run props es s).
Proof.
  induction es as [| e es IH] using rev_ind; intros Hs; [done |].
  rewrite run_snoc. by apply reachable_step, IH.
Qed.

(** An invariant of all handlers holds in every reachable state. *)
Lemma reachable_ind (P : ExamState → Prop) :
  P initialExamState →
  (∀ e s, P s → P (step props e s)) →
  ∀ s, reachable props s → P s.
Proof.
  intros H0 Hstep s [es ->].
  induction es as [| e es IH] using rev_ind; [done |].
  rewrite run_snoc. by apply Hstep.
Qed.

(** Every handler leaves the objects of the heap in place; it may add
    one at the end. *)
Lemma step_heap (e : Event) (s : ExamState) :
  ∃ ext, heap (step props e s) = heap s ++ ext.
Proof.
  destruct e; simpl;
    try (exists []; by rewrite app_nil_r).
  - exists []. rewrite app_nil_r. unfold tick.
    destruct (timer s); [| done]. by destruct (timeLeft s <=? 0).
  - by eexists.
  - exists []. rewrite app_nil_r. unfold goToQuestion.
    by destruct (_ && _).
  - exists []. rewrite app_nil_r. unfold handleNext.
    by destruct (_ <? _).
  - exists []. rewrite app_nil_r. unfold handlePrev.
    destruct (isReviewing s); [done |]. by destruct (_ >? _).
Qed.

Lemma run_heap (es : list Event) (s : ExamState) :
  ∃ ext, heap (run props es s) = heap s ++ ext.
Proof.
  induction es as [| e es [ext IH]] using rev_ind.
  - exists []. by rewrite app_nil_r.
  - rewrite run_snoc. destruct (step_heap e (run props es s)) as [ext' H].
    exists (ext ++ ext'). by rewrite H, IH, app_assoc.
Qed.

Lemma deref_app (h ext : Heap) (a : addr) :
  (a < length h)%nat → deref (h ++ ext) a = deref h a.
Proof. intros H. unfold deref. by rewrite lookup_app_l. Qed.

Lemma step_validRefs (e : Event) (s : ExamState) :
  validRefs s → validRefs (step props e s).
Proof.
  unfold validRefs. intros H. destruct e; simpl; try done.
  - unfold tick. destruct (timer s); [| done]. by destruct (timeLeft s <=? 0).
  - rewrite length_app. simpl. lia.
  - unfold goToQuestion. by destruct (_ && _).
  - unfold handleNext. by destruct (_ <? _).
  - unfold handlePrev. destruct (isReviewing s); [done |]. by destruct (_ >? _).
Qed.

Lemma reachable_validRefs (s : ExamState) :
  reachable props s → validRefs s.
Proof.
  apply reachable_ind.
  - unfold validRefs. simpl. lia.
  - intros e s'. apply step_validRefs.
Qed.

(** Only an answer change touches the store, and it writes one key. *)
Lemma step_currentAnswers (e : Event) (s : ExamState) :
  currentAnswers (step props e s)
  = match e with
    | AnswerChange qId val => <[qId := val]> (currentAnswers s)
    | _ => currentAnswers s
    end.
Proof.
  destruct e; simpl; try done.
  - unfold tick. destruct (timer s); [| done]. by destruct (timeLeft s <=? 0).
  - unfold currentAnswers, handleAnswerChange, setAnswers, deref. simpl.
    by rewrite lookup_app_r, Nat.sub_diag.
  - unfold goToQuestion. by destruct (_ && _).
  - unfold handleNext. by destruct (_ <? _).
  - unfold handlePrev. destruct (isReviewing s); [done |]. by destruct (_ >? _).
Qed.

Lemma lastChange_snoc (k : string) (es : list Event) (e : Event) :
  lastChange k (es ++ [e])
  = match e with
    | AnswerChange qId val => if decide (qId = k) then Some val else lastChange k es
    | _ => lastChange k es
    end.
Proof.
  induction es as [| e' es IH]; simpl.
  - destruct e; try done; by destruct (decide _).
  - rewrite IH. destruct e; try done; by destruct (decide _).
Qed.

Lemma run_currentAnswers (es : list Event) (k : string) :
  currentAnswers (run props es initialExamState) !! k = lastChange k es.
Proof.
  induction es as [| e es IH] using rev_ind; [done |].
  rewrite run_snoc, step_currentAnswers, lastChange_snoc.
  destruct e; try done.
  destruct (decide (qId = k)) as [-> | Hne].
  - by rewrite lookup_insert_eq.
  - by rewrite lookup_insert_ne.
Qed.

Lemma step_timerInv (e : Event) (s : ExamState) :
  timerInv s → timerInv (step props e s).
Proof.
  unfold timerInv. intros [Hr Ht]. destruct e; simpl; try done.
  - unfold tick. destruct (timer s) eqn:Htm.
    + destruct (Z.leb_spec (timeLeft s) 0); simpl; [lia |].
      split; [lia | done].
    + split; [lia |]. intros H. by specialize (Ht H).
  - unfold goToQuestion. by destruct (_ && _).
  - unfold handleNext. by destruct (_ <? _).
  - unfold handlePrev. destruct (isReviewing s); [done |]. by destruct (_ >? _).
Qed.

Lemma reachable_timerInv (s : ExamState) :
  reachable props s → timerInv s.
Proof.
  apply reachable_ind.
  - unfold timerInv. simpl. split; [lia | done].
  - intros e s'. apply step_timerInv.
Qed.

End Runs.

(** C8.  The countdown starts at 2700 seconds; in every reachable state a
    tick takes exactly one second off a positive value and leaves 0 at 0,
    and the value is never negative. *)
Theorem countdown_never_negative (props : StudentExamProps) (s : ExamState) :
  reachable props s →
  timeLeft initialExamState = 2700
  ∧ (0 < timeLeft s → timeLeft (tick s) = timeLeft s - 1)
  ∧ (timeLeft s = 0 → timeLeft (tick s) = 0)
  ∧ 0 ≤ timeLeft s
  ∧ 0 ≤ timeLeft (tick s).
Proof.
  intros Hs.
  destruct (reachable_timerInv props s Hs) as [Hr Ht].
  destruct (reachable_timerInv props (tick s)
              (reachable_step props Tick s Hs)) as [Hr' _].
  repeat split; try lia.
  - intros Hpos. unfold tick. rewrite (Ht Hpos).
    destruct (Z.leb_spec (timeLeft s) 0); [lia | done].
  - intros H0. unfold tick. destruct (timer s); [| done].
    destruct (Z.leb_spec (timeLeft s) 0); [done | lia].
Qed.

Lemma countdown_never_negative_witness :
  timeLeft (tick (tick initialExamState)) = 2698.
Proof.
  pose proof (countdown_never_negative sampleExam (tick initialExamState)
                (reachable_step sampleExam Tick _ (reachable_initial _))) as H.
  destruct H as (_ & Hdec & _).
  rewrite Hdec; [reflexivity | simpl; lia].
Defined.

(** ** The answer store *)

(** C3, as stated, fails: after an answer is typed and then cleared the
    store holds the key with the empty string, and the count of answered
    questions still includes it. *)
Lemma answer_store_holds_empty_entry :
  let s := run sampleExam [AnswerChange "q_1" "x"; AnswerChange "q_1" ""]
             initialExamState in
  currentAnswers s !! "q_1" = Some ""
  ∧ ¬ Spec.storeHasNoEmpty (currentAnswers s)
  ∧ answeredCount s = 1
  ∧ answeredCount initialExamState = 0.
Proof.
  assert (H : currentAnswers
                (run sampleExam [AnswerChange "q_1" "x"; AnswerChange "q_1" ""]
                   initialExamState) !! "q_1" = Some "").
  { by rewrite run_currentAnswers. }
  split; [exact H |]. split; [| split].
  - intros Hno. by apply (Hno "q_1" "" H).
  - by vm_compute.
  - by vm_compute.
Qed.

(** C3, amended.  An answer change overwrites without a condition: after
    any sequence of events the store maps a key to the value of the latest
    change of that key, the empty string included, and holds no other key.
    The marker of a question ([isAnswered]) and the display of its answer
    on the review screen treat an empty entry as they treat an absent
    key. *)
Theorem answer_store_latest_change (props : StudentExamProps) (es : list Event)
    (q : Question) :
  let s := run props es initialExamState in
  currentAnswers s !! q_id q = lastChange (q_id q) es
  ∧ isAnswered q s = from_option JsString.truthy false (lastChange (q_id q) es)
  ∧ (lastChange (q_id q) es = Some "" ∨ lastChange (q_id q) es = None →
       isAnswered q s = false ∧ getAnswerDisplay props (q_id q) s = NotDone).
Proof.
  intros s.
  assert (H : currentAnswers s !! q_id q = lastChange (q_id q) es)
    by apply run_currentAnswers.
  split; [exact H |]. split.
  - unfold isAnswered, truthy_at. rewrite H. by destruct (lastChange _ _).
  - intros Hl. unfold isAnswered, truthy_at, getAnswerDisplay. rewrite H.
    destruct Hl as [-> | ->]; simpl; by destruct (findQuestion props (q_id q)).
Qed.

Lemma answer_store_latest_change_witness :
  let s := run sampleExam [AnswerChange "q_1" "x"; AnswerChange "q_1" ""]
             initialExamState in
  isAnswered (sampleQuestion "q_1" SHORT_ANSWER None) s = false
  ∧ getAnswerDisplay sampleExam "q_1" s = NotDone.
Proof.
  exact (proj2 (proj2 (answer_store_latest_change sampleExam
                         [AnswerChange "q_1" "x"; AnswerChange "q_1" ""]
                         (sampleQuestion "q_1" SHORT_ANSWER None)))
           (or_introl eq_refl)).
Defined.

(** ** The submission *)

(** The submission holds the very reference the component held: no copy
    of the answer object is made. *)
Lemma submission_shares_answers (props : StudentExamProps) (s : ExamState) (now : Z) :
  sub_answers (snd (handleConfirmSubmit props s) now) = answers s.
Proof. done. Qed.

(** C6.  The submission handed to [onSubmit] refers to the answer object
    the component held when the submission was confirmed.  Whatever events
    follow, answer changes included, that object and every field of the
    submission read as they did: an answer change allocates a new object
    and leaves the existing ones alone. *)
Theorem submission_snapshot (props : StudentExamProps) (s : ExamState) (now : Z)
    (es : list Event) :
  reachable props s →
  let sub := snd (handleConfirmSubmit props s) now in
  let s' := run props es (fst (handleConfirmSubmit props s)) in
  readSubmission (heap s') sub = readSubmission (heap s) sub
  ∧ deref (heap s') (sub_answers sub) = currentAnswers s.
Proof.
  intros Hs sub s'.
  assert (Hd : deref (heap s') (sub_answers sub) = currentAnswers s).
  { destruct (run_heap props es (fst (handleConfirmSubmit props s))) as [ext Hh].
    fold s' in Hh. rewrite Hh. simpl.
    apply deref_app. by apply (reachable_validRefs props). }
  split; [| exact Hd].
  unfold readSubmission. by rewrite Hd.
Qed.

Lemma submission_snapshot_witness :
  let s := run sampleExam [AnswerChange "q_1" "A"] initialExamState in
  let sub := snd (handleConfirmSubmit sampleExam s) 1700000000000 in
  let s' := run sampleExam [AnswerChange "q_1" "B"] (fst (handleConfirmSubmit sampleExam s)) in
  deref (heap s') (sub_answers sub) !! "q_1" = Some "A"
  ∧ currentAnswers s' !! "q_1" = Some "B".
Proof.
  intros s sub s'. split.
  - unfold s', sub.
    rewrite (proj2 (submission_snapshot sampleExam s 1700000000000
                      [AnswerChange "q_1" "B"]
                      (reachable_run sampleExam _ _ (reachable_initial sampleExam)))).
    reflexivity.
  - reflexivity.
Defined.

(** ** The answer-key resolvers *)

Lemma truthy_nonempty (s : string) : JsString.truthy s = true ↔ s ≠ "".
Proof. destruct s; simpl; split; try done. Qed.

Lemma truthy_empty (s : string) : JsString.truthy s = false ↔ s = "".
Proof. destruct s; simpl; split; try done. Qed.

Lemma indexOf_range (l : list string) (x : string) :
  indexOf l x = -1 ∨ 0 ≤ indexOf l x < Z.of_nat (length l).
Proof.
  induction l as [| y l IH]; simpl; [by left |].
  destruct (decide (y = x)); [right; lia |].
  destruct (Z.eqb_spec (indexOf l x) (-1)); [by left | right; lia].
Qed.

Lemma indexOf_absent (l : list string) (x : string) :
  indexOf l x = -1 ↔ x ∉ l.
Proof.
  induction l as [| y l IH]; simpl.
  - split; [intros _; apply not_elem_of_nil | done].
  - rewrite not_elem_of_cons. destruct (decide (y = x)) as [-> | Hne].
    + split; [lia | intros [? _]; done].
    + destruct (Z.eqb_spec (indexOf l x) (-1)) as [He | He].
      * split; [intros _; split; [done | by apply IH] | done].
      * split; [| intros [_ Hx]; by apply IH in Hx].
        destruct (indexOf_range l x); lia.
Qed.

(** C4, as stated, fails on an option whose text is empty: the entry
    exists at the position of the letter, yet the token comes back. *)
Lemma getMCQText_empty_option :
  getMCQText emptyFirstOption (Some "A") = Some "A"
  ∧ Spec.resolveDisplayText emptyFirstOption (Some "A") = Some ""
  ∧ getMCQText emptyFirstOption (Some "A")
    ≠ Spec.resolveDisplayText emptyFirstOption (Some "A").
Proof. by vm_compute. Qed.

(** C4, amended.  For an absent or empty token [getMCQText] returns
    nothing; for a question that is not multiple-choice or has no options
    it returns the token; for a multiple-choice question it trims the
    token, puts it in upper case, looks it up in A, B, C, D and returns the
    text of the option at that position when the letter is found and the
    text there is present and not empty, and the token otherwise.  When no
    option text is empty this is the resolver of the specification.  For
    the options x, y, z, w and the token b the result is y. *)
Theorem getMCQText_resolves (q : Question) (key : option string) :
  (key = None ∨ key = Some "" → getMCQText q key = None)
  ∧ (∀ k, key = Some k → k ≠ "" →
       q_type q ≠ MCQ ∨ q_options q = None → getMCQText q key = Some k)
  ∧ (∀ k options, key = Some k → k ≠ "" →
       q_type q = MCQ → q_options q = Some options →
       getMCQText q key
       = match at_index options
                 (indexOf letters (JsString.toUpperCase (JsString.trim k))) with
         | Some text => if JsString.truthy text then Some text else Some k
         | None => Some k
         end)
  ∧ ((∀ options, q_options q = Some options → "" ∉ options) →
       getMCQText q key = Spec.resolveDisplayText q key)
  ∧ getMCQText fourOptions (Some "b") = Some "y".
Proof.
  split; [| split; [| split; [| split]]].
  - intros [-> | ->]; done.
  - intros k -> Hk%truthy_nonempty Hq. unfold getMCQText. rewrite Hk. simpl.
    destruct Hq as [Hq | Hq].
    + destruct (q_type q); done.
    + rewrite Hq. by destruct (q_type q).
  - intros k options -> Hk%truthy_nonempty Ht Ho. unfold getMCQText.
    rewrite Hk, Ht, Ho. cbn -[indexOf at_index].
    destruct (Z.eqb_spec (indexOf letters (JsString.toUpperCase (JsString.trim k))) (-1))
      as [-> | Hne]; done.
  - intros Hopt. destruct key as [k |]; [| done].
    unfold getMCQText, Spec.resolveDisplayText.
    destruct (JsString.truthy k); cbn -[indexOf at_index]; [| done].
    destruct (q_type q); try done.
    destruct (q_options q) as [options |] eqn:Ho; [| done].
    destruct (_ =? -1); cbn -[indexOf at_index]; [done |].
    destruct (at_index options _) as [text |] eqn:Hat; [| done].
    destruct (JsString.truthy text) eqn:Htext; [done |].
    apply truthy_empty in Htext. subst text.
    exfalso. apply (Hopt options eq_refl).
    unfold at_index in Hat. destruct (_ <? 0); [done |].
    by apply list_elem_of_lookup_2 in Hat.
  - by vm_compute.
Qed.

Lemma getMCQText_resolves_witness :
  getMCQText fourOptions (Some " c ") = Some "z"
  ∧ getMCQText fourOptions (Some " c ") = Spec.resolveDisplayText fourOptions (Some " c ").
Proof.
  pose proof (getMCQText_resolves fourOptions (Some " c ")) as (_ & _ & H3 & H4 & _).
  split.
  - rewrite (H3 " c " ["x"; "y"; "z"; "w"] eq_refl ltac:(discriminate) eq_refl eq_refl).
    reflexivity.
  - apply H4. intros options [= <-]. apply (bool_decide_unpack _). reflexivity.
Defined.

(** C10, as stated, fails: the two resolvers do not disagree on every
    lower-case or padded token.  On a token that is no form of a letter key
    (e, also padded) both show the token; on a lower-case letter whose
    position has no option both show the token as well; and on a
    lower-case letter whose option has that very text both show the same
    text. *)
Lemma review_and_results_can_agree :
  (let s := handleAnswerChange "q_1" "e" initialExamState in
   shownText (getAnswerDisplay (examOf fourOptions) "q_1" s) = Some "e"
   ∧ getMCQText fourOptions (currentAnswers s !! "q_1") = Some "e")
  ∧ (let s := handleAnswerChange "q_1" " e " initialExamState in
     shownText (getAnswerDisplay (examOf fourOptions) "q_1" s) = Some " e "
     ∧ getMCQText fourOptions (currentAnswers s !! "q_1") = Some " e ")
  ∧ (let s := handleAnswerChange "q_1" "b" initialExamState in
     shownText (getAnswerDisplay (examOf oneOption) "q_1" s) = Some "b"
     ∧ getMCQText oneOption (currentAnswers s !! "q_1") = Some "b")
  ∧ (let s := handleAnswerChange "q_1" "b" initialExamState in
     shownText (getAnswerDisplay (examOf lettersAsOptions) "q_1" s) = Some "b"
     ∧ getMCQText lettersAsOptions (currentAnswers s !! "q_1") = Some "b").
Proof. by vm_compute. Qed.

(** C10, amended.  For a stored, non-empty token of a question of the
    assignment, [getAnswerDisplay] shows the option text only when the
    question is multiple-choice with options and the token is exactly one
    of A, B, C, D; otherwise it shows the token as stored.  When the token
    is not exactly a letter, yet trimmed and in upper case it is the letter
    of a position that holds a non-empty option text, [getMCQText] returns
    that text while [getAnswerDisplay] shows the token: the two differ
    whenever the text is not the token itself. *)
Theorem review_resolves_exact_letters_only (props : StudentExamProps)
    (s : ExamState) (qId token : string) (q : Question) :
  findQuestion props qId = Some q →
  currentAnswers s !! qId = Some token →
  token ≠ "" →
  (∀ options, q_type q = MCQ → q_options q = Some options → token ∈ letters →
     getAnswerDisplay props qId s
     = KeyWithOption token (at_index options (indexOf letters token)))
  ∧ (q_type q ≠ MCQ ∨ q_options q = None ∨ token ∉ letters →
       getAnswerDisplay props qId s = RawAnswer token)
  ∧ (∀ options text, q_type q = MCQ → q_options q = Some options →
       token ∉ letters →
       at_index options (indexOf letters (JsString.toUpperCase (JsString.trim token)))
       = Some text →
       text ≠ "" →
       getMCQText q (Some token) = Some text
       ∧ shownText (getAnswerDisplay props qId s) = Some token
       ∧ (text ≠ token →
            shownText (getAnswerDisplay props qId s) ≠ getMCQText q (Some token))).
Proof.
  intros Hq Hs Htok%truthy_nonempty.
  assert (Hraw : q_type q ≠ MCQ ∨ q_options q = None ∨ token ∉ letters →
                 getAnswerDisplay props qId s = RawAnswer token).
  { intros Hc. unfold getAnswerDisplay. rewrite Hq, Hs, Htok.
    destruct (q_type q) eqn:Ht; try done.
    destruct (q_options q) as [options |] eqn:Ho; [| done].
    destruct Hc as [Hc | [Hc | Hc]]; try done.
    apply indexOf_absent in Hc. by rewrite Hc. }
  split; [| split; [exact Hraw |]].
  - intros options Ht Ho Hin. unfold getAnswerDisplay.
    rewrite Hq, Hs, Htok, Ht, Ho.
    destruct (Z.eqb_spec (indexOf letters token) (-1)) as [He | He]; [| done].
    by apply indexOf_absent in He.
  - intros options text Ht Ho Hnot Hat Htext%truthy_nonempty.
    assert (Hm : getMCQText q (Some token) = Some text).
    { unfold getMCQText. rewrite Htok, Ht, Ho. cbn -[indexOf at_index].
      destruct (Z.eqb_spec (indexOf letters (JsString.toUpperCase (JsString.trim token)))
                  (-1)) as [He | He].
      - by rewrite He in Hat.
      - cbn -[indexOf at_index]. by rewrite Hat, Htext. }
    rewrite Hm, Hraw by auto. simpl.
    split; [done |]. split; [done |]. congruence.
Qed.

Lemma review_resolves_exact_letters_only_witness :
  let s := handleAnswerChange "q_1" " b" initialExamState in
  getMCQText fourOptions (Some " b") = Some "y"
  ∧ shownText (getAnswerDisplay (examOf fourOptions) "q_1" s) = Some " b".
Proof.
  intros s.
  pose proof (review_resolves_exact_letters_only (examOf fourOptions) s "q_1" " b"
                fourOptions eq_refl eq_refl ltac:(discriminate)) as (_ & _ & H).
  specialize (H ["x"; "y"; "z"; "w"] "y" eq_refl eq_refl).
  destruct H as (H1 & H2 & _).
  - apply (bool_decide_unpack _). reflexivity.
  - reflexivity.
  - discriminate.
  - split; [exact H1 | exact H2].
Defined.

(** ** The grading reduction *)

Section Reduction.

Lemma forEach_objects (items : list AssessmentItem) (acc : gmap string string * spec_float) :
  forEachAssessment (EntryObject <$> items) acc
  = Returned (foldl recordFeedback (fst acc) items, foldl addScore (snd acc) items).
Proof.
  revert acc. induction items as [| item items IH]; intros [m x]; simpl; [done |].
  unfold recordFeedback at 2, addScore at 2.
  destruct (recorded_id item); simpl; by rewrite IH.
Qed.

Lemma forEach_null (entries : list Entry) (acc : gmap string string * spec_float) :
  forallb noNull entries = false →
  forEachAssessment entries acc = Thrown typeError_item.
Proof.
  revert acc. induction entries as [| e entries IH]; intros acc; simpl; [done |].
  destruct e as [| item]; simpl; [done |].
  intros H. destruct (recorded_id item); by apply IH.
Qed.

Lemma forEach_noNull (entries : list Entry) :
  forallb noNull entries = true →
  ∃ items, entries = EntryObject <$> items.
Proof.
  induction entries as [| e entries IH]; simpl.
  - by exists [].
  - destruct e as [| item]; simpl; [done |].
    intros [items ->]%IH. by exists (item :: items).
Qed.

Lemma inherited_proto : inherited "__proto__" = true.
Proof. reflexivity. Qed.

Lemma inherited_elem (k : string) :
  inherited k = true ↔ k ∈@{gset string} list_to_set prototypeMembers.
Proof.
  unfold inherited. rewrite bool_decide_eq_true. by rewrite elem_of_list_to_set.
Qed.

Lemma dom_setProperty (k v : string) (m : gmap string string) :
  dom (setProperty k v m) = dom m ∪ ({[k]} ∖ {["__proto__"]}).
Proof.
  unfold setProperty. destruct (decide (k = "__proto__")) as [-> | Hne].
  - set_solver.
  - rewrite dom_insert_L. set_solver.
Qed.

Lemma dom_recordFeedback (items : list AssessmentItem) (m : gmap string string) :
  dom (foldl recordFeedback m items)
  = dom m ∪ (list_to_set (recordedIds items) ∖ {["__proto__"]}).
Proof.
  revert m. induction items as [| item items IH]; intros m; simpl.
  - set_solver.
  - rewrite IH. unfold recordFeedback, recordedIds. simpl.
    destruct (recorded_id item) as [qid |]; simpl; [| done].
    rewrite dom_setProperty. set_solver.
Qed.

Lemma dom_backfillQuestion (m : gmap string string) (q : Question) :
  dom (backfillQuestion m q)
  = dom m ∪ ({[q_id q]} ∖ list_to_set prototypeMembers).
Proof.
  unfold backfillQuestion, truthyProperty.
  destruct (m !! q_id q) as [v |] eqn:Hv.
  - assert (q_id q ∈ dom m) by (apply elem_of_dom; eauto).
    destruct (JsString.truthy v); simpl; [set_solver |].
    rewrite dom_setProperty. set_solver.
  - destruct (inherited (q_id q)) eqn:Hi; simpl.
    + apply inherited_elem in Hi. set_solver.
    + assert (Hne : q_id q ∉@{gset string} list_to_set prototypeMembers).
      { intros H. apply inherited_elem in H. congruence. }
      assert (Hp : q_id q ≠ "__proto__").
      { intros Heq. rewrite Heq, inherited_proto in Hi. done. }
      rewrite dom_setProperty. set_solver.
Qed.

Lemma dom_backfill (qs : list Question) (m : gmap string string) :
  dom (backfill qs m)
  = dom m ∪ (list_to_set (q_id <$> qs) ∖ list_to_set prototypeMembers).
Proof.
  unfold backfill. revert m. induction qs as [| q qs IH]; intros m; simpl.
  - set_solver.
  - rewrite IH, dom_backfillQuestion. set_solver.
Qed.

Lemma plainIds_disjoint (assignment : Assignment) :
  plainIds assignment = true →
  Spec.feedbackKeys assignment ∖ list_to_set prototypeMembers
  = Spec.feedbackKeys assignment.
Proof.
  unfold plainIds, Spec.feedbackKeys, question_ids. intros H.
  rewrite forallb_forall in H.
  apply set_eq. intros k. split; [set_solver |]. intros Hk.
  apply elem_of_difference. split; [done |].
  apply elem_of_list_to_set, list_elem_of_fmap in Hk as (q & -> & Hq).
  intros Hin. apply inherited_elem in Hin.
  apply list_elem_of_In in Hq. apply H in Hq. by rewrite Hin in Hq.
Qed.

Lemma gradeReply_objects (assignment : Assignment) (items : list AssessmentItem)
    (comment : option string) :
  gradeReply assignment (DataObject (AssessmentsArray (EntryObject <$> items)) comment)
  = Returned
      {| score := JsNumber.parseFloat (JsNumber.toFixed1
                    (normalize (sumRecorded items)
                       (JsNumber.mul (JsNumber.of_Z (questions_length assignment))
                                     (JsNumber.of_Z 10))));
         totalScore := 10;
         feedback := backfill (a_questions assignment) (foldl recordFeedback ∅ items);
         overallComment := string_or comment defaultComment |}.
Proof. unfold gradeReply, reduceAssessments. by rewrite forEach_objects. Qed.

Lemma gradeSubmission_objects (assignment : Assignment) (submission : StudentSubmission)
    (items : list AssessmentItem) (comment : option string) :
  gradeSubmission assignment submission (reply items comment)
  = gradeReply assignment (DataObject (AssessmentsArray (EntryObject <$> items)) comment).
Proof. unfold gradeSubmission, reply. by rewrite gradeReply_objects. Qed.

End Reduction.

(** C1, as stated, fails: an assessment whose identifier is not one of the
    assignment is recorded like the others, so the feedback has a key
    outside the assignment. *)
Lemma feedback_keeps_unknown_id :
  ∃ r, gradeSubmission oneQuestion sampleSubmission (reply withUnknownId None) = Returned r
       ∧ feedback r !! "zz" = Some "?"
       ∧ ("zz" ∉ Spec.feedbackKeys oneQuestion)
       ∧ dom (feedback r) ≠ Spec.feedbackKeys oneQuestion.
Proof.
  eexists. split; [by rewrite gradeSubmission_objects, gradeReply_objects |].
  simpl.
  assert (Hno : "zz" ∉ Spec.feedbackKeys oneQuestion).
  { unfold Spec.feedbackKeys, oneQuestion. simpl. set_solver. }
  assert (Hin : backfill [fourOptions] (foldl recordFeedback ∅ withUnknownId) !! "zz"
                = Some "?") by (by vm_compute).
  split; [exact Hin |]. split; [exact Hno |].
  intros Heq. apply Hno. rewrite <- Heq. apply elem_of_dom. eauto.
Qed.

(** C1, amended.  Whatever assessments the collaborator returns, a result
    is produced, and the keys of its feedback are these: the non-empty
    identifiers of the assessments, but [__proto__], under which a plain
    object takes no entry; and the question identifiers of the
    assignment, but those named like a member of [Object.prototype],
    which read as present and get no placeholder.  So when no question is
    named like that, as for the identifiers [generateUniqueId] makes,
    every question has an entry, and an assessment for an unknown
    identifier adds a key; the key set is then exactly that of the
    assignment when no assessment names an unknown identifier.  Without a
    list of assessments the keys are those of the questions alone. *)
Theorem feedback_keys (assignment : Assignment) (submission : StudentSubmission)
    (items : list AssessmentItem) (comment : option string) :
  (∃ r, gradeSubmission assignment submission (reply items comment) = Returned r
        ∧ dom (feedback r)
          = (Spec.feedbackKeys assignment ∖ list_to_set prototypeMembers)
            ∪ (list_to_set (recordedIds items) ∖ {["__proto__"]})
        ∧ (plainIds assignment = true →
             dom (feedback r)
             = Spec.feedbackKeys assignment
               ∪ (list_to_set (recordedIds items) ∖ {["__proto__"]})
             ∧ Spec.feedbackKeys assignment ⊆ dom (feedback r)
             ∧ (list_to_set (recordedIds items) ⊆ Spec.feedbackKeys assignment →
                  dom (feedback r) = Spec.feedbackKeys assignment)))
  ∧ (∃ r, gradeSubmission assignment submission
            (Json (DataObject AssessmentsMissing comment)) = Returned r
          ∧ dom (feedback r)
            = Spec.feedbackKeys assignment ∖ list_to_set prototypeMembers
          ∧ (plainIds assignment = true →
               dom (feedback r) = Spec.feedbackKeys assignment)).
Proof.
  split.
  - eexists. split; [by rewrite gradeSubmission_objects, gradeReply_objects |].
    simpl. rewrite dom_backfill, dom_recordFeedback, dom_empty_L.
    fold (question_ids assignment). fold (Spec.feedbackKeys assignment).
    split; [set_solver |].
    intros Hplain. rewrite (plainIds_disjoint assignment Hplain).
    split; [set_solver |]. split; set_solver.
  - eexists. split; [done |]. simpl.
    rewrite dom_backfill, dom_empty_L.
    fold (question_ids assignment). fold (Spec.feedbackKeys assignment).
    split; [set_solver |].
    intros Hplain. rewrite (plainIds_disjoint assignment Hplain). set_solver.
Qed.

Lemma feedback_keys_witness :
  ∃ r, gradeSubmission oneQuestion sampleSubmission
         (reply [assessment "q_1" 10 "Tốt"] None) = Returned r
       ∧ dom (feedback r) = Spec.feedbackKeys oneQuestion.
Proof.
  destruct (feedback_keys oneQuestion sampleSubmission [assessment "q_1" 10 "Tốt"] None)
    as [(r & Hr & _ & Hplain) _].
  exists r. split; [exact Hr |].
  destruct (Hplain eq_refl) as (_ & _ & Hexact).
  apply Hexact. apply (bool_decide_unpack _). reflexivity.
Defined.

(** ** Failure of the grading call *)

Lemma gradeReply_usable (assignment : Assignment) (data : ParsedData) :
  reducible data = true → ∃ r, gradeReply assignment data = Returned r.
Proof.
  destruct data as [| [| | entries] comment]; simpl; try done.
  - intros _. by eexists.
  - intros [items ->]%forEach_noNull. rewrite forEach_objects. by eexists.
Qed.

Lemma gradeReply_unusable (assignment : Assignment) (data : ParsedData) :
  reducible data = false → ∃ m, gradeReply assignment data = Thrown m.
Proof.
  destruct data as [| [| | entries] comment]; simpl; try done.
  - intros _. by eexists.
  - intros _. by eexists.
  - intros H. rewrite (forEach_null _ _ H). by eexists.
Qed.

Lemma gradeSubmission_usable (assignment : Assignment) (submission : StudentSubmission)
    (response : Response) :
  usable response = true →
  ∃ r, gradeSubmission assignment submission response = Returned r.
Proof.
  destruct response as [m | m | data]; simpl; try done.
  intros [r Hr]%(gradeReply_usable assignment). exists r.
  unfold gradeSubmission. by rewrite Hr.
Qed.

Lemma gradeSubmission_unusable (assignment : Assignment) (submission : StudentSubmission)
    (response : Response) :
  usable response = false →
  ∃ m, gradeSubmission assignment submission response = Thrown (gradingFailed +:+ m).
Proof.
  destruct response as [m | m | data]; simpl.
  - intros _. by exists m.
  - intros _. by exists m.
  - intros [m Hm]%(gradeReply_unusable assignment). exists m.
    unfold gradeSubmission. by rewrite Hm.
Qed.

(** C7, as stated, fails in both directions.  A response without the
    expected shape, such as the number 42, a text, an array or an object
    with no assessments, all of which read as data without assessments,
    is no failure: it is graded, every question with the placeholder and
    the score 0.  And a response of the expected shape in which one entry
    is null, beside a good one, is not absorbed: the whole call fails. *)
Lemma grading_accepts_shapeless_reply :
  (Spec.failsWhole (Json (DataObject AssessmentsMissing None)) = true
   ∧ ∃ r, gradeSubmission oneQuestion sampleSubmission
            (Json (DataObject AssessmentsMissing None)) = Returned r
          ∧ feedback r !! "q_1" = Some noAssessment
          ∧ score r = S754_zero false
          ∧ result (fetchGrade oneQuestion sampleSubmission "gv@truong.edu.vn"
                      (Json (DataObject AssessmentsMissing None)) initialResultState)
            = Some r)
  ∧ (Spec.failsWhole
       (Json (DataObject (AssessmentsArray [EntryObject (assessment "q_1" 10 "Tốt");
                                            EntryNull]) None)) = false
     ∧ gradeSubmission oneQuestion sampleSubmission
         (Json (DataObject (AssessmentsArray [EntryObject (assessment "q_1" 10 "Tốt");
                                              EntryNull]) None))
       = Thrown (gradingFailed +:+ typeError_item)).
Proof.
  split.
  - split; [reflexivity |]. eexists. split; [reflexivity |].
    split; [by vm_compute |]. split; [by vm_compute | reflexivity].
  - split; reflexivity.
Qed.

(** C7, amended.  [gradeSubmission] throws the error prefixed with
    "AI Grading failed: " and returns no result exactly when the call of
    the collaborator fails, when its text is not JSON, when the parsed
    data is null, when its assessments are present but no array, or when
    an entry of the array is null; [fetchGrade] then keeps the result it
    had, absent at the start, and stores the message.  Every other
    response, whatever fields or questions it lacks, also one with no
    list of assessments at all, gives a result and no error. *)
Theorem grading_fails_whole_or_not_at_all (assignment : Assignment)
    (submission : StudentSubmission) (teacherEmail : string) (response : Response)
    (s : ResultState) :
  let s' := fetchGrade assignment submission teacherEmail response s in
  (usable response = false →
     ∃ m, gradeSubmission assignment submission response = Thrown (gradingFailed +:+ m)
          ∧ result s' = result s
          ∧ (result s = None → result s' = None)
          ∧ errorMsg s' = Some (gradingFailed +:+ m)
          ∧ loading s' = false)
  ∧ (usable response = true →
       ∃ r, gradeSubmission assignment submission response = Returned r
            ∧ result s' = Some r
            ∧ errorMsg s' = None
            ∧ loading s' = false)
  ∧ (∀ m, usable (CallFailed m) = false ∧ usable (InvalidJson m) = false
          ∧ gradeSubmission assignment submission (CallFailed m)
            = Thrown (gradingFailed +:+ m)
          ∧ gradeSubmission assignment submission (InvalidJson m)
            = Thrown (gradingFailed +:+ m))
  ∧ (∀ items comment, usable (reply items comment) = true
                      ∧ usable (Json (DataObject AssessmentsMissing comment)) = true)
  ∧ (usable (Json DataNull) = false
     ∧ (∀ comment, usable (Json (DataObject AssessmentsNotArray comment)) = false)
     ∧ (∀ entries comment,
          usable (Json (DataObject (AssessmentsArray entries) comment)) = true
          ↔ EntryNull ∉ entries)).
Proof.
  intros s'. split; [| split; [| split; [| split]]].
  - intros [m Hm]%(gradeSubmission_unusable assignment submission).
    exists m. subst s'. unfold fetchGrade. rewrite Hm. simpl.
    repeat split; done.
  - intros [r Hr]%(gradeSubmission_usable assignment submission).
    exists r. subst s'. unfold fetchGrade. rewrite Hr. simpl.
    repeat split; done.
  - intros m. repeat split; done.
  - intros items comment. split; [| done]. simpl.
    induction items as [| item items IH]; simpl; done.
  - split; [done |]. split; [done |]. intros entries comment. simpl.
    induction entries as [| e entries IH]; simpl.
    + split; [intros _; apply not_elem_of_nil | done].
    + rewrite andb_true_iff, IH, not_elem_of_cons.
      destruct e; simpl; split; try done; intros [? ?]; done.
Qed.

Lemma grading_fails_whole_or_not_at_all_witness :
  result (fetchGrade oneQuestion sampleSubmission "gv@truong.edu.vn"
            (InvalidJson "Unexpected end of JSON input") initialResultState) = None
  ∧ ∃ r, result (fetchGrade oneQuestion sampleSubmission "gv@truong.edu.vn"
                   (reply [] None) initialResultState) = Some r.
Proof.
  split.
  - destruct (proj1 (grading_fails_whole_or_not_at_all oneQuestion sampleSubmission
                       "gv@truong.edu.vn" (InvalidJson "Unexpected end of JSON input")
                       initialResultState) eq_refl) as (m & _ & _ & H & _).
    exact (H eq_refl).
  - destruct (proj1 (proj2 (grading_fails_whole_or_not_at_all oneQuestion sampleSubmission
                       "gv@truong.edu.vn" (reply [] None) initialResultState)) eq_refl)
      as (r & _ & H & _).
    exists r. exact H.
Defined.

(** ** The normalized score *)

Lemma normalize_nothing_earned (maxScore : spec_float) :
  JsNumber.parseFloat (JsNumber.toFixed1 (normalize (S754_zero false) maxScore))
  = S754_zero false.
Proof. destruct maxScore as [[] | [] | | [] m e]; reflexivity. Qed.

Lemma normalize_no_question (earnedScore : spec_float) :
  JsNumber.parseFloat (JsNumber.toFixed1
    (normalize earnedScore (JsNumber.mul (JsNumber.of_Z 0) (JsNumber.of_Z 10))))
  = S754_zero false.
Proof. reflexivity. Qed.

Lemma addScore_scored (points : Z) (x : spec_float) (item : AssessmentItem) :
  scored points item →
  addScore x item = JsNumber.add x (score_or_zero (Some (JsNumber.of_Z points))).
Proof. intros [[qid Hq] Hs]. unfold addScore. by rewrite Hq, Hs. Qed.

Lemma sum_of_tens (items : list AssessmentItem) (k : Z) :
  Forall (scored 10) items → 0 < k →
  k + 10 * Z.of_nat (length items) < 2 ^ 53 →
  foldl addScore (exactly k) items = exactly (k + 10 * Z.of_nat (length items)).
Proof.
  intros Hall. revert k. induction Hall as [| item items Hitem Hall IH]; intros k Hk Hb.
  - simpl. f_equal. lia.
  - cbn [foldl]. rewrite (addScore_scored 10 _ _ Hitem).
    change (score_or_zero (Some (JsNumber.of_Z 10))) with (JsNumber.of_Z 10).
    rewrite (of_Z_exactly 10), add_exactly by (simpl length in Hb; lia).
    rewrite IH by (simpl length in Hb; lia).
    f_equal. simpl length. lia.
Qed.

Lemma sumRecorded_tens (items : list AssessmentItem) :
  items ≠ [] → Forall (scored 10) items →
  10 * Z.of_nat (length items) < 2 ^ 53 →
  sumRecorded items = exactly (10 * Z.of_nat (length items)).
Proof.
  intros Hne Hall Hb. destruct items as [| item items]; [done |].
  apply Forall_cons in Hall as [Hitem Hall].
  unfold sumRecorded. cbn [foldl].
  rewrite (addScore_scored 10 _ _ Hitem).
  change (JsNumber.add (S754_zero false) (score_or_zero (Some (JsNumber.of_Z 10))))
    with (JsNumber.of_Z 10).
  rewrite (of_Z_exactly 10) by lia.
  rewrite sum_of_tens by (done || simpl length in Hb; lia).
  f_equal. simpl length. lia.
Qed.

Lemma normalize_full_marks (z : Z) :
  JsNumber.parseFloat (JsNumber.toFixed1 (normalize (exactly z) (exactly z)))
  = JsNumber.of_Z 10.
Proof.
  unfold normalize. rewrite exactly_positive.
  unfold exactly. rewrite div_same. reflexivity.
Qed.

Lemma normalize_with_questions (n : Z) (earnedScore : spec_float) :
  0 < n < 2 ^ 32 →
  normalize earnedScore (JsNumber.mul (JsNumber.of_Z n) (JsNumber.of_Z 10))
  = JsNumber.mul
      (JsNumber.div earnedScore (JsNumber.mul (JsNumber.of_Z n) (JsNumber.of_Z 10)))
      (JsNumber.of_Z 10).
Proof.
  intros Hn. assert (Hb : 2 ^ 32 * 10 < 2 ^ 53) by done.
  rewrite (of_Z_exactly n), (of_Z_exactly 10), mul_exactly by lia.
  unfold normalize. by rewrite exactly_positive.
Qed.

(** C2, as stated, fails: the score of an assessment whose identifier is
    not one of the assignment is added like the others.  With one question
    and two assessments of 10 points, one of them for an unknown
    identifier, the score is 20, where the sum over the recognized
    assessments gives 10. *)
Lemma score_counts_unknown_id :
  ∃ r, gradeSubmission oneQuestion sampleSubmission (reply withUnknownId None) = Returned r
       ∧ score r = JsNumber.of_Z 20
       ∧ Spec.normalizedScore oneQuestion withUnknownId = JsNumber.of_Z 10
       ∧ score r ≠ Spec.normalizedScore oneQuestion withUnknownId.
Proof.
  eexists. split; [by rewrite gradeSubmission_objects, gradeReply_objects |].
  by vm_compute.
Qed.

(** C2, amended.  The score is [(earnedScore / (n * 10)) * 10] rounded to
    one decimal place, where [n] is the number of questions and
    [earnedScore] is the sum of the scores of all assessments that have a
    non-empty identifier, whether or not the identifier belongs to the
    assignment, a missing score counting as 0; it is 0 when the assignment
    has no question.  With no assessment at all the score is 0.  With one
    assessment of 10 points for each of the [n >= 1] questions it is 10.
    With four questions and the scores 10, 10, 0, 0 it is 5. *)
Theorem normalized_score (assignment : Assignment) (submission : StudentSubmission)
    (items : list AssessmentItem) (comment : option string) :
  let n := questions_length assignment in
  (∃ r, gradeSubmission assignment submission (reply items comment) = Returned r
        ∧ score r
          = JsNumber.parseFloat (JsNumber.toFixed1
              (normalize (sumRecorded items)
                 (JsNumber.mul (JsNumber.of_Z n) (JsNumber.of_Z 10))))
        ∧ (0 < n < 2 ^ 32 →
             score r
             = JsNumber.parseFloat (JsNumber.toFixed1
                 (JsNumber.mul
                    (JsNumber.div (sumRecorded items)
                       (JsNumber.mul (JsNumber.of_Z n) (JsNumber.of_Z 10)))
                    (JsNumber.of_Z 10))))
        ∧ (n = 0 → score r = S754_zero false)
        ∧ (items = [] → score r = S754_zero false)
        ∧ (0 < n < 2 ^ 32 → Z.of_nat (length items) = n →
             Forall (scored 10) items → score r = JsNumber.of_Z 10)
        ∧ (n = 4 →
             (∃ i1 i2 i3 i4, items = [i1; i2; i3; i4]
                ∧ scored 10 i1 ∧ scored 10 i2 ∧ scored 0 i3 ∧ scored 0 i4) →
             score r = JsNumber.of_Z 5))
  ∧ (∃ r, gradeSubmission assignment submission
            (Json (DataObject AssessmentsMissing comment)) = Returned r
          ∧ score r = S754_zero false)
  ∧ (∀ x item, is_Some (recorded_id item) →
       item_score item = None ∨ item_score item = Some S754_nan →
       addScore x item = JsNumber.add x (S754_zero false))
  ∧ (∀ item points, scored points item → Spec.recognized assignment item = false →
       sumRecorded [item] = JsNumber.add (S754_zero false)
                              (score_or_zero (Some (JsNumber.of_Z points)))).
Proof.
  intros n. split; [| split; [| split]].
  - eexists. split; [by rewrite gradeSubmission_objects, gradeReply_objects |].
    cbn [score]. fold n. split; [done |].
    split; [| split; [| split; [| split]]].
    + intros Hn. by rewrite normalize_with_questions.
    + intros ->. apply normalize_no_question.
    + intros ->. apply normalize_nothing_earned.
    + intros Hn Hlen Hall.
      assert (Hb : 2 ^ 32 * 10 < 2 ^ 53) by done.
      rewrite sumRecorded_tens; [| by intros ->; simpl in Hlen; lia | done | lia].
      rewrite (of_Z_exactly n), (of_Z_exactly 10), mul_exactly by lia.
      rewrite Hlen, (Z.mul_comm 10 n).
      apply normalize_full_marks.
    + intros Hn (i1 & i2 & i3 & i4 & -> & H1 & H2 & H3 & H4).
      unfold sumRecorded. cbn [foldl].
      rewrite (addScore_scored 0 _ _ H4), (addScore_scored 0 _ _ H3),
        (addScore_scored 10 _ _ H2), (addScore_scored 10 _ _ H1), Hn.
      reflexivity.
  - eexists. split; [done |]. cbn [score]. apply normalize_nothing_earned.
  - intros x item [qid Hq] Hs. unfold addScore. rewrite Hq.
    by destruct Hs as [-> | ->].
  - intros item points Hitem _. unfold sumRecorded. cbn [foldl].
    by rewrite (addScore_scored points _ _ Hitem).
Qed.

Lemma normalized_score_witness :
  (∃ r, gradeSubmission fourQuestions sampleSubmission (reply allRight None) = Returned r
        ∧ score r = JsNumber.of_Z 10)
  ∧ (∃ r, gradeSubmission fourQuestions sampleSubmission (reply halfRight None) = Returned r
          ∧ score r = JsNumber.of_Z 5).
Proof.
  split.
  - destruct (proj1 (normalized_score fourQuestions sampleSubmission allRight None))
      as (r & Hr & _ & _ & _ & _ & Hfull & _).
    exists r. split; [exact Hr |].
    apply Hfull; [done | reflexivity |].
    repeat constructor; by eexists.
  - destruct (proj1 (normalized_score fourQuestions sampleSubmission halfRight None))
      as (r & Hr & _ & _ & _ & _ & _ & Hhalf).
    exists r. split; [exact Hr |].
    apply Hhalf; [reflexivity |].
    eexists _, _, _, _. split; [reflexivity |].
    repeat split; by eexists.
Defined.

(** * Further properties *)

(** ** cleanJsonText *)

Lemma append_cons (a : ascii) (s t : string) :
  String a s +:+ t = String a (s +:+ t).
Proof. reflexivity. Qed.

Lemma append_nil_l (t : string) : "" +:+ t = t.
Proof. reflexivity. Qed.

Lemma append_length (s t : string) :
  String.length (s +:+ t) = (String.length s + String.length t)%nat.
Proof.
  induction s as [| a s IH]; [done |].
  rewrite ?append_cons. simpl. by rewrite IH.
Qed.

Lemma append_assoc (s t u : string) : (s +:+ t) +:+ u = s +:+ (t +:+ u).
Proof.
  induction s as [| a s IH]; [done |].
  by rewrite ?append_cons, IH.
Qed.

Lemma append_nil_r (s : string) : s +:+ "" = s.
Proof.
  induction s as [| a s IH]; [done |]. by rewrite ?append_cons, IH.
Qed.

Lemma hasChar_append (c : ascii) (s t : string) :
  hasChar c (s +:+ t) = hasChar c s || hasChar c t.
Proof.
  induction s as [| a s IH]; [done |].
  rewrite ?append_cons. simpl. rewrite IH. by rewrite orb_assoc.
Qed.

Lemma indexOfChar_absent (c : ascii) (s : string) :
  hasChar c s = false → indexOfChar c s = -1.
Proof.
  induction s as [| a s IH]; simpl; [done |].
  destruct (Ascii.eqb a c); simpl; [done |]. intros H. by rewrite IH.
Qed.

Lemma indexOfChar_range (c : ascii) (s : string) :
  indexOfChar c s = -1 ∨ 0 ≤ indexOfChar c s < Z.of_nat (String.length s).
Proof.
  induction s as [| a s IH]; simpl; [by left |].
  destruct (Ascii.eqb a c); [right; lia |].
  destruct (Z.eqb_spec (indexOfChar c s) (-1)); [by left | right; lia].
Qed.

(** The first occurrence is where the text before it has none. *)
Lemma indexOfChar_first (c : ascii) (p r : string) :
  hasChar c p = false →
  indexOfChar c (p +:+ String c r) = Z.of_nat (String.length p).
Proof.
  induction p as [| a p IH]; simpl.
  - intros _. rewrite ?append_nil_l. simpl. by rewrite Ascii.eqb_refl.
  - rewrite ?append_cons. simpl.
    destruct (Ascii.eqb a c); simpl; [done |]. intros H. rewrite IH by done.
    destruct (Z.eqb_spec (Z.of_nat (String.length p)) (-1)); lia.
Qed.

Lemma lastIndexOfChar_absent (c : ascii) (s : string) :
  hasChar c s = false → lastIndexOfChar c s = -1.
Proof.
  induction s as [| a s IH]; simpl; [done |].
  destruct (Ascii.eqb a c); simpl; [done |]. intros H. by rewrite IH.
Qed.

Lemma lastIndexOfChar_range (c : ascii) (s : string) :
  lastIndexOfChar c s = -1 ∨ 0 ≤ lastIndexOfChar c s < Z.of_nat (String.length s).
Proof.
  induction s as [| a s IH]; simpl; [by left |].
  destruct (Z.eqb_spec (lastIndexOfChar c s) (-1)).
  - destruct (Ascii.eqb a c); [right; lia | by left].
  - right. lia.
Qed.

(** The last occurrence is where the text after it has none. *)
Lemma lastIndexOfChar_last (c : ascii) (x r : string) :
  hasChar c r = false →
  lastIndexOfChar c (x +:+ String c r) = Z.of_nat (String.length x).
Proof.
  intros Hr. induction x as [| a x IH].
  - rewrite ?append_nil_l. simpl. rewrite lastIndexOfChar_absent by done.
    simpl. by rewrite Ascii.eqb_refl.
  - rewrite ?append_cons. simpl. rewrite IH.
    destruct (Z.eqb_spec (Z.of_nat (String.length x)) (-1)); lia.
Qed.

Lemma string_drop_append (p s : string) :
  string_drop (String.length p) (p +:+ s) = s.
Proof. induction p as [| a p IH]; [by destruct s | by rewrite ?append_cons]. Qed.

Lemma string_take_append (j s : string) :
  string_take (String.length j) (j +:+ s) = j.
Proof.
  induction j as [| a j IH]; [by destruct s |].
  rewrite ?append_cons. simpl. by rewrite IH.
Qed.

Lemma substring_middle (p j s : string) :
  substring (p +:+ j +:+ s) (Z.of_nat (String.length p))
    (Z.of_nat (String.length p) + Z.of_nat (String.length j)) = j.
Proof.
  unfold substring. rewrite !append_length.
  replace (Z.to_nat _) with (String.length j) by lia.
  replace (Z.to_nat _) with (String.length p) by lia.
  by rewrite string_drop_append, string_take_append.
Qed.

Lemma cleanJsonText_span (before mid after : string) :
  hasChar "{" before = false →
  hasChar "}" after = false →
  cleanJsonText (before +:+ "{" +:+ mid +:+ "}" +:+ after) = "{" +:+ mid +:+ "}".
Proof.
  intros Hb Ha. unfold cleanJsonText.
  set (text := before +:+ "{" +:+ mid +:+ "}" +:+ after).
  assert (Ht : JsString.truthy text = true).
  { unfold text. destruct before; [done | by rewrite ?append_cons]. }
  assert (Hs : indexOfChar "{" text = Z.of_nat (String.length before)).
  { unfold text. by apply (indexOfChar_first "{" before). }
  assert (He : lastIndexOfChar "}" text
               = Z.of_nat (String.length before) + 1 + Z.of_nat (String.length mid)).
  { unfold text.
    replace (before +:+ "{" +:+ mid +:+ "}" +:+ after)
      with ((before +:+ "{" +:+ mid) +:+ String "}" after)
      by (by rewrite !append_assoc).
    rewrite (lastIndexOfChar_last "}") by done.
    rewrite !append_length. simpl. lia. }
  rewrite Ht, Hs, He. cbn [negb].
  destruct (Z.eqb_spec (Z.of_nat (String.length before)) (-1)); [lia |].
  destruct (Z.eqb_spec (Z.of_nat (String.length before) + 1
                        + Z.of_nat (String.length mid)) (-1)); [lia |].
  destruct (Z.gtb_spec (Z.of_nat (String.length before) + 1
                        + Z.of_nat (String.length mid))
              (Z.of_nat (String.length before))); [| lia].
  cbn [negb andb]. unfold text.
  replace (before +:+ "{" +:+ mid +:+ "}" +:+ after)
    with (before +:+ ("{" +:+ mid +:+ "}") +:+ after)
    by (by rewrite !append_assoc).
  replace (Z.of_nat (String.length before) + 1 + Z.of_nat (String.length mid) + 1)
    with (Z.of_nat (String.length before)
          + Z.of_nat (String.length ("{" +:+ mid +:+ "}"))).
  - apply substring_middle.
  - rewrite !append_length. simpl. lia.
Qed.

(** X1.  When the reply is a JSON object surrounded by text, with no
    opening brace before it and no closing brace after it, as a Markdown
    fence or a preamble is, [cleanJsonText] returns the object and nothing
    else. *)
Theorem cleanJsonText_extracts (before mid after : string) :
  hasChar "{" before = false →
  hasChar "}" after = false →
  cleanJsonText (before +:+ "{" +:+ mid +:+ "}" +:+ after) = "{" +:+ mid +:+ "}".
Proof. apply cleanJsonText_span. Qed.

Lemma cleanJsonText_extracts_witness :
  cleanJsonText fencedReply = "{điểm: {câu 1: 10}}".
Proof.
  apply (cleanJsonText_extracts ("Kết quả: ```json" +:+ newline) "điểm: {câu 1: 10}"
           (newline +:+ "``` hết.")); reflexivity.
Defined.

Lemma split_first (c : ascii) (s : string) :
  hasChar c s = true →
  ∃ p r, s = p +:+ String c r ∧ hasChar c p = false.
Proof.
  induction s as [| a s IH]; simpl; [done |].
  destruct (Ascii.eqb_spec a c) as [-> | Hne]; simpl.
  - intros _. by exists "", s.
  - intros (p & r & -> & Hp)%IH. exists (String a p), r. split; [done |].
    simpl. rewrite Hp. by destruct (Ascii.eqb_spec a c).
Qed.

Lemma split_last (c : ascii) (s : string) :
  hasChar c s = true →
  ∃ x r, s = x +:+ String c r ∧ hasChar c r = false.
Proof.
  induction s as [| a s IH]; simpl; [done |].
  destruct (hasChar c s) eqn:Hs.
  - intros _. destruct (IH eq_refl) as (x & r & -> & Hr).
    by exists (String a x), r.
  - rewrite orb_false_r. intros ->%Ascii.eqb_eq. by exists "", s.
Qed.

Lemma append_eq_split (s1 r1 s2 r2 : string) :
  s1 +:+ r1 = s2 +:+ r2 →
  (String.length s1 ≤ String.length s2)%nat →
  ∃ d, s2 = s1 +:+ d ∧ r1 = d +:+ r2.
Proof.
  revert s2. induction s1 as [| a s1 IH]; intros s2 Heq Hlen.
  - by exists s2.
  - destruct s2 as [| b s2]; [simpl in Hlen; lia |].
    rewrite ?append_cons in Heq. injection Heq as -> Heq.
    destruct (IH s2 Heq) as (d & -> & ->); [simpl in Hlen; lia |].
    by exists d.
Qed.

Lemma hasChar_present (c : ascii) (s : string) :
  indexOfChar c s ≠ -1 → hasChar c s = true.
Proof.
  intros H. destruct (hasChar c s) eqn:Hs; [done |].
  by apply indexOfChar_absent in Hs.
Qed.

Lemma hasChar_present_last (c : ascii) (s : string) :
  lastIndexOfChar c s ≠ -1 → hasChar c s = true.
Proof.
  intros H. destruct (hasChar c s) eqn:Hs; [done |].
  by apply lastIndexOfChar_absent in Hs.
Qed.

(** The test of [cleanJsonText] finds the widest pair of braces. *)
Lemma widest_braces (text : string) :
  indexOfChar "{" text ≠ -1 →
  lastIndexOfChar "}" text > indexOfChar "{" text →
  ∃ before mid after,
    text = before +:+ "{" +:+ mid +:+ "}" +:+ after
    ∧ hasChar "{" before = false ∧ hasChar "}" after = false.
Proof.
  intros Hs He.
  destruct (split_first "{" text (hasChar_present _ _ Hs)) as (p & R & Hp & Hpn).
  assert (Hl : lastIndexOfChar "}" text ≠ -1).
  { destruct (indexOfChar_range "{" text); lia. }
  destruct (split_last "}" text (hasChar_present_last _ _ Hl)) as (X & r & HX & Hrn).
  assert (Hsp : indexOfChar "{" text = Z.of_nat (String.length p)).
  { rewrite Hp. by apply indexOfChar_first. }
  assert (HeX : lastIndexOfChar "}" text = Z.of_nat (String.length X)).
  { rewrite HX. by apply lastIndexOfChar_last. }
  destruct (append_eq_split p (String "{" R) X (String "}" r)) as (d & -> & Hd).
  { by rewrite <- Hp, <- HX. }
  { lia. }
  destruct d as [| a d].
  { rewrite append_nil_r in HeX. lia. }
  rewrite ?append_cons in Hd. injection Hd as <- ->.
  exists p, d, r. split; [| done].
  rewrite HX. by rewrite !append_assoc.
Qed.

Lemma indexOfChar_le (c : ascii) (a r : string) :
  0 ≤ indexOfChar c (a +:+ String c r) ≤ Z.of_nat (String.length a).
Proof.
  induction a as [| b a IH]; simpl.
  - rewrite Ascii.eqb_refl. lia.
  - destruct (Ascii.eqb b c); [lia |].
    destruct (Z.eqb_spec (indexOfChar c (a +:+ String c r)) (-1)); lia.
Qed.

Lemma lastIndexOfChar_ge (c : ascii) (x r : string) :
  Z.of_nat (String.length x) ≤ lastIndexOfChar c (x +:+ String c r).
Proof.
  induction x as [| b x IH]; simpl.
  - destruct (lastIndexOfChar_range c r) as [-> | ?]; simpl.
    + rewrite Ascii.eqb_refl. lia.
    + destruct (Z.eqb_spec (lastIndexOfChar c r) (-1)); lia.
  - destruct (Z.eqb_spec (lastIndexOfChar c (x +:+ String c r)) (-1)); lia.
Qed.

(** X2.  Whenever some opening brace of the text comes before some
    closing brace, [cleanJsonText] returns the part of the text from its
    first opening brace to its last closing brace, and cleaning that
    result again changes nothing.  Otherwise a non-empty text goes
    through the removal of the fences and is trimmed. *)
Theorem cleanJsonText_widest_span (text : string) :
  ((∃ a b c, text = a +:+ "{" +:+ b +:+ "}" +:+ c) →
     ∃ before mid after,
       text = before +:+ "{" +:+ mid +:+ "}" +:+ after
       ∧ hasChar "{" before = false ∧ hasChar "}" after = false
       ∧ cleanJsonText text = "{" +:+ mid +:+ "}"
       ∧ cleanJsonText (cleanJsonText text) = cleanJsonText text)
  ∧ (¬ (∃ a b c, text = a +:+ "{" +:+ b +:+ "}" +:+ c) → text ≠ "" →
       cleanJsonText text
       = JsString.trim (removeAll fence (removeAll fenceJson text))).
Proof.
  split.
  - intros (a & b & c & Ht).
    destruct (widest_braces text) as (before & mid & after & -> & Hb & Ha).
    { rewrite Ht. pose proof (indexOfChar_le "{" a (b +:+ "}" +:+ c)) as Hle.
      change (String "{" (b +:+ "}" +:+ c)) with ("{" +:+ b +:+ "}" +:+ c) in Hle.
      lia. }
    { rewrite Ht. pose proof (indexOfChar_le "{" a (b +:+ "}" +:+ c)) as Hle.
      change (String "{" (b +:+ "}" +:+ c)) with ("{" +:+ b +:+ "}" +:+ c) in Hle.
      pose proof (lastIndexOfChar_ge "}" (a +:+ "{" +:+ b) c) as Hge.
      change (String "}" c) with ("}" +:+ c) in Hge.
      rewrite !append_assoc, !append_length in Hge. simpl in Hge. lia. }
    exists before, mid, after.
    rewrite (cleanJsonText_span before mid after Hb Ha).
    repeat split; try done.
    apply (cleanJsonText_span "" mid ""); done.
  - intros Hno Hne. unfold cleanJsonText.
    destruct text as [| ch text]; [done |]. cbn [JsString.truthy negb].
    set (t := String ch text) in *.
    destruct (Z.eqb_spec (indexOfChar "{" t) (-1)) as [| Hs]; [done |].
    destruct (Z.eqb_spec (lastIndexOfChar "}" t) (-1)) as [| He]; [done |].
    destruct (Z.gtb_spec (lastIndexOfChar "}" t) (indexOfChar "{" t)) as [Hgt |];
      [| done].
    exfalso. apply Hno.
    destruct (widest_braces t Hs ltac:(lia)) as (p & m & r & Ht & _).
    by exists p, m, r.
Qed.

Lemma cleanJsonText_widest_span_witness :
  cleanJsonText (cleanJsonText fencedReply) = cleanJsonText fencedReply
  ∧ cleanJsonText "```json [1, 2] ```" = "[1, 2]".
Proof.
  split.
  - destruct (proj1 (cleanJsonText_widest_span fencedReply)) as (p & m & r & _ & _ & _ & _ & H).
    + exists ("Kết quả: ```json" +:+ newline), "điểm: {câu 1: 10", ("}" +:+ newline +:+ "``` hết.").
      reflexivity.
    + exact H.
  - rewrite (proj2 (cleanJsonText_widest_span "```json [1, 2] ```")).
    + reflexivity.
    + intros (a & b & c & H).
      assert (Hc : hasChar "{" "```json [1, 2] ```" = true).
      { rewrite H, !hasChar_append. simpl. by rewrite orb_true_r. }
      discriminate Hc.
    + discriminate.
Defined.

(** ** The clock of the exam screen *)

Lemma clock_table :
  forallb (λ n, clockReadsBack (Z.of_nat n)) (seq 0 (60 * 100)) = true.
Proof. vm_compute. reflexivity. Qed.

(** X3.  Below 100 minutes [formatTime] shows the time as MM:SS, and the
    seconds can be read back from what is shown: two different times are
    never shown alike.  This covers every time the countdown can hold. *)
Theorem formatTime_reads_back (t : Z) :
  0 ≤ t < 6000 →
  readClock (formatTime t) = Some t
  ∧ String.length (formatTime t) = 5%nat
  ∧ (∀ t', 0 ≤ t' < 6000 → formatTime t' = formatTime t → t' = t).
Proof.
  assert (Hread : ∀ u, 0 ≤ u < 6000 → readClock (formatTime u) = Some u).
  { intros u Hu. pose proof clock_table as Htab.
    rewrite forallb_forall in Htab.
    specialize (Htab (Z.to_nat u)). rewrite Z2Nat.id in Htab by lia.
    assert (Hin : In (Z.to_nat u) (seq 0 (60 * 100))) by (apply in_seq; lia).
    apply Htab in Hin. unfold clockReadsBack in Hin.
    by apply bool_decide_eq_true in Hin. }
  intros Ht. split; [by apply Hread |]. split.
  - pose proof (Hread t Ht) as H. unfold readClock in H.
    destruct (formatTime t) as [| a [| b [| c [| d [| e [| f r]]]]]]; done.
  - intros t' Ht' Heq. apply Hread in Ht'. rewrite Heq, (Hread t Ht) in Ht'.
    by injection Ht'.
Qed.

Lemma formatTime_reads_back_witness :
  readClock (formatTime 2700) = Some 2700 ∧ formatTime 2700 = "45:00".
Proof.
  split; [| reflexivity].
  apply (formatTime_reads_back 2700). lia.
Defined.

Lemma ticks_snoc (es : list Event) (e : Event) :
  ticks (es ++ [e]) = ticks es + match e with Tick => 1 | _ => 0 end.
Proof.
  induction es as [| e' es IH]; simpl.
  - destruct e; lia.
  - rewrite IH. destruct e'; lia.
Qed.

Lemma ticks_nonneg (es : list Event) : 0 ≤ ticks es.
Proof. induction es as [| e es IH]; simpl; [lia |]. destruct e; lia. Qed.

(** X4.  The countdown depends on the number of ticks only: after [k]
    ticks, whatever was answered, visited or submitted in between, the
    time left is 2700 - k, or 0 once that is negative; and the interval is
    cleared by the first tick that finds the time at 0. *)
Theorem timeLeft_after_ticks (props : StudentExamProps) (es : list Event) :
  let s := run props es initialExamState in
  timeLeft s = Z.max (45 * 60 - ticks es) 0
  ∧ (timer s = true ↔ ticks es ≤ 45 * 60).
Proof.
  induction es as [| e es [IHt IHi]] using rev_ind.
  - simpl. split; [lia | done].
  - cbv zeta in *. rewrite run_snoc, ticks_snoc.
    pose proof (ticks_nonneg es) as Hnn.
    set (s := run props es initialExamState) in *.
    destruct e; simpl;
      try (split; [rewrite IHt; f_equal; lia | rewrite IHi; split; lia]).
    + unfold tick. destruct (timer s) eqn:Htm.
      * assert (ticks es ≤ 45 * 60) by (by apply IHi).
        destruct (Z.leb_spec (timeLeft s) 0); simpl.
        -- split; [lia |]. split; [done | lia].
        -- split; [lia |]. rewrite Htm. split; [lia | done].
      * assert (¬ ticks es ≤ 45 * 60) by (intros H; by apply IHi in H).
        split; [lia |]. rewrite Htm. split; [done | lia].
    + unfold goToQuestion. destruct (_ && _); simpl;
        (split; [rewrite IHt; f_equal; lia | rewrite IHi; split; lia]).
    + unfold handleNext. destruct (_ <? _); simpl;
        (split; [rewrite IHt; f_equal; lia | rewrite IHi; split; lia]).
    + unfold handlePrev. destruct (isReviewing s); [| destruct (_ >? _)]; simpl;
        (split; [rewrite IHt; f_equal; lia | rewrite IHi; split; lia]).
Qed.

(** ** The question on screen *)

Ltac zbool :=
  repeat match goal with
  | H : _ && _ = true |- _ => apply andb_true_iff in H; destruct H
  | H : negb _ = true |- _ => apply negb_true_iff in H
  | H : (_ >=? _) = true |- _ => apply Z.geb_le in H
  | H : (_ >? _) = true |- _ => apply Z.gtb_lt in H
  | H : (_ >? _) = false |- _ => rewrite Z.gtb_ltb in H
  | H : (_ <? _) = true |- _ => apply Z.ltb_lt in H
  | H : (_ <? _) = false |- _ => apply Z.ltb_ge in H
  | H : (_ <=? _) = true |- _ => apply Z.leb_le in H
  | H : (_ <=? _) = false |- _ => apply Z.leb_gt in H
  | H : (_ =? _) = true |- _ => apply Z.eqb_eq in H
  | H : (_ =? _) = false |- _ => apply Z.eqb_neq in H
  end.

Ltac handlers :=
  simpl; unfold tick, goToQuestion, handleNext, handlePrev;
  repeat case_match; simpl in *; zbool.

Section Screen.

Variable props : StudentExamProps.

Lemma step_index (e : Event) (s : ExamState) :
  0 ≤ currentQuestionIndex s ≤ Z.max (questions_length (assignment props) - 1) 0 →
  0 ≤ currentQuestionIndex (step props e s)
    ≤ Z.max (questions_length (assignment props) - 1) 0.
Proof. intros H. destruct e; handlers; lia. Qed.

Lemma reachable_index (s : ExamState) :
  reachable props s →
  0 ≤ currentQuestionIndex s ≤ Z.max (questions_length (assignment props) - 1) 0.
Proof.
  revert s.
  apply (reachable_ind props (λ s,
    0 ≤ currentQuestionIndex s ≤ Z.max (questions_length (assignment props) - 1) 0)).
  - simpl. lia.
  - intros e s'. apply step_index.
Qed.

Lemma at_index_elem {A} (l : list A) (i : Z) (x : A) :
  at_index l i = Some x → x ∈ l.
Proof.
  unfold at_index. destruct (i <? 0); [done |]. apply list_elem_of_lookup_2.
Qed.

Lemma at_index_nat {A} (l : list A) (i : nat) :
  at_index l (Z.of_nat i) = l !! i.
Proof.
  unfold at_index. destruct (Z.ltb_spec (Z.of_nat i) 0); [lia |].
  by rewrite Nat2Z.id.
Qed.

Lemma at_index_in_range {A} (l : list A) (i : Z) :
  0 ≤ i < Z.of_nat (length l) → is_Some (at_index l i).
Proof.
  intros H. unfold at_index. destruct (Z.ltb_spec i 0); [lia |].
  apply lookup_lt_is_Some. lia.
Qed.

End Screen.

(** X5.  When the assignment has a question, every reachable state has a
    question on screen: the index stays within the list.  While answering,
    the forward button is labelled as the review button exactly when
    pressing it opens the review, and the back button is disabled exactly
    when pressing it would change nothing. *)
Theorem current_question_defined (props : StudentExamProps) (s : ExamState) :
  a_questions (assignment props) ≠ [] →
  reachable props s →
  (∃ q, currentQ props s = Some q ∧ q ∈ a_questions (assignment props))
  ∧ (isReviewing s = false →
       (isLastQuestion props s = true ↔ isReviewing (handleNext props s) = true)
       ∧ (isLastQuestion props s = false →
            currentQuestionIndex (handleNext props s) = currentQuestionIndex s + 1)
       ∧ (isFirstQuestion s = true ↔ handlePrev s = s)).
Proof.
  intros Hne Hs. pose proof (reachable_index props s Hs) as Hi.
  assert (Hlen : 0 < questions_length (assignment props)).
  { unfold questions_length. destruct (a_questions (assignment props)); [done |].
    simpl. lia. }
  split.
  - destruct (at_index_in_range (a_questions (assignment props))
                (currentQuestionIndex s)) as [q Hq].
    { unfold questions_length in *. lia. }
    exists q. split; [done |]. by apply at_index_elem in Hq.
  - intros Hrev. unfold isLastQuestion, isFirstQuestion, handleNext, handlePrev.
    rewrite Hrev. split; [| split].
    + rewrite Z.eqb_eq.
      destruct (Z.ltb_spec (currentQuestionIndex s)
                  (questions_length (assignment props) - 1)); simpl.
      * rewrite Hrev. split; [lia | done].
      * split; [done | lia].
    + rewrite Z.eqb_neq. intros Hl.
      destruct (Z.ltb_spec (currentQuestionIndex s)
                  (questions_length (assignment props) - 1)); simpl; lia.
    + rewrite Z.eqb_eq. rewrite Z.gtb_ltb.
      destruct (Z.ltb_spec 0 (currentQuestionIndex s)).
      * split; [lia |]. intros Heq.
        apply (f_equal currentQuestionIndex) in Heq. simpl in Heq. lia.
      * split; [done | lia].
Qed.

Lemma current_question_defined_witness :
  ∃ q, currentQ sampleExam (run sampleExam [Next; Next; Next; Prev] initialExamState)
       = Some q ∧ q ∈ a_questions (assignment sampleExam).
Proof.
  apply (current_question_defined sampleExam
           (run sampleExam [Next; Next; Next; Prev] initialExamState)).
  - simpl. discriminate.
  - by eexists.
Defined.

(** ** Runs of offered events *)

Section Offered.

Variable props : StudentExamProps.

Lemma offeredRun_submits (es : list Event) :
  ∀ s, offeredRun props es s = true →
       (isSubmitting s = true → showSubmitModal s = false) →
       (submits es + (if isSubmitting s then 1 else 0) ≤ 1)%nat
       ∧ (isSubmitting (run props es s) = true
          ↔ (submits es + (if isSubmitting s then 1 else 0) = 1)%nat).
Proof.
  induction es as [| e es IH]; intros s Hoff Hinv.
  - simpl. destruct (isSubmitting s); split; try lia; split; (done || lia).
  - simpl in Hoff. apply andb_true_iff in Hoff as [He Hes].
    specialize (IH _ Hes). change (run props (e :: es) s)
      with (run props es (step props e s)).
    destruct e; simpl in He |- *;
      try (apply IH; done).
    + assert (Hsame : isSubmitting (step props Tick s) = isSubmitting s
                      ∧ showSubmitModal (step props Tick s) = showSubmitModal s)
        by (handlers; done).
      destruct Hsame as [H1 H2]. rewrite <- H1. apply IH. by rewrite H1, H2.
    + apply negb_true_iff in He. apply IH. simpl. by rewrite He.
    + destruct (isSubmitting s) eqn:Hsub.
      { specialize (Hinv eq_refl). congruence. }
      destruct IH as [IH1 IH2]; [done |]. simpl in IH1, IH2.
      split; [lia |]. rewrite IH2. lia.
    + assert (Hsame : isSubmitting (step props (GoToQuestion index) s) = isSubmitting s
                      ∧ showSubmitModal (step props (GoToQuestion index) s)
                        = showSubmitModal s)
        by (handlers; done).
      destruct Hsame as [H1 H2]. rewrite <- H1. apply IH. by rewrite H1, H2.
    + assert (Hsame : isSubmitting (step props Next s) = isSubmitting s
                      ∧ showSubmitModal (step props Next s) = showSubmitModal s)
        by (handlers; done).
      destruct Hsame as [H1 H2]. rewrite <- H1. apply IH. by rewrite H1, H2.
    + assert (Hsame : isSubmitting (step props Prev s) = isSubmitting s
                      ∧ showSubmitModal (step props Prev s) = showSubmitModal s)
        by (handlers; done).
      destruct Hsame as [H1 H2]. rewrite <- H1. apply IH. by rewrite H1, H2.
Qed.

Lemma offeredRun_dom (es : list Event) :
  ∀ s, offeredRun props es s = true →
       dom (currentAnswers s) ⊆ list_to_set (question_ids (assignment props)) →
       dom (currentAnswers (run props es s))
         ⊆@{gset string} list_to_set (question_ids (assignment props)).
Proof.
  induction es as [| e es IH]; intros s Hoff Hdom; [done |].
  simpl in Hoff. apply andb_true_iff in Hoff as [He Hes].
  change (run props (e :: es) s) with (run props es (step props e s)).
  apply IH; [done |]. rewrite step_currentAnswers.
  destruct e; try done.
  simpl in He. apply andb_true_iff in He as [_ He].
  destruct (currentQ props s) as [q |] eqn:Hq; [| done].
  apply andb_true_iff in He as [Hid _]. apply bool_decide_eq_true in Hid.
  subst qId. rewrite dom_insert.
  apply at_index_elem in Hq.
  assert (q_id q ∈ question_ids (assignment props))
    by (unfold question_ids; apply list_elem_of_fmap; eauto).
  set_solver.
Qed.

End Offered.

Lemma size_list_to_set_le (l : list string) :
  (size (list_to_set (C := gset string) l) ≤ length l)%nat.
Proof.
  induction l as [| x l IH].
  - change (size (∅ : gset string) ≤ 0)%nat. by rewrite size_empty.
  - change (size ({[x]} ∪ list_to_set (C := gset string) l) ≤ S (length l))%nat.
    rewrite size_union_alt.
    rewrite size_singleton.
    assert (size (list_to_set (C := gset string) l ∖ {[x]})
            ≤ size (list_to_set (C := gset string) l))%nat
      by (apply subseteq_size; set_solver).
    lia.
Qed.

(** X6.  The widgets of the exam screen let the student confirm the
    submission at most once: among events raised by widgets that are
    rendered and enabled, after the first confirmation no second one can
    be raised, whatever else happens in between; and the screen is in its
    submitting state exactly when a confirmation took place. *)
Theorem submission_confirmed_once (props : StudentExamProps) (es : list Event) :
  offeredRun props es initialExamState = true →
  (submits es ≤ 1)%nat
  ∧ (isSubmitting (run props es initialExamState) = true ↔ submits es = 1%nat).
Proof.
  intros Hoff.
  destruct (offeredRun_submits props es initialExamState Hoff) as [H1 H2];
    [done |].
  simpl in H1, H2. split; [lia |]. rewrite H2. lia.
Qed.

Lemma submission_confirmed_once_witness :
  (submits [PreSubmit; CloseModal; PreSubmit; ConfirmSubmit; Tick; Next] ≤ 1)%nat
  ∧ (isSubmitting (run sampleExam
        [PreSubmit; CloseModal; PreSubmit; ConfirmSubmit; Tick; Next]
        initialExamState) = true
     ↔ submits [PreSubmit; CloseModal; PreSubmit; ConfirmSubmit; Tick; Next] = 1%nat).
Proof.
  apply (submission_confirmed_once sampleExam
           [PreSubmit; CloseModal; PreSubmit; ConfirmSubmit; Tick; Next]).
  reflexivity.
Defined.

(** X7.  Through the widgets of the screen only the questions of the
    assignment get an entry in the answer store; so the count of answered
    questions never exceeds the number of questions, and the count of
    unanswered ones shown before submitting is never negative. *)
Theorem answers_within_questions (props : StudentExamProps) (es : list Event) :
  offeredRun props es initialExamState = true →
  let s := run props es initialExamState in
  dom (currentAnswers s) ⊆@{gset string} list_to_set (question_ids (assignment props))
  ∧ answeredCount s ≤ totalCount props
  ∧ 0 ≤ unansweredCount props s.
Proof.
  intros Hoff s.
  assert (Hdom : dom (currentAnswers s)
                 ⊆@{gset string} list_to_set (question_ids (assignment props))).
  { apply offeredRun_dom; [done |].
    change (currentAnswers initialExamState) with (∅ : gmap string string).
    rewrite dom_empty_L. set_solver. }
  assert (Hle : answeredCount s ≤ totalCount props).
  { unfold answeredCount, totalCount, questions_length.
    rewrite <- size_dom. apply subseteq_size in Hdom.
    pose proof (size_list_to_set_le (question_ids (assignment props))) as Hl.
    unfold question_ids in Hl at 2. rewrite length_fmap in Hl. lia. }
  split; [done |]. split; [done |]. unfold unansweredCount. lia.
Qed.

Lemma answers_within_questions_witness :
  0 ≤ unansweredCount sampleExam
        (run sampleExam [AnswerChange "q_1" "x"; Next; AnswerChange "q_2" ""]
           initialExamState).
Proof.
  apply (answers_within_questions sampleExam
           [AnswerChange "q_1" "x"; Next; AnswerChange "q_2" ""]).
  reflexivity.
Defined.

(** ** Answers given through the widgets *)

Lemma letter_fixed (i : nat) (v : string) :
  letters !! i = Some v →
  JsString.truthy v = true
  ∧ JsString.toUpperCase (JsString.trim v) = v
  ∧ indexOf letters v = Z.of_nat i.
Proof.
  intros H. do 4 (destruct i as [| i]; [injection H as <-; by vm_compute |]).
  done.
Qed.

Lemma answerOffered_wellFormed (q : Question) (val : string) :
  answerOffered q val = true → wellFormedAnswer q val.
Proof.
  unfold answerOffered, wellFormedAnswer. destruct (q_type q); try done.
  - destruct (q_options q) as [options |]; [| done].
    intros H. apply existsb_exists in H as (i & Hin & Hi).
    apply bool_decide_eq_true in Hi. apply in_seq in Hin.
    destruct (lookup_lt_is_Some_2 options i) as [text Ht]; [lia |].
    by exists options, i, text.
  - intros H. by apply bool_decide_eq_true in H.
Qed.

Lemma find_by_id (l : list Question) (q : Question) :
  NoDup (q_id <$> l) → q ∈ l →
  List.find (fun item => bool_decide (q_id item = q_id q)) l = Some q.
Proof.
  induction l as [| x l IH]; intros Hnd Hin; [by apply elem_of_nil in Hin |].
  rewrite fmap_cons in Hnd. apply NoDup_cons in Hnd as [Hx Hnd].
  simpl. apply elem_of_cons in Hin as [-> | Hin].
  - by rewrite bool_decide_eq_true_2.
  - rewrite bool_decide_eq_false_2; [by apply IH |].
    intros Heq. apply Hx. rewrite Heq. by apply list_elem_of_fmap_2.
Qed.

Lemma same_id_same_question (l : list Question) (q q' : Question) :
  NoDup (q_id <$> l) → q ∈ l → q' ∈ l → q_id q = q_id q' → q = q'.
Proof.
  intros Hnd Hq Hq' Heq.
  pose proof (find_by_id l q Hnd Hq) as H1.
  pose proof (find_by_id l q' Hnd Hq') as H2.
  rewrite Heq in H1. congruence.
Qed.

Section Given.

Variable props : StudentExamProps.

Hypothesis distinctIds : NoDup (question_ids (assignment props)).

Lemma offeredRun_wellFormed (es : list Event) :
  ∀ s, offeredRun props es s = true →
       (∀ q v, q ∈ a_questions (assignment props) →
               currentAnswers s !! q_id q = Some v → wellFormedAnswer q v) →
       ∀ q v, q ∈ a_questions (assignment props) →
              currentAnswers (run props es s) !! q_id q = Some v →
              wellFormedAnswer q v.
Proof.
  induction es as [| e es IH]; intros s Hoff Hinv; [done |].
  simpl in Hoff. apply andb_true_iff in Hoff as [He Hes].
  change (run props (e :: es) s) with (run props es (step props e s)).
  apply IH; [done |]. rewrite step_currentAnswers.
  destruct e; try done.
  simpl in He. apply andb_true_iff in He as [_ He].
  destruct (currentQ props s) as [q0 |] eqn:Hq0; [| done].
  apply andb_true_iff in He as [Hid Hval]. apply bool_decide_eq_true in Hid.
  subst qId. apply at_index_elem in Hq0.
  intros q v Hq. destruct (decide (q_id q0 = q_id q)) as [Heq | Hne].
  - rewrite Heq, lookup_insert_eq. intros [= <-].
    rewrite <- (same_id_same_question _ q0 q distinctIds Hq0 Hq Heq).
    by apply answerOffered_wellFormed.
  - rewrite lookup_insert_ne by done. by apply Hinv.
Qed.

End Given.

(** X8.  When the questions have distinct ids and every multiple-choice
    question has at most four options, an answer given through the widgets
    always has the form its question asks for: for a multiple-choice
    question the letter of one of its options, for a true-or-false question
    one of the two words.  For such a letter the review screen of the exam
    and the results screen resolve the same option: the review shows the
    letter with the option's text, and [getMCQText] returns that text
    (the letter itself when the text is empty). *)
Theorem given_answers_resolve (props : StudentExamProps) (es : list Event)
    (q : Question) (v : string) :
  NoDup (question_ids (assignment props)) →
  optionsHaveLetters (assignment props) = true →
  offeredRun props es initialExamState = true →
  q ∈ a_questions (assignment props) →
  let s := run props es initialExamState in
  currentAnswers s !! q_id q = Some v →
  wellFormedAnswer q v
  ∧ (q_type q = MCQ →
       ∃ text, getAnswerDisplay props (q_id q) s = KeyWithOption v (Some text)
               ∧ getMCQText q (Some v)
                 = Some (if JsString.truthy text then text else v))
  ∧ (q_type q = TRUE_FALSE →
       getAnswerDisplay props (q_id q) s = RawAnswer v
       ∧ getMCQText q (Some v) = Some v).
Proof.
  intros Hnd _ Hoff Hq s Hv.
  assert (Hwf : wellFormedAnswer q v).
  { apply (offeredRun_wellFormed props Hnd es initialExamState Hoff); [| done | done].
    intros q' v' _ H. change (currentAnswers initialExamState)
      with (∅ : gmap string string) in H. by rewrite lookup_empty in H. }
  split; [done |].
  unfold getAnswerDisplay, getMCQText, findQuestion.
  rewrite (find_by_id _ q Hnd Hq), Hv.
  unfold wellFormedAnswer in Hwf. split; intros Hty; rewrite Hty in *.
  - destruct Hwf as (options & i & text & Hopt & Hi & Ht).
    destruct (letter_fixed i v Hi) as (Htr & Hup & Hidx).
    exists text. rewrite Htr, Hopt, Hup, Hidx. simpl.
    assert (Hneq : (Z.of_nat i =? -1) = false) by (apply Z.eqb_neq; lia).
    rewrite Hneq. simpl. rewrite at_index_nat, Ht.
    split; [done |]. by destruct (JsString.truthy text).
  - assert (Htr : JsString.truthy v = true).
    { unfold falseAndTrue in Hwf.
      apply elem_of_cons in Hwf as [-> | Hwf]; [done |].
      apply elem_of_cons in Hwf as [-> | Hwf]; [done |].
      by apply elem_of_nil in Hwf. }
    by rewrite Htr.
Qed.

Lemma given_answers_resolve_witness :
  ∃ text,
    getAnswerDisplay (examOf fourOptions) "q_1"
      (run (examOf fourOptions) [AnswerChange "q_1" "A"; AnswerChange "q_1" "B"]
         initialExamState)
    = KeyWithOption "B" (Some text)
    ∧ getMCQText fourOptions (Some "B")
      = Some (if JsString.truthy text then text else "B").
Proof.
  apply (given_answers_resolve (examOf fourOptions)
           [AnswerChange "q_1" "A"; AnswerChange "q_1" "B"] fourOptions "B").
  - apply (bool_decide_unpack _). reflexivity.
  - reflexivity.
  - reflexivity.
  - simpl. left.
  - reflexivity.
  - reflexivity.
Defined.

(** ** The texts of a grading result *)

Lemma lastRecorded_snoc (k : string) (items : list AssessmentItem)
    (item : AssessmentItem) :
  lastRecorded k (items ++ [item])
  = if decide (recorded_id item = Some k) then Some item else lastRecorded k items.
Proof.
  unfold lastRecorded. rewrite filter_app, filter_cons, filter_nil.
  destruct (decide _).
  - by rewrite last_snoc.
  - by rewrite app_nil_r.
Qed.

Lemma lookup_setProperty (k v k' : string) (m : gmap string string) :
  setProperty k v m !! k'
  = if decide (k = k' ∧ k ≠ "__proto__") then Some v else m !! k'.
Proof.
  unfold setProperty. destruct (decide (k = "__proto__")) as [Hp | Hp].
  - destruct (decide _) as [[_ H] |]; done.
  - destruct (decide (k = k')) as [-> | Hne].
    + rewrite lookup_insert_eq. by destruct (decide _) as [| []].
    + rewrite lookup_insert_ne by done. by destruct (decide _) as [[? _] |].
Qed.

Lemma lookup_recordFeedback (items : list AssessmentItem) (m : gmap string string)
    (k : string) :
  foldl recordFeedback m items !! k
  = if decide (k = "__proto__") then m !! k
    else match lastRecorded k items with
         | Some item => Some (string_or (item_feedback item) noFeedback)
         | None => m !! k
         end.
Proof.
  induction items as [| item items IH] using rev_ind.
  - simpl. by destruct (decide _).
  - rewrite foldl_app, lastRecorded_snoc. simpl. unfold recordFeedback at 1.
    destruct (recorded_id item) as [qid |] eqn:Hid.
    + rewrite lookup_setProperty.
      destruct (decide (qid = k ∧ qid ≠ "__proto__")) as [[-> Hp] | Hno].
      * destruct (decide (k = "__proto__")); [done |].
        by destruct (decide (Some k = Some k)).
      * rewrite IH. destruct (decide (k = "__proto__")); [done |].
        destruct (decide (Some qid = Some k)) as [[= ->] |]; [| done].
        exfalso. apply Hno. done.
    + rewrite IH. destruct (decide (k = "__proto__")); [done |].
      by destruct (decide (None = Some k)).
Qed.

Lemma string_or_nonempty (s : option string) (d : string) :
  d ≠ "" → string_or s d ≠ "".
Proof.
  intros Hd. unfold string_or. destruct s as [v |]; [| done].
  destruct (JsString.truthy v) eqn:Hv; [| done]. by apply truthy_nonempty.
Qed.

Lemma lookup_backfill (qs : list Question) (m : gmap string string) (k : string) :
  (∀ k' v, m !! k' = Some v → v ≠ "") →
  backfill qs m !! k
  = match m !! k with
    | Some v => Some v
    | None => if bool_decide (k ∈ q_id <$> qs) && negb (inherited k)
              then Some noAssessment else None
    end.
Proof.
  unfold backfill. revert m. induction qs as [| q qs IH]; intros m Hm.
  - cbn [foldl]. destruct (m !! k); [done |].
    rewrite bool_decide_eq_false_2; [done |]. rewrite fmap_nil. apply not_elem_of_nil.
  - cbn [foldl]. rewrite fmap_cons.
    assert (Hmem : k ≠ q_id q →
              bool_decide (k ∈ q_id q :: (q_id <$> qs))
              = bool_decide (k ∈ q_id <$> qs)).
    { intros Hne. apply bool_decide_ext. rewrite elem_of_cons. naive_solver. }
    unfold backfillQuestion, truthyProperty.
    destruct (m !! q_id q) as [v |] eqn:Hq.
    + assert (Hv : JsString.truthy v = true)
        by (apply truthy_nonempty; by eapply Hm).
      rewrite Hv. simpl. rewrite IH by done.
      destruct (m !! k) as [w |] eqn:Hk; [done |].
      rewrite Hmem; [done | congruence].
    + destruct (inherited (q_id q)) eqn:Hi; simpl.
      * rewrite IH by done. destruct (m !! k) as [w |] eqn:Hk; [done |].
        destruct (decide (k = q_id q)) as [-> | Hne].
        -- by rewrite Hi, !andb_false_r.
        -- by rewrite Hmem.
      * assert (Hp : q_id q ≠ "__proto__").
        { intros Heq. rewrite Heq, inherited_proto in Hi. done. }
        rewrite IH.
        -- rewrite lookup_setProperty.
           destruct (decide (q_id q = k ∧ q_id q ≠ "__proto__")) as [[<- _] | Hno].
           ++ rewrite Hq, Hi. rewrite bool_decide_eq_true_2; [done |].
              apply elem_of_cons. by left.
           ++ destruct (m !! k); [done |]. rewrite Hmem; [done |].
              intros ->. by apply Hno.
        -- intros k' v. rewrite lookup_setProperty.
           destruct (decide _); [by intros [= <-] | apply Hm].
Qed.

Lemma recordFeedback_nonempty (items : list AssessmentItem) (k v : string) :
  foldl recordFeedback ∅ items !! k = Some v → v ≠ "".
Proof.
  rewrite lookup_recordFeedback. destruct (decide _); [by rewrite lookup_empty |].
  destruct (lastRecorded k items) as [item |].
  - intros [= <-]. by apply string_or_nonempty.
  - by rewrite lookup_empty.
Qed.

(** A result, when one is returned, is the result for a reply that is a
    list of assessment objects. *)
Lemma gradeSubmission_returned (assignment : Assignment)
    (submission : StudentSubmission) (response : Response) (r : GradingResult) :
  gradeSubmission assignment submission response = Returned r →
  ∃ items comment,
    gradeReply assignment (DataObject (AssessmentsArray (EntryObject <$> items)) comment)
    = Returned r.
Proof.
  unfold gradeSubmission. destruct response as [m | m | data]; try done.
  destruct data as [| [| | entries] comment]; try done.
  - intros H. exists [], comment. simpl in H. exact H.
  - destruct (forallb noNull entries) eqn:Hnn.
    + apply forEach_noNull in Hnn as [items ->]. intros H.
      exists items, comment. rewrite gradeReply_objects in H |- *. exact H.
    + unfold gradeReply, reduceAssessments. by rewrite (forEach_null _ _ Hnn).
Qed.

Lemma feedback_nonempty (assignment : Assignment)
    (submission : StudentSubmission) (response : Response) (r : GradingResult) :
  gradeSubmission assignment submission response = Returned r →
  (∀ k text, feedback r !! k = Some text → text ≠ "")
  ∧ (∀ q, q ∈ a_questions assignment →
          truthyProperty (feedback r) (q_id q) = true
          ∧ (inherited (q_id q) = false →
               ∃ text, feedback r !! q_id q = Some text ∧ text ≠ "")).
Proof.
  intros (items & comment & H)%gradeSubmission_returned.
  rewrite gradeReply_objects in H. injection H as <-. simpl.
  set (recorded := foldl recordFeedback ∅ items).
  assert (Hrec : ∀ k v, recorded !! k = Some v → v ≠ "")
    by (intros k v; apply recordFeedback_nonempty).
  assert (Hall : ∀ k text,
            backfill (a_questions assignment) recorded !! k = Some text → text ≠ "").
  { intros k text. rewrite lookup_backfill by done.
    destruct (recorded !! k) as [v |] eqn:Hv.
    - intros [= <-]. by eapply Hrec.
    - destruct (_ && _); [| done]. by intros [= <-]. }
  split; [done |].
  intros q Hq.
  assert (Hin : bool_decide (q_id q ∈ q_id <$> a_questions assignment) = true).
  { apply bool_decide_eq_true. by apply list_elem_of_fmap_2. }
  unfold truthyProperty. rewrite lookup_backfill by done. rewrite Hin.
  destruct (recorded !! q_id q) as [v |] eqn:Hv.
  - assert (v ≠ "") by (by eapply Hrec).
    split; [by apply truthy_nonempty | eauto].
  - destruct (inherited (q_id q)); simpl; [done |].
    split; [done |]. intros _. by exists noAssessment.
Qed.

(** X9.  In a grading result no text is empty: every feedback entry and
    the overall comment hold at least one character, whatever the reply
    left out, and the total is always 10.  For every question of the
    assignment the feedback reads as present: it is an entry of the
    result, unless the question is named like a member of
    [Object.prototype], in which case what is read may be that member. *)
Theorem grading_texts_never_empty (assignment : Assignment)
    (submission : StudentSubmission) (response : Response) (r : GradingResult) :
  gradeSubmission assignment submission response = Returned r →
  (∀ k text, feedback r !! k = Some text → text ≠ "")
  ∧ (∀ q, q ∈ a_questions assignment →
          truthyProperty (feedback r) (q_id q) = true
          ∧ (inherited (q_id q) = false →
               ∃ text, feedback r !! q_id q = Some text ∧ text ≠ ""))
  ∧ overallComment r ≠ ""
  ∧ totalScore r = 10.
Proof.
  intros H.
  destruct (feedback_nonempty assignment submission response r H) as [H1 H2].
  split; [done |]. split; [done |].
  apply gradeSubmission_returned in H as (items & comment & H).
  rewrite gradeReply_objects in H. injection H as <-. simpl.
  split; [by apply string_or_nonempty | done].
Qed.

Lemma grading_texts_never_empty_witness :
  ∃ r, gradeSubmission fourQuestions sampleSubmission (reply gradedTwice (Some ""))
       = Returned r
       ∧ overallComment r ≠ ""
       ∧ (∀ k text, feedback r !! k = Some text → text ≠ "").
Proof.
  eexists. split; [by rewrite gradeSubmission_objects, gradeReply_objects |].
  split.
  - eapply (grading_texts_never_empty fourQuestions sampleSubmission
              (reply gradedTwice (Some ""))).
    by rewrite gradeSubmission_objects, gradeReply_objects.
  - eapply (grading_texts_never_empty fourQuestions sampleSubmission
              (reply gradedTwice (Some ""))).
    by rewrite gradeSubmission_objects, gradeReply_objects.
Defined.

(** X10.  The feedback of a result, entry by entry.  Under [__proto__]
    there is never an entry: a plain object takes none there.  Under any
    other identifier the reply assessed, the entry is the text of the
    last assessment with that identifier (an earlier one is replaced), or
    "Không có nhận xét." when that text is missing or empty.  Under the
    identifier of a question the reply did not assess, the entry is the
    placeholder, unless the question is named like a member of
    [Object.prototype], which reads as present and gets no entry.
    Nothing elsewhere. *)
Theorem feedback_last_assessment_wins (assignment : Assignment)
    (submission : StudentSubmission) (items : list AssessmentItem)
    (comment : option string) (k : string) :
  ∃ r, gradeSubmission assignment submission (reply items comment) = Returned r
       ∧ feedback r !! k
         = if decide (k = "__proto__") then None
           else match lastRecorded k items with
                | Some item => Some (string_or (item_feedback item) noFeedback)
                | None => if bool_decide (k ∈ question_ids assignment)
                             && negb (inherited k)
                          then Some noAssessment else None
                end.
Proof.
  rewrite gradeSubmission_objects, gradeReply_objects. eexists. split; [done |].
  simpl. rewrite lookup_backfill by apply recordFeedback_nonempty.
  rewrite lookup_recordFeedback, lookup_empty.
  destruct (decide (k = "__proto__")) as [-> | Hne].
  - by rewrite inherited_proto, andb_false_r.
  - by destruct (lastRecorded k items).
Qed.

(** The two behaviours of a plain object in [gradeSubmission]: a question
    named [constructor] that the reply skipped gets no placeholder, and an
    assessment for [__proto__] adds its score but no entry. *)
Example inherited_names_in_feedback :
  (∃ r, gradeSubmission namedLikeMember sampleSubmission (reply [] None) = Returned r
        ∧ feedback r !! "constructor" = None
        ∧ truthyProperty (feedback r) "constructor" = true)
  ∧ (∃ r, gradeSubmission oneQuestion sampleSubmission (reply assessedProto None)
          = Returned r
          ∧ feedback r !! "__proto__" = None
          ∧ feedback r !! "q_1" = Some noAssessment
          ∧ score r = JsNumber.of_Z 10).
Proof.
  split.
  - eexists. split; [by rewrite gradeSubmission_objects, gradeReply_objects |].
    split; by vm_compute.
  - eexists. split; [by rewrite gradeSubmission_objects, gradeReply_objects |].
    repeat split; by vm_compute.
Qed.

(** ** The screens of the results component *)

Lemma gradeSubmission_thrown (assignment : Assignment) (submission : StudentSubmission)
    (response : Response) (m : string) :
  gradeSubmission assignment submission response = Thrown m →
  JsString.truthy m = true ∧ usable response = false.
Proof.
  intros H. split.
  - unfold gradeSubmission in H.
    destruct (match response with
              | CallFailed m0 | InvalidJson m0 => Thrown m0
              | Json data => gradeReply assignment data
              end); [done |].
    by injection H as <-.
  - destruct (usable response) eqn:Hu; [| done].
    destruct (gradeSubmission_usable assignment submission response Hu) as [r Hr].
    congruence.
Qed.

Lemma last_cons_default {A} (l : list A) (a d : A) :
  List.last (a :: l) d = List.last l a.
Proof.
  revert a d. induction l as [| b l IH]; intros a d; [done |].
  change (List.last (a :: b :: l) d) with (List.last (b :: l) d).
  by rewrite (IH b d), (IH b a).
Qed.

Section Retries.

Variable assignment : Assignment.
Variable submission : StudentSubmission.
Variable teacherEmail : string.

Lemma fetches_retried (rest : list Response) :
  ∀ first s0,
    result s0 = None → emailStatus s0 = idle →
    retriesOffered assignment submission teacherEmail rest
      (fetchGrade assignment submission teacherEmail first s0) = true →
    let s := fetches assignment submission teacherEmail (first :: rest) s0 in
    match gradeSubmission assignment submission (List.last rest first) with
    | Returned r =>
        screen s = ResultsScreen r
        ∧ emailStatus s = (if JsString.truthy teacherEmail then sending else idle)
    | Thrown m => screen s = ErrorScreen m ∧ emailStatus s = idle
    end
    ∧ (∀ response, response ∈ removelast (first :: rest) → usable response = false).
Proof.
  induction rest as [| second rest IH]; intros first s0 Hres Hmail Hoff.
  - cbn -[gradeSubmission]. unfold fetchGrade.
    split; [| intros response H; by apply elem_of_nil in H].
    destruct (gradeSubmission assignment submission first) as [r | m] eqn:Hg.
    + unfold screen. simpl. by rewrite Hmail.
    + apply gradeSubmission_thrown in Hg as [Hm _].
      unfold screen. simpl. by rewrite Hres, Hm.
  - simpl in Hoff. apply andb_true_iff in Hoff as [Hretry Hoff].
    set (s1 := fetchGrade assignment submission teacherEmail first s0) in *.
    assert (Hfirst : result s1 = None ∧ emailStatus s1 = idle
                     ∧ usable first = false).
    { unfold retryOffered, screen, s1, fetchGrade in *.
      destruct (gradeSubmission assignment submission first) as [r | m] eqn:Hg;
        simpl in *; [done |].
      by apply gradeSubmission_thrown in Hg as [_ Hu]. }
    destruct Hfirst as (Hres1 & Hmail1 & Hu).
    destruct (IH second s1 Hres1 Hmail1 Hoff) as [Hlast Hearlier].
    split.
    + rewrite last_cons_default. exact Hlast.
    + intros response.
      change (removelast (first :: second :: rest))
        with (first :: removelast (second :: rest)).
      rewrite elem_of_cons. intros [-> | H]; [done | by apply Hearlier].
Qed.

End Retries.

(** X11.  The results component after its calls of [fetchGrade]: the
    first when it mounts, each later one by the button of the error
    screen.  What is on screen is decided by the last call alone: its
    result, or the message of its failure (never the stand-in text for a
    missing reply).  All calls before the last one failed, since the
    results screen offers no retry.  The notice to the teacher is started
    only by a call that succeeded, and only when an email is present. *)
Theorem screen_after_fetches (assignment : Assignment) (submission : StudentSubmission)
    (teacherEmail : string) (first : Response) (rest : list Response) :
  retriesOffered assignment submission teacherEmail rest
    (fetchGrade assignment submission teacherEmail first initialResultState) = true →
  let s := fetches assignment submission teacherEmail (first :: rest)
             initialResultState in
  match gradeSubmission assignment submission (List.last rest first) with
  | Returned r =>
      screen s = ResultsScreen r
      ∧ emailStatus s = (if JsString.truthy teacherEmail then sending else idle)
  | Thrown m => screen s = ErrorScreen m ∧ emailStatus s = idle
  end
  ∧ (∀ response, response ∈ removelast (first :: rest) → usable response = false).
Proof. intros Hoff. by apply fetches_retried. Qed.

Lemma screen_after_fetches_witness :
  ∃ r, screen (fetches oneQuestion sampleSubmission "gv@truong.vn"
                 [CallFailed "503"; Json DataNull; reply withUnknownId None]
                 initialResultState)
       = ResultsScreen r.
Proof.
  pose proof (screen_after_fetches oneQuestion sampleSubmission "gv@truong.vn"
                (CallFailed "503") [Json DataNull; reply withUnknownId None]
                eq_refl) as [H _].
  cbv zeta in H. cbn [List.last] in H.
  rewrite gradeSubmission_objects, gradeReply_objects in H.
  eexists. exact (proj1 H).
Defined.

(** ** The rows of the Excel report *)

Lemma getMCQText_nonempty (q : Question) (key : option string) (t : string) :
  getMCQText q key = Some t → t ≠ "".
Proof.
  unfold getMCQText. destruct key as [key |]; [| done].
  destruct (JsString.truthy key) eqn:Hk; [| done]. simpl.
  apply truthy_nonempty in Hk.
  destruct (q_type q); try by intros [= <-].
  destruct (q_options q) as [options |]; [| by intros [= <-]].
  destruct (negb _); [| by intros [= <-]].
  destruct (at_index options _) as [text |]; [| by intros [= <-]].
  destruct (JsString.truthy text) eqn:Ht; [| by intros [= <-]].
  intros [= <-]. by apply truthy_nonempty.
Qed.

(** X12.  The table of the Excel report for a result of
    [gradeSubmission], when no question is named like a member of
    [Object.prototype], as for the identifiers [generateUniqueId] makes:
    one row per question, in order and numbered from 1; the cell of the
    student's answer is never empty, and reads "[Không trả lời]" when
    the submission has no answer, or an empty one, for the question; the
    feedback cell holds the feedback entry of the question, which is
    never empty. *)
Theorem report_rows (assignment : Assignment) (submission : StudentSubmission)
    (response : Response) (r : GradingResult) (answers : gmap string string) :
  plainIds assignment = true →
  gradeSubmission assignment submission response = Returned r →
  let rows := dataRows assignment answers r in
  length rows = length (a_questions assignment)
  ∧ ∀ i q, a_questions assignment !! i = Some q →
      ∃ row, rows !! i = Some row
             ∧ stt row = Z.of_nat i + 1
             ∧ cell_content row = q_content q
             ∧ cell_studentAns row ≠ ""
             ∧ (truthy_at answers (q_id q) = false →
                  cell_studentAns row = notAnswered)
             ∧ feedback r !! q_id q = Some (cell_feedback row)
             ∧ cell_feedback row ≠ "".
Proof.
  intros Hplain Hr rows.
  destruct (feedback_nonempty assignment submission response r Hr) as [_ Hq].
  split; [unfold rows, dataRows; by rewrite length_imap |].
  intros i q Hi. exists (dataRow answers r i q). split.
  { unfold rows, dataRows. by rewrite list_lookup_imap, Hi. }
  split; [done |]. split; [done |]. simpl. split; [| split].
  - destruct (getMCQText q (answers !! q_id q)) as [t |] eqn:Ht; simpl; [| done].
    apply getMCQText_nonempty in Ht. apply truthy_nonempty in Ht as Ht'.
    by rewrite Ht'.
  - unfold truthy_at, getMCQText. destruct (answers !! q_id q) as [v |]; [| done].
    by intros ->.
  - assert (Hin : q ∈ a_questions assignment) by (by eapply list_elem_of_lookup_2).
    assert (Hown : inherited (q_id q) = false).
    { unfold plainIds in Hplain. rewrite forallb_forall in Hplain.
      apply list_elem_of_In, Hplain in Hin. by apply negb_true_iff in Hin. }
    destruct (Hq q Hin) as (_ & text & Ht & Hne); [done |].
    rewrite Ht. simpl. apply truthy_nonempty in Hne as Hne'. by rewrite Hne'.
Qed.

Lemma report_rows_witness :
  ∃ r, gradeSubmission fourQuestions sampleSubmission (reply halfRight None)
       = Returned r
       ∧ length (dataRows fourQuestions {[ "q_1" := "B" ]} r) = 4%nat.
Proof.
  eexists. split; [by rewrite gradeSubmission_objects, gradeReply_objects |].
  eapply (report_rows fourQuestions sampleSubmission (reply halfRight None)).
  - reflexivity.
  - by rewrite gradeSubmission_objects, gradeReply_objects.
Defined.

(** ** The views of the application *)

Lemma appInv_wellShown (s : AppState) : appInv s → wellShown s.
Proof.
  unfold appInv, wellShown, shown. intros (Hmail & Hview & Hqs & Hv).
  destruct (isSetup s) eqn:Hs; simpl; [| done].
  destruct (currentView s).
  - by destruct (isAdmin s).
  - destruct Hv as [a Ha]. rewrite Ha. by apply Hqs.
  - destruct Hv as [[a Ha] Hadm]. rewrite Ha. split; [by apply Hqs | done].
  - destruct Hv as ([a Ha] & Hadm & i & Hi & Hn & Hc). rewrite Ha, Hi. simpl.
    split; [by apply Hqs | done].
  - destruct Hv as (a & sub & Ha & Hsub & Hid & Hn & Hc). rewrite Ha, Hsub.
    split; [by apply Hqs |]. repeat split; try done. by apply Hmail.
Qed.

Lemma loginSubmit_notBlank (name className n c : string) :
  loginSubmit name className = Some (n, c) → notBlank n ∧ notBlank c.
Proof.
  unfold loginSubmit, notBlank.
  destruct (JsString.truthy (JsString.trim name)) eqn:Hn; [| done].
  destruct (JsString.truthy (JsString.trim className)) eqn:Hc; [| done].
  intros [= <- <-]. split; by apply truthy_nonempty.
Qed.

Lemma appStep_inv (e : AppEvent) (s : AppState) :
  appOffered s e = true → appInv s → appInv (appStep e s).
Proof.
  unfold appOffered. intros Hoff Hinv.
  pose proof Hinv as (Hmail & Hview & Hqs & Hv).
  destruct e; simpl.
  - (* the email is typed into the setup form *)
    unfold shown in Hoff. destruct (isSetup s) eqn:Hs; simpl in Hoff.
    { by repeat case_match. }
    unfold appInv. simpl. rewrite Hs. repeat split; try done.
  - unfold shown in Hoff. destruct (isSetup s) eqn:Hs; simpl in Hoff.
    { by repeat case_match. }
    unfold handleSetupSubmit.
    destruct (JsString.truthy (JsString.trim (email s))) eqn:Hm; [| done].
    unfold appInv. simpl. rewrite (Hview eq_refl) in *.
    repeat split; try done. intros _. by apply truthy_nonempty.
  - assert (Hs : isSetup s = true).
    { unfold shown in Hoff. by destruct (isSetup s). }
    unfold appInv. simpl. rewrite Hs. repeat split; try done. auto.
  - assert (Hs : isSetup s = true ∧ isImmersiveMode s = false).
    { unfold shown in Hoff. destruct (isSetup s); [| done]. split; [done |].
      simpl in Hoff. repeat case_match; try done; by apply negb_true_iff in Hoff. }
    destruct Hs as [Hs Him]. unfold appInv. simpl. rewrite Hs.
    unfold isImmersiveMode in Him.
    repeat split; try done; auto. by destruct (currentView s).
  - assert (Hs : isSetup s = true ∧ previewShown d = true).
    { unfold shown in Hoff. destruct (isSetup s); [| done]. split; [done |].
      simpl in Hoff. by repeat case_match. }
    destruct Hs as [Hs Hp]. unfold appInv. simpl. rewrite Hs.
    repeat split; try done; auto.
    intros a [= <-]. simpl. unfold previewShown in Hp.
    destruct (generatedQuestions d); [done | done].
  - assert (Hs : isSetup s = true ∧ currentView s = SHARE_LINK).
    { unfold shown in Hoff. destruct (isSetup s); [| done]. split; [done |].
      simpl in Hoff. destruct (currentView s); by repeat case_match. }
    destruct Hs as [Hs Hcv]. rewrite Hcv in Hv. unfold appInv. simpl. rewrite Hs.
    repeat split; try done; auto.
  - assert (Hs : isSetup s = true ∧ currentView s = STUDENT_LOGIN).
    { unfold shown in Hoff. destruct (isSetup s); [| done]. split; [done |].
      simpl in Hoff. destruct (currentView s); by repeat case_match. }
    destruct Hs as [Hs Hcv]. rewrite Hcv in Hv. destruct Hv as [Ha Hadm].
    destruct (loginSubmit name className) as [[n c] |] eqn:Hl; [| done].
    apply loginSubmit_notBlank in Hl as [Hn Hc].
    unfold appInv. simpl. rewrite Hs. repeat split; try done; auto.
    by eexists {| info_name := n; info_className := c |}.
  - destruct (shown s) as [| | | | | props | |] eqn:Hsh; try done.
    unfold shown in Hsh. destruct (isSetup s) eqn:Hs; [| done]. simpl in Hsh.
    destruct (currentView s) eqn:Hcv; try by repeat case_match.
    destruct Hv as ([a Ha] & Hadm & i & Hi & Hn & Hc).
    rewrite Ha, Hi in Hsh. injection Hsh as <-.
    unfold appInv. simpl. rewrite Hs. repeat split; try done; auto.
    exists a. eexists. repeat split; done.
Qed.

Lemma appRun_inv (es : list AppEvent) :
  ∀ s, appOfferedRun es s = true → appInv s → appInv (appRun es s).
Proof.
  induction es as [| e es IH]; intros s Hoff Hinv; [done |].
  simpl in Hoff. apply andb_true_iff in Hoff as [He Hes].
  change (appRun (e :: es) s) with (appRun es (appStep e s)).
  apply IH; [done |]. by apply appStep_inv.
Qed.

(** X13.  Whatever the users do with what the application shows, it
    never shows an empty page: the guard of the current view always
    holds.  Moreover an assignment handed out has at least one question;
    the exam runs under a name and a class that are not blank and outside
    the teacher's mode; and the results are those of a submission for the
    assignment at hand, by a student whose name and class are not blank,
    with a teacher's email that is not blank. *)
Theorem app_never_blank (es : list AppEvent) :
  appOfferedRun es initialAppState = true →
  wellShown (appRun es initialAppState).
Proof.
  intros Hoff. apply appInv_wellShown, appRun_inv; [done |].
  unfold appInv. simpl. repeat split; done.
Qed.

Lemma app_never_blank_witness :
  wellShown (appRun sampleSession initialAppState).
Proof. apply (app_never_blank sampleSession). reflexivity. Defined.

(** ** The lesson selected on the dashboard *)

Lemma setSelectedLesson_same (d : DashboardState) :
  setSelectedLesson (selectedLesson d) d = d.
Proof. by destruct d. Qed.

Lemma lessonEffect_lesson (d : DashboardState) :
  ∃ l, lessonEffect d = setSelectedLesson l d
       ∧ (selectedChapter d = "" → l = selectedLesson d)
       ∧ (selectedChapter d ≠ "" → l ≠ "" → l ∈ availableLessons d)
       ∧ (selectedLesson d ≠ "" → selectedLesson d ∈ availableLessons d →
            l = selectedLesson d)
       ∧ (selectedChapter d ≠ "" → selectedLesson d ∉ availableLessons d →
            l = default "" (head (availableLessons d)))
       ∧ (selectedChapter d ≠ "" → selectedLesson d = "" →
            l = default "" (head (availableLessons d))).
Proof.
  unfold lessonEffect, availableLessons, includes.
  destruct (JsString.truthy (selectedChapter d)) eqn:Hch.
  - apply truthy_nonempty in Hch.
    destruct (findChapter d) as [chap |].
    + destruct (c_lessons chap) as [| first rest] eqn:Hl.
      * exists "". repeat split; try done.
        intros _ H. by apply elem_of_nil in H.
      * destruct (JsString.truthy (selectedLesson d)) eqn:Hles; simpl.
        -- apply truthy_nonempty in Hles.
           destruct (bool_decide (selectedLesson d ∈ first :: rest)) eqn:Hin; simpl.
           ++ apply bool_decide_eq_true in Hin.
              exists (selectedLesson d). rewrite setSelectedLesson_same.
              repeat split; done.
           ++ apply bool_decide_eq_false in Hin.
              exists first. repeat split; try done.
              intros _ _. apply elem_of_cons. by left.
        -- apply truthy_empty in Hles.
           exists first. repeat split; try done.
           intros _ _. apply elem_of_cons. by left.
    + exists "". repeat split; try done.
      intros _ H. by apply elem_of_nil in H.
  - apply truthy_empty in Hch.
    exists (selectedLesson d). rewrite setSelectedLesson_same.
    repeat split; done.
Qed.

Lemma availableLessons_setSelectedLesson (l : string) (d : DashboardState) :
  availableLessons (setSelectedLesson l d) = availableLessons d.
Proof. done. Qed.

(** X14.  The effect that follows the chapter selected on the dashboard
    leaves, when a chapter is selected, either no lesson selected or one
    of the lessons listed for that chapter; it keeps a listed lesson the
    teacher chose, touches nothing but the selected lesson, and running
    it once more changes nothing. *)
Theorem lesson_effect_settles (d : DashboardState) :
  let d' := lessonEffect d in
  d' = setSelectedLesson (selectedLesson d') d
  ∧ (selectedChapter d ≠ "" →
       selectedLesson d' = "" ∨ selectedLesson d' ∈ availableLessons d)
  ∧ (selectedLesson d ≠ "" → selectedLesson d ∈ availableLessons d → d' = d)
  ∧ lessonEffect d' = d'.
Proof.
  intros d'. unfold d'.
  destruct (lessonEffect_lesson d) as (l & Hl & Hno & Hin & Hkeep & Hout & Hempty).
  rewrite Hl. simpl. split; [done |]. split; [| split].
  - intros Hch. destruct (decide (l = "")) as [-> | Hne]; [by left |].
    right. by apply Hin.
  - intros Hne Hles. rewrite (Hkeep Hne Hles). apply setSelectedLesson_same.
  - destruct (lessonEffect_lesson (setSelectedLesson l d))
      as (l' & Hl' & Hno' & Hin' & Hkeep' & Hout' & Hempty').
    rewrite Hl'. simpl in *.
    rewrite availableLessons_setSelectedLesson in *.
    assert (l' = l) as ->; [| by destruct d].
    destruct (decide (selectedChapter d = "")) as [Hch | Hch]; [by apply Hno' |].
    destruct (decide (l = "")) as [-> | Hne].
    + rewrite (Hempty' Hch eq_refl).
      destruct (decide (selectedLesson d = "")) as [He | He].
      * by rewrite <- (Hempty Hch He).
      * destruct (decide (selectedLesson d ∈ availableLessons d)) as [Hi | Hi].
        -- rewrite (Hkeep He Hi) in He. done.
        -- by rewrite <- (Hout Hch Hi).
    + apply Hkeep'; [done |]. by apply Hin.
Qed.

Lemma lesson_effect_settles_witness :
  lessonEffect sampleDashboard = sampleDashboard
  ∧ selectedLesson (lessonEffect (setSelectedLesson "Bài 9" sampleDashboard)) = "Bài 1".
Proof.
  split; [| reflexivity].
  pose proof (lesson_effect_settles sampleDashboard) as (_ & _ & H & _).
  apply H.
  - simpl. discriminate.
  - apply (bool_decide_unpack _). reflexivity.
Defined.

(** ** The identifiers of generated questions *)

Lemma append_inv_head (a x y : string) : a +:+ x = a +:+ y → x = y.
Proof.
  induction a as [| c a IH]; simpl; [done |]. intros [= H]. by apply IH.
Qed.

Lemma first_split_unique (c : ascii) (p r p' r' : string) :
  hasChar c p = false → hasChar c p' = false →
  p +:+ String c r = p' +:+ String c r' → p = p' ∧ r = r'.
Proof.
  revert p'. induction p as [| a p IH]; intros [| a' p']; simpl.
  - intros _ _ [= ->]. done.
  - intros _ H [= <- _]. by rewrite Ascii.eqb_refl in H.
  - intros H _ [= -> _]. by rewrite Ascii.eqb_refl in H.
  - intros H H' [= -> Heq].
    destruct (Ascii.eqb a' c); [done |].
    destruct (IH p' H H' Heq) as [-> ->]. done.
Qed.

Lemma pretty_N_go_hasChar (x : N) (s : string) :
  hasChar "_" (pretty_N_go x s) = hasChar "_" s.
Proof.
  revert s. induction (N.lt_wf_0 x) as [x _ IH]; intros s.
  assert (x = 0 ∨ 0 < x)%N as [-> | Hx] by lia.
  - by rewrite pretty_N_go_0.
  - rewrite pretty_N_go_step by done. rewrite IH by (by apply N.div_lt).
    simpl. unfold pretty_N_char. by repeat case_match.
Qed.

Lemma toString_hasChar (n : Z) : hasChar "_" (toString n) = false.
Proof.
  assert (Hn : ∀ x : N, hasChar "_" (pretty x) = false).
  { intros x. unfold pretty, pretty_N. destruct (decide (x = 0%N)); [done |].
    by rewrite pretty_N_go_hasChar. }
  unfold toString, pretty, pretty_Z. destruct n as [| p | p]; [done | apply Hn |].
  rewrite hasChar_append. unfold pretty, pretty_positive. by rewrite Hn.
Qed.

Lemma generateUniqueId_inj (prefix : string) (d d' : Draw) :
  generateUniqueId prefix d = generateUniqueId prefix d' → d = d'.
Proof.
  unfold generateUniqueId. intros H.
  apply append_inv_head in H. apply (append_inv_head "_") in H.
  change ("_" +:+ drawn_random d) with (String "_" (drawn_random d)) in H.
  change ("_" +:+ drawn_random d') with (String "_" (drawn_random d')) in H.
  apply first_split_unique in H as [Hn Hr]; try apply toString_hasChar.
  apply (inj pretty) in Hn. destruct d, d'. simpl in *. congruence.
Qed.

(** X15.  Two identifiers made by [generateUniqueId] are equal only when
    both the clock and the random text of their calls are: the two parts
    cannot run into each other.  So the questions of a reply, whose
    identifiers are all replaced, get pairwise distinct identifiers as
    soon as no two of the calls draw the same pair, also within one
    millisecond; their number, order and other fields stay as they are. *)
Theorem generated_ids_distinct {Raw : Type} (questions : list Raw)
    (draws : nat → Draw) :
  (∀ i j, (i < length questions)%nat → (j < length questions)%nat →
          draws i = draws j → i = j) →
  NoDup (fst <$> withIds Raw questions draws)
  ∧ snd <$> withIds Raw questions draws = questions
  ∧ (∀ d d', generateUniqueId "q" d = generateUniqueId "q" d' → d = d').
Proof.
  intros Hdraws. split; [| split].
  - apply NoDup_alt. intros i j x Hi Hj.
    unfold withIds in Hi, Hj.
    rewrite list_lookup_fmap, list_lookup_imap in Hi, Hj.
    destruct (questions !! i) as [qi |] eqn:Hqi; [| done].
    destruct (questions !! j) as [qj |] eqn:Hqj; [| done].
    simpl in Hi, Hj. injection Hi as Hi. injection Hj as Hj.
    apply Hdraws.
    + by eapply lookup_lt_Some.
    + by eapply lookup_lt_Some.
    + apply (generateUniqueId_inj "q"). congruence.
  - unfold withIds. apply list_eq. intros i.
    rewrite list_lookup_fmap, list_lookup_imap.
    by destruct (questions !! i).
  - apply generateUniqueId_inj.
Qed.

Lemma generated_ids_distinct_witness :
  NoDup (fst <$> withIds Question (a_questions fourQuestions) sameClock).
Proof.
  apply (generated_ids_distinct (a_questions fourQuestions) sameClock).
  intros i j Hi Hj H. simpl in Hi, Hj.
  do 4 (destruct i as [| i]; [do 4 (destruct j as [| j]; [done |]); lia |]).
  lia.
Defined.

(** ** The exam without its clock *)

Lemma tick_besidesClock (s : ExamState) : besidesClock (tick s) = besidesClock s.
Proof. unfold tick. by repeat case_match. Qed.

Lemma step_besidesClock (props : StudentExamProps) (e : Event) (s s' : ExamState) :
  besidesClock s = besidesClock s' →
  besidesClock (step props e s) = besidesClock (step props e s').
Proof.
  destruct e;
    [ intros H; simpl; by rewrite !tick_besidesClock | .. ];
    destruct s, s'; unfold besidesClock; simpl; intros [= -> -> -> -> -> -> ->];
    try done.
  - unfold goToQuestion. simpl. by destruct (_ && _).
  - unfold handleNext. simpl. by destruct (_ <? _).
  - unfold handlePrev. simpl. by repeat case_match.
Qed.

Lemma run_besidesClock (props : StudentExamProps) (es : list Event) :
  ∀ s s', besidesClock s = besidesClock s' →
          besidesClock (run props es s) = besidesClock (run props (withoutTicks es) s').
Proof.
  induction es as [| e es IH]; intros s s' H; [done |].
  change (run props (e :: es) s) with (run props es (step props e s)).
  destruct e;
    try (change (run props (withoutTicks (?e :: es)) s')
           with (run props (withoutTicks es) (step props e s'));
         apply IH; by apply step_besidesClock).
  simpl. apply IH. by rewrite tick_besidesClock.
Qed.

Lemma offered_besidesClock (props : StudentExamProps) (s s' : ExamState) (e : Event) :
  besidesClock s = besidesClock s' → offered props s e = offered props s' e.
Proof.
  destruct s, s'. unfold besidesClock. simpl. by intros [= -> -> -> -> -> -> ->].
Qed.

(** X16.  The clock changes nothing but itself: with or without the
    ticks among the events, the answers, the submission flag, the
    question on screen, the review, the dialog and the side bar end up
    the same, and so does what the screen offers.  In particular the
    countdown reaching 0 neither submits the exam nor stops the student
    from answering. *)
Theorem clock_changes_nothing_else (props : StudentExamProps) (es : list Event) :
  let s := run props es initialExamState in
  let s' := run props (withoutTicks es) initialExamState in
  besidesClock s = besidesClock s'
  ∧ currentAnswers s = currentAnswers s'
  ∧ (∀ e, offered props s e = offered props s' e)
  ∧ (isSubmitting s = true ↔ (0 < submits es)%nat).
Proof.
  intros s s'.
  assert (H : besidesClock s = besidesClock s') by (by apply run_besidesClock).
  split; [done |]. split; [| split].
  - unfold besidesClock in H. unfold currentAnswers. congruence.
  - intros e. by apply offered_besidesClock.
  - unfold s. clear. induction es as [| e es IH] using rev_ind; [simpl; lia |].
    rewrite run_snoc.
    assert (Hsub : ∀ l e, submits (l ++ [e])
              = (submits l + match e with ConfirmSubmit => 1 | _ => 0 end)%nat).
    { clear. intros l e. induction l as [| a l IHl]; simpl.
      - by destruct e.
      - rewrite IHl. by destruct a. }
    rewrite Hsub.
    destruct e; handlers; rewrite ?IH; try lia; split; (done || lia).
Qed.
(** ** The components under the application *)

Lemma trim_empty : JsString.trim "" = "".
Proof. reflexivity. Qed.

Lemma notBlank_truthy (v : string) : notBlank v → JsString.truthy v = true.
Proof.
  unfold notBlank. intros H. apply truthy_nonempty. intros ->. by apply H.
Qed.

(** X17.  Under the application the exam always has a question on
    screen: the assignment it is given holds at least one question,
    because the dashboard hands out generated questions only, and the
    index of the exam stays within them.  So [currentQ] is never
    undefined where the screen reads its fields. *)
Theorem exam_always_has_question (es : list AppEvent) (props : StudentExamProps)
    (x : ExamState) :
  appOfferedRun es initialAppState = true →
  shown (appRun es initialAppState) = StudentExamOf props →
  reachable props x →
  ∃ q, currentQ props x = Some q ∧ q ∈ a_questions (assignment props).
Proof.
  intros Hoff Hshown Hx.
  assert (Hinv : appInv initialAppState).
  { unfold appInv. simpl. repeat split; done. }
  pose proof (appInv_wellShown _ (appRun_inv es _ Hoff Hinv)) as Hw.
  unfold wellShown in Hw. rewrite Hshown in Hw. destruct Hw as [Hne _].
  pose proof (reachable_index props x Hx) as Hi.
  destruct (at_index_in_range (a_questions (assignment props))
              (currentQuestionIndex x)) as [q Hq].
  { unfold questions_length in Hi.
    destruct (a_questions (assignment props)); [done |]. simpl in *. lia. }
  exists q. split; [done |]. by apply at_index_elem in Hq.
Qed.

Lemma exam_always_has_question_witness :
  ∃ q, currentQ handedOutExam (run handedOutExam [Next; Prev] initialExamState)
       = Some q
       ∧ q ∈ a_questions (assignment handedOutExam).
Proof.
  apply (exam_always_has_question sampleLogin handedOutExam
           (run handedOutExam [Next; Prev] initialExamState)).
  - reflexivity.
  - reflexivity.
  - by eexists.
Defined.

(** X18.  Under the application the results component always has an
    email of the teacher: the setup form lets no blank email pass, and the
    email cannot change afterwards.  So every grading that succeeds
    starts the notice to the teacher. *)
Theorem results_always_notify (es : list AppEvent) (a : Assignment)
    (sub : StudentSubmission) (admin : bool) (teacherEmail : string)
    (first : Response) (rest : list Response) (r : GradingResult) :
  appOfferedRun es initialAppState = true →
  shown (appRun es initialAppState) = ResultAnalysisOf a sub admin teacherEmail →
  retriesOffered a sub teacherEmail rest
    (fetchGrade a sub teacherEmail first initialResultState) = true →
  gradeSubmission a sub (List.last rest first) = Returned r →
  let s := fetches a sub teacherEmail (first :: rest) initialResultState in
  teacherEmail = email (appRun es initialAppState)
  ∧ JsString.truthy teacherEmail = true
  ∧ screen s = ResultsScreen r
  ∧ emailStatus s = sending.
Proof.
  intros Hoff Hshown Hretries Hlast s.
  assert (Hinv : appInv initialAppState).
  { unfold appInv. simpl. repeat split; done. }
  pose proof (appInv_wellShown _ (appRun_inv es _ Hoff Hinv)) as Hw.
  unfold wellShown in Hw. rewrite Hshown in Hw.
  destruct Hw as (_ & _ & _ & _ & Hmail). apply notBlank_truthy in Hmail.
  split.
  { unfold shown in Hshown. repeat case_match; try done. by injection Hshown. }
  split; [done |].
  destruct (fetches_retried a sub teacherEmail rest first initialResultState
              eq_refl eq_refl Hretries) as [H _].
  cbv zeta in H. rewrite Hlast, Hmail in H. exact H.
Qed.

Lemma results_always_notify_witness :
  emailStatus
    (fetches (handleConfirmAssign oneQuestionDashboard "a_1" 0)
       (snd (handleConfirmSubmit handedOutExam initialExamState) 1) "gv@truong.vn"
       [CallFailed "503"; reply withUnknownId None] initialResultState)
  = sending.
Proof.
  eapply (results_always_notify (sampleLogin ++ [ExamSubmitted initialExamState 1])
            (handleConfirmAssign oneQuestionDashboard "a_1" 0)
            (snd (handleConfirmSubmit handedOutExam initialExamState) 1)
            false "gv@truong.vn" (CallFailed "503") [reply withUnknownId None]).
  - reflexivity.
  - reflexivity.
  - reflexivity.
  - cbn [List.last]. by rewrite gradeSubmission_objects, gradeReply_objects.
Defined.
(** ** What the dashboard asks the generator for *)

Lemma elem_of_questionTypes (t : QuestionType) : t ∈ questionTypes.
Proof. unfold questionTypes. destruct t; set_solver. Qed.

Lemma requestedCount_ge (configs : list GenerationConfig) (k : Z) :
  (∀ c, c ∈ configs → 1 ≤ g_count c) →
  k + Z.of_nat (length configs) ≤ foldl (fun sum c => sum + g_count c) k configs.
Proof.
  revert k. induction configs as [| c configs IH]; intros k H; simpl; [lia |].
  assert (1 ≤ g_count c) by (apply H; apply elem_of_cons; by left).
  etransitivity; [| apply IH].
  - lia.
  - intros c' Hc'. apply H. apply elem_of_cons. by right.
Qed.

Lemma activeConfigs_types (d : DashboardState) :
  g_type <$> activeConfigs d
  = List.filter (fun t => selected (typeConfigs d t) && (count (typeConfigs d t) >? 0))
                questionTypes.
Proof.
  unfold activeConfigs. induction (List.filter _ questionTypes) as [| t l IH]; [done |].
  rewrite !fmap_cons. simpl. by rewrite IH.
Qed.

(** X19.  [handleGenerate] never asks for nothing: it either stops at
    the alert, exactly when no question type is both selected and given
    a count above 0, or calls [generateAssignment] with one entry for
    each such type and no other, each type once, in the order of the
    form, so that the number of questions asked for is at least 1. *)
Theorem generation_request (d : DashboardState) :
  match handleGenerate d with
  | NothingSelected =>
      ∀ t, selected (typeConfigs d t) = false ∨ count (typeConfigs d t) ≤ 0
  | CallGenerate _ _ _ configs contextMaterial =>
      configs ≠ []
      ∧ (∀ t, t ∈ g_type <$> configs
              ↔ selected (typeConfigs d t) = true ∧ 1 ≤ count (typeConfigs d t))
      ∧ (∀ c, c ∈ configs →
              g_count c = count (typeConfigs d (g_type c))
              ∧ g_difficulty c = difficulty (typeConfigs d (g_type c)))
      ∧ NoDup (g_type <$> configs)
      ∧ 1 ≤ requestedCount configs
      ∧ contextMaterial = file_content <$> contextFile d
  end.
Proof.
  assert (Hfilter : ∀ t, t ∈ g_type <$> activeConfigs d
             ↔ selected (typeConfigs d t) = true ∧ 1 ≤ count (typeConfigs d t)).
  { intros t. rewrite activeConfigs_types.
    rewrite list_elem_of_In, filter_In, <- list_elem_of_In, andb_true_iff.
    rewrite Z.gtb_lt. pose proof (elem_of_questionTypes t). intuition lia. }
  assert (Hentries : ∀ c, c ∈ activeConfigs d →
             g_count c = count (typeConfigs d (g_type c))
             ∧ g_difficulty c = difficulty (typeConfigs d (g_type c))).
  { intros c. unfold activeConfigs. rewrite list_elem_of_fmap.
    by intros (t & -> & _). }
  unfold handleGenerate.
  destruct (Z.eqb_spec (Z.of_nat (length (activeConfigs d))) 0) as [Hz | Hnz].
  - intros t. destruct (activeConfigs d) eqn:Ha; [| simpl in Hz; lia].
    specialize (Hfilter t).
    destruct (selected (typeConfigs d t)); [| by left]. right.
    destruct (Z_le_gt_dec 1 (count (typeConfigs d t))) as [Hc |]; [| lia].
    assert (Hin : t ∈ g_type <$> @nil GenerationConfig) by (by apply Hfilter).
    by apply elem_of_nil in Hin.
  - split; [by destruct (activeConfigs d) |].
    split; [done |]. split; [done |]. split; [| split; [| done]].
    + rewrite activeConfigs_types.
      apply NoDup_ListNoDup, List.NoDup_filter, NoDup_ListNoDup.
      unfold questionTypes.
      repeat (apply NoDup_cons; split;
                [rewrite ?elem_of_cons, elem_of_nil; naive_solver |]).
      apply NoDup_nil_2.
    + unfold requestedCount.
      pose proof (requestedCount_ge (activeConfigs d) 0) as Hge.
      assert (0 < Z.of_nat (length (activeConfigs d))) by lia.
      etransitivity; [| apply Hge]; [lia |].
      intros c Hc. destruct (Hentries c Hc) as [-> _].
      apply Hfilter. by apply list_elem_of_fmap_2.
Qed.

Lemma generation_request_witness :
  handleGenerate
    (handleConfigChange MCQ (ChangeCount 0)
       (handleConfigChange TRUE_FALSE (ChangeSelected false) initialDashboardState))
  = NothingSelected
  ∧ ∃ configs, handleGenerate initialDashboardState
               = CallGenerate "Toán học" "10" "" configs None
               ∧ 1 ≤ requestedCount configs.
Proof.
  split; [reflexivity |].
  pose proof (generation_request initialDashboardState) as H.
  eexists. split; [reflexivity |]. apply H.
Defined.
